(** * tg-feeds: the incremental synchronisation of a Telegram channel

    A shallow embedding of [main.go]: the two scrapers
    ([FetchChannel], [FetchPost]), the SQLite cache and [prepareFeed],
    followed by the properties of the synchronisation walk.

    Go's [int] is modelled by [Z] (the program only decrements positive
    ids, so no wrap-around is reachable), a Go [string] by [string]
    (a sequence of bytes), a slice by [list]. *)

From Stdlib Require Import ZArith List String Ascii Bool Lia.
From Stdlib Require Import DecimalString DecimalZ.
From Stdlib Require Import Sorting.Sorted Sorting.Permutation.
Import ListNotations.

Local Open Scope string_scope.
Local Open Scope Z_scope.

(** ** Go runtime and standard library *)

Definition error := string.

(** A Go call either returns or panics. *)
Inductive exec (A : Type) : Type :=
| Return (a : A)
| Panicked (msg : string).
Arguments Return {A} a.
Arguments Panicked {A} msg.

Definition maxInt64 : Z := 9223372036854775807.
Definition minInt64 : Z := -9223372036854775808.

Module strings.

(** [strings.Split(s, sep)] for a one-byte separator. *)
Fixpoint Split (s : string) (sep : ascii) : list string :=
  match s with
  | EmptyString => [EmptyString]
  | String a rest =>
      if Ascii.eqb a sep then EmptyString :: Split rest sep
      else match Split rest sep with
           | [] => [String a EmptyString]
           | h :: t => String a h :: t
           end
  end.

Fixpoint TrimLeft (s : string) (c : ascii) : string :=
  match s with
  | EmptyString => EmptyString
  | String a rest => if Ascii.eqb a c then TrimLeft rest c else s
  end.

Fixpoint TrimRight (s : string) (c : ascii) : string :=
  match s with
  | EmptyString => EmptyString
  | String a rest =>
      match TrimRight rest c with
      | EmptyString => if Ascii.eqb a c then EmptyString else String a EmptyString
      | r => String a r
      end
  end.

(** [strings.Trim(s, cutset)] for a one-byte cutset. *)
Definition Trim (s : string) (c : ascii) : string :=
  TrimRight (TrimLeft s c) c.

(** Whether the byte [c] occurs in [s]. *)
Fixpoint ContainsByte (s : string) (c : ascii) : bool :=
  match s with
  | EmptyString => false
  | String a rest => Ascii.eqb a c || ContainsByte rest c
  end.

End strings.

Module strconv.

Definition maxUint64 : Z := 18446744073709551615.

Definition digit (a : ascii) : option Z :=
  let n := Z.of_nat (nat_of_ascii a) in
  if (48 <=? n) && (n <=? 57) then Some (n - 48) else None.

Inductive scan : Type :=
| Digits (n : Z)
| SyntaxError
| RangeError.

(** The digit loop, [n = n*10 + int(ch)]: a byte that is no digit is a
    syntax error, a value beyond 64 bits a range error, whichever
    comes first. *)
Fixpoint digits (s : string) (n : Z) : scan :=
  match s with
  | EmptyString => Digits n
  | String ch rest =>
      match digit ch with
      | None => SyntaxError
      | Some d =>
          let n1 := n * 10 + d in
          if n1 >? maxUint64 then RangeError else digits rest n1
      end
  end.

Definition syntaxError : error := "strconv.Atoi: invalid syntax".
Definition rangeError : error := "strconv.Atoi: value out of range".

(** [strconv.Atoi]: an optional sign and decimal digits.  A syntax
    error yields 0, a value out of the range of [int] is clamped;
    both come with an error. *)
Definition Atoi (s : string) : Z * option error :=
  let '(neg, body) :=
    match s with
    | String "-" rest => (true, rest)
    | String "+" rest => (false, rest)
    | _ => (false, s)
    end in
  match body with
  | EmptyString => (0, Some syntaxError)
  | _ =>
      match digits body 0 with
      | SyntaxError => (0, Some syntaxError)
      | RangeError => (if neg then minInt64 else maxInt64, Some rangeError)
      | Digits n =>
          let v := if neg then - n else n in
          if v >? maxInt64 then (maxInt64, Some rangeError)
          else if v <? minInt64 then (minInt64, Some rangeError)
          else (v, None)
      end
  end.

(** [strconv.Itoa]: the decimal representation. *)
Definition Itoa (i : Z) : string := NilZero.string_of_int (Z.to_int i).

End strconv.

(** [time.Time] as the Go struct: [==] on it is field-wise equality
    ([loc] stands for the location pointer). *)
Record Time : Type := mkTime { wall : Z; ext : Z; loc : Z }.

Definition zeroTime : Time := mkTime 0 0 0.

Definition Time_eqb (t u : Time) : bool :=
  (wall t =? wall u) && (ext t =? ext u) && (loc t =? loc u).

(** Chronological comparison, as [Time.Before] on times without a
    monotonic reading: seconds in [ext], nanoseconds in [wall]. *)
Definition Time_before (t u : Time) : bool :=
  (ext t <? ext u) || ((ext t =? ext u) && (wall t <? wall u)).

(** ** Documents, as goquery presents them

    A node is given by what the program can ask of it: its text, its
    attributes and, per selector, the descendants that match, in
    document order.  The program applies [Find] to one element at a
    time (the document, or the element a callback receives). *)
#[warnings="-register-all"]
Inductive Node : Type := mkNode {
  nodeText : string;
  nodeAttrs : list (string * string);
  nodeFind : list (string * list Node)
}.

Definition Selection := list Node.

Fixpoint assoc {A : Type} (k : string) (l : list (string * A)) : option A :=
  match l with
  | [] => None
  | (k', v) :: rest => if String.eqb k k' then Some v else assoc k rest
  end.

Module goquery.

Definition Find (s : Selection) (selector : string) : Selection :=
  flat_map (fun n => match assoc selector (nodeFind n) with
                     | Some ns => ns
                     | None => []
                     end) s.

Definition Text (s : Selection) : string :=
  fold_right (fun n acc => nodeText n ++ acc)%string EmptyString s.

(** The attribute of the first element of the selection. *)
Definition Attr (s : Selection) (name : string) : string * bool :=
  match s with
  | [] => (EmptyString, false)
  | n :: _ => match assoc name (nodeAttrs n) with
              | Some v => (v, true)
              | None => (EmptyString, false)
              end
  end.

End goquery.

(** What [http.Get] followed by [goquery.NewDocumentFromReader] gives. *)
Inductive Response : Type :=
| GetFailed (err : error)
| ReadFailed (err : error)
| Page (doc : Node).

(** ** Data model *)

Definition MAX_RSS_POSTS_COUNT : Z := 20.

Record Channel : Type := mkChannel {
  Channel_Name : string;
  Channel_Title : string;
  Channel_LastId : Z;
  Channel_Link : string;
  Channel_Description : string
}.

Record Post : Type := mkPost {
  Post_Header : string;
  Post_Content : string;
  Post_Link : string;
  Post_CreatedAt : Time
}.

Record DbChannel : Type := mkDbChannel {
  DbChannel_Id : Z;
  DbChannel_Name : string;
  DbChannel_Title : string;
  DbChannel_LastId : Z;
  DbChannel_Link : string;
  DbChannel_Description : string
}.

Record DbPost : Type := mkDbPost {
  DbPost_Id : Z;
  DbPost_Header : string;
  DbPost_Content : string;
  DbPost_Link : string;
  DbPost_CreatedAt : Time;
  DbPost_ChannelId : Z
}.

(** gorilla/feeds: the fields of [feeds.Item] and [feeds.Feed] that the
    program sets. *)
Module feeds.

Record Item : Type := mkItem {
  Item_Title : string;
  Item_Link : string;
  Item_Description : string;
  Item_Created : Time
}.

Record Feed : Type := mkFeed {
  Feed_Title : string;
  Feed_Link : option string;
  Feed_Description : string;
  Feed_Items : list Item
}.

End feeds.

Definition zeroChannel : Channel := mkChannel "" "" 0 "" "".
Definition zeroPost : Post := mkPost "" "" "" zeroTime.
Definition zeroDbChannel : DbChannel := mkDbChannel 0 "" "" 0 "" "".
(** [&feeds.Feed{}] *)
Definition emptyFeed : feeds.Feed := feeds.mkFeed "" None "" [].

(** ** The world the program runs in

    The remote site answers [http.Get] by URL, with answers that stay
    the same while one sync runs; the database driver behaves as
    [Faults] says: the statements it fails, and the text it writes
    into and the time it reads from the [createdAt] column; [db] is
    the SQLite file; [out] records, in order, the requests sent and
    the lines printed. *)

Inductive Event : Type :=
| EvHttpGet (url : string)
| EvPrintln (err : error)
| EvTimeErr (err : error)
| EvDownload (channelName : string) (postId : Z)
| EvError (err : error)
| EvDuplicated
| EvCachedProblem (err : error)
| EvCantSave (err : error)
| EvFetchChannelFailed (err : error).

Record Faults : Type := mkFaults {
  failGetChannel : option error;
  failSaveChannel : option error;
  failUpdateLastPostId : option error;
  failGetPosts : option error;
  (** [Some (k, e)]: the insertion of the k-th post fails with [e]
      (the commit, when there are fewer posts). *)
  failSavePosts : option (nat * error);
  (** The [createdAt] column.  go-sqlite3 binds a [time.Time] as the
      text [v.Format("2006-01-02 15:04:05.999999999-07:00")], in the
      zone of the value, and a row scan parses the text of a DATETIME
      column back with [time.ParseInLocation(format, s, time.UTC)],
      the zero time when no format matches.  [timeText] is the text
      written, [timeOfText] the time read back. *)
  timeText : Time -> string;
  timeOfText : string -> Time
}.

(** The timestamps of the examples, as the driver writes them
    (locations 1 and 2 are zones of offset +00:00 and +05:00), and the
    times it reads back: in UTC, the nil location, for offset +00:00,
    and in a fixed zone of its own otherwise. *)
Definition sampleTimes : list (Time * string) :=
  [ (mkTime 0 0 0, "0001-01-01 00:00:00+00:00");
    (mkTime 0 63822488400 2, "2023-06-16 10:00:00+05:00");
    (mkTime 0 63822499200 1, "2023-06-16 08:00:00+00:00");
    (mkTime 0 63822533823 1, "2023-06-16 17:37:03+00:00");
    (mkTime 0 63822589200 1, "2023-06-17 09:00:00+00:00");
    (mkTime 0 63822675600 1, "2023-06-18 09:00:00+00:00");
    (mkTime 0 63822762000 1, "2023-06-19 09:00:00+00:00");
    (mkTime 0 63822848400 1, "2023-06-20 09:00:00+00:00");
    (mkTime 0 63822934800 1, "2023-06-21 09:00:00+00:00");
    (mkTime 0 63823021200 1, "2023-06-22 09:00:00+00:00") ].

Definition sampleTexts : list (string * Time) :=
  [ ("0001-01-01 00:00:00+00:00", mkTime 0 0 0);
    ("2023-06-16 10:00:00+05:00", mkTime 0 63822488400 3);
    ("2023-06-16 08:00:00+00:00", mkTime 0 63822499200 0);
    ("2023-06-16 17:37:03+00:00", mkTime 0 63822533823 0);
    ("2023-06-17 09:00:00+00:00", mkTime 0 63822589200 0);
    ("2023-06-18 09:00:00+00:00", mkTime 0 63822675600 0);
    ("2023-06-19 09:00:00+00:00", mkTime 0 63822762000 0);
    ("2023-06-20 09:00:00+00:00", mkTime 0 63822848400 0);
    ("2023-06-21 09:00:00+00:00", mkTime 0 63822934800 0);
    ("2023-06-22 09:00:00+00:00", mkTime 0 63823021200 0) ].

Definition sampleTimeText (t : Time) : string :=
  match find (fun e => Time_eqb (fst e) t) sampleTimes with
  | Some e => snd e
  | None => EmptyString
  end.

Definition sampleTimeOfText (s : string) : Time :=
  match assoc s sampleTexts with
  | Some t => t
  | None => zeroTime
  end.

Definition noFaults : Faults :=
  mkFaults None None None None None sampleTimeText sampleTimeOfText.

Record Db : Type := mkDb {
  channels : list DbChannel;
  posts : list DbPost;
  channelSeq : Z;
  postSeq : Z
}.

Definition emptyDb : Db := mkDb [] [] 0 0.

Record World : Type := mkWorld {
  web : string -> Response;
  faults : Faults;
  db : Db;
  out : list Event
}.

Definition M (A : Type) : Type := World -> exec A * World.

Definition ret {A : Type} (a : A) : M A := fun w => (Return a, w).

Definition bind {A B : Type} (m : M A) (k : A -> M B) : M B :=
  fun w => match m w with
           | (Return a, w') => k a w'
           | (Panicked msg, w') => (Panicked msg, w')
           end.

Definition panic {A : Type} (msg : string) : M A := fun w => (Panicked msg, w).

Declare Scope go_scope.
Delimit Scope go_scope with go.
Notation "x <- m ;; k" := (bind m (fun x => k))
  (at level 61, m at next level, right associativity) : go_scope.
Notation "' p <- m ;; k" := (bind m (fun x => let p := x in k))
  (at level 61, p pattern, m at next level, right associativity) : go_scope.
Notation "m ;; k" := (bind m (fun _ => k))
  (at level 61, right associativity) : go_scope.
Local Open Scope go_scope.

Definition emit (e : Event) : M unit :=
  fun w => (Return tt, mkWorld (web w) (faults w) (db w) (out w ++ [e])).

Definition emitAll (es : list Event) : M unit :=
  fun w => (Return tt, mkWorld (web w) (faults w) (db w) (out w ++ es)).

Definition getDb : M Db := fun w => (Return (db w), w).

Definition putDb (d : Db) : M unit :=
  fun w => (Return tt, mkWorld (web w) (faults w) d (out w)).

Definition getFaults : M Faults := fun w => (Return (faults w), w).

Definition http_Get (url : string) : M Response :=
  fun w => (Return (web w url), mkWorld (web w) (faults w) (db w) (out w ++ [EvHttpGet url])).

(** [Selection.Each] with a callback that updates captured variables. *)
Definition Each {S : Type} (sel : Selection) (f : S -> Selection -> exec S)
    (init : S) : exec S :=
  fold_left (fun acc n => match acc with
                          | Return s => f s [n]
                          | Panicked msg => Panicked msg
                          end) sel (Return init).

Definition tgChannelPostUrl (channelName : string) (id : Z) : string :=
  ("https://t.me/" ++ channelName ++ "/" ++ strconv.Itoa id ++ "?embed=1&mode=tme")%string.

Definition tgChannelFeedUrl (channelName : string) : string :=
  ("https://t.me/s/" ++ channelName)%string.

(** ** The interfaces *)

Record Cache : Type := mkCache {
  GetChannel : string -> M (DbChannel * option error);
  SaveChannel : Channel -> M (DbChannel * option error);
  UpdateLastPostId : Z -> Z -> M (option error);
  GetPosts : Z -> Z -> M (list DbPost * option error);
  SavePosts : Z -> list Post -> M (list DbPost * option error)
}.

Record Fetcher : Type := mkFetcher {
  FetchChannel : string -> M (Channel * option error);
  FetchPost : string -> Z -> M (Post * option error)
}.

Definition len {A : Type} (l : list A) : Z := Z.of_nat (List.length l).

(** ** TelegramWebFetcher *)

Module TelegramWebFetcher.

(** The callback over [.tgme_widget_message]: [split[1]] panics when
    the attribute holds no separator. *)
Definition lastIdStep (lastId : Z) (s : Selection) : exec Z :=
  let '(dataPost, _) := goquery.Attr s "data-post" in
  let split := strings.Split dataPost "/" in
  match nth_error split 1 with
  | None => Panicked "index out of range [1]"
  | Some part =>
      let '(currentId, _) := strconv.Atoi part in
      if (lastId =? -1) || (currentId >? lastId)
      then Return currentId
      else Return lastId
  end.

Definition FetchChannel (channelName : string) : M (Channel * option error) :=
  let url := tgChannelFeedUrl channelName in
  resp <- http_Get url ;;
  match resp with
  | GetFailed err => emit (EvPrintln err) ;; ret (zeroChannel, Some err)
  | ReadFailed _ => panic "nil pointer dereference"
  | Page doc =>
      match Each (goquery.Find [doc] ".tgme_widget_message") lastIdStep (-1) with
      | Panicked msg => panic msg
      | Return lastId =>
          if lastId =? -1
          then ret (zeroChannel, Some "Can't parse channel page")
          else
            let title :=
              fold_left (fun _ s => goquery.Text (goquery.Find [s] "span"))
                (goquery.Find [doc] ".tgme_channel_info_header_title") "" in
            let description :=
              fold_left (fun _ s => goquery.Text [s])
                (goquery.Find [doc] ".tgme_channel_info_description") "" in
            ret (mkChannel channelName title lastId url description, None)
      end
  end.

Section WithClock.

(** [time.Parse(layout, value)], of Go's library. *)
Variable time_Parse : string -> string -> Time + error.

Definition layout : string := "2006-01-02T15:04:05Z07:00".

(** The callback over [.tgme_widget_message_date]; a failed parse
    is printed and leaves the zero time in [createdAt]. *)
Definition createdAtStep (acc : Time * list Event) (s : Node)
    : Time * list Event :=
  let '(datetime, _) := goquery.Attr (goquery.Find [s] "time") "datetime" in
  match time_Parse layout datetime with
  | inl t => (t, snd acc)
  | inr err => (zeroTime, (snd acc ++ [EvTimeErr err])%list)
  end.

Definition FetchPost (channelName : string) (id : Z) : M (Post * option error) :=
  let url := tgChannelPostUrl channelName id in
  resp <- http_Get url ;;
  match resp with
  | GetFailed err => emit (EvPrintln err) ;; ret (zeroPost, Some err)
  | ReadFailed err => ret (zeroPost, Some err)
  | Page doc =>
      let error_message :=
        fold_left (fun _ s => goquery.Text [s])
          (goquery.Find [doc] ".tgme_widget_message_error") "" in
      if negb (String.eqb error_message "")
      then ret (zeroPost, Some error_message)
      else
        let content :=
          fold_left (fun _ s => goquery.Text [s])
            (goquery.Find [doc] ".tgme_widget_message_text.js-message_text") "" in
        let '(createdAt, printed) :=
          fold_left createdAtStep
            (goquery.Find [doc] ".tgme_widget_message_date") (zeroTime, []) in
        emitAll printed ;;
        let headerContent :=
          if Z.of_nat (String.length content) >? 100
          then (strings.Trim (substring 0 100 content) " " ++ "...")%string
          else "" in
        let content :=
          (content ++ String "010" (String "010" "") ++ "<a href=" ++ String "034" ""
             ++ url ++ String "034" "" ++ ">[link]</a>")%string in
        ret (mkPost headerContent content url createdAt, None)
  end.

End WithClock.

End TelegramWebFetcher.

Definition telegramWebFetcher (time_Parse : string -> string -> Time + error) : Fetcher :=
  mkFetcher TelegramWebFetcher.FetchChannel (TelegramWebFetcher.FetchPost time_Parse).

(** ** SqliteCache

    The two tables as lists of rows in insertion order, with the
    AUTOINCREMENT counters.  Each method first consults [Faults]: a
    failing statement leaves the tables as they were.  A row of
    [posts] keeps the [time.Time] that was bound; the text of its
    [createdAt] column is [timeText] of it. *)

Module SqliteCache.

Definition GetChannel (name : string) : M (DbChannel * option error) :=
  f <- getFaults ;;
  d <- getDb ;;
  match failGetChannel f with
  | Some e => ret (zeroDbChannel, Some e)
  | None =>
      match find (fun c => String.eqb (DbChannel_Name c) name) (channels d) with
      | Some c => ret (c, None)
      | None => ret (zeroDbChannel, Some "sql: no rows in result set")
      end
  end.

(** [name] is UNIQUE.  When [Exec] fails, [res] is nil and
    [res.LastInsertId()] panics; after an insertion the driver's
    [LastInsertId] does not fail. *)
Definition SaveChannel (channel : Channel) : M (DbChannel * option error) :=
  f <- getFaults ;;
  d <- getDb ;;
  let taken :=
    existsb (fun c => String.eqb (DbChannel_Name c) (Channel_Name channel)) (channels d) in
  match failSaveChannel f, taken with
  | None, false =>
      let lastInsertId := channelSeq d + 1 in
      let dbChannel :=
        mkDbChannel lastInsertId (Channel_Name channel) (Channel_Title channel)
          (Channel_LastId channel) (Channel_Link channel) (Channel_Description channel) in
      putDb (mkDb (channels d ++ [dbChannel]) (posts d) lastInsertId (postSeq d)) ;;
      ret (dbChannel, None)
  | _, _ => panic "nil pointer dereference"
  end.

Definition setLastId (channelId lastPostId : Z) (c : DbChannel) : DbChannel :=
  if DbChannel_Id c =? channelId
  then mkDbChannel (DbChannel_Id c) (DbChannel_Name c) (DbChannel_Title c)
         lastPostId (DbChannel_Link c) (DbChannel_Description c)
  else c.

Definition UpdateLastPostId (channelId lastPostId : Z) : M (option error) :=
  f <- getFaults ;;
  d <- getDb ;;
  match failUpdateLastPostId f with
  | Some e => ret (Some e)
  | None =>
      putDb (mkDb (map (setLastId channelId lastPostId) (channels d))
               (posts d) (channelSeq d) (postSeq d)) ;;
      ret None
  end.

(** ORDER BY createdAt DESC, by insertion.  The column holds the text
    the driver wrote for the time ([text]); a text of the driver's
    format is not a number, so it is kept as text, and SQLite compares
    texts byte by byte. *)
Fixpoint insertDesc (text : Time -> string) (p : DbPost) (l : list DbPost)
    : list DbPost :=
  match l with
  | [] => [p]
  | q :: rest =>
      if String.ltb (text (DbPost_CreatedAt p)) (text (DbPost_CreatedAt q))
      then q :: insertDesc text p rest
      else p :: l
  end.

Definition orderByCreatedAtDesc (text : Time -> string) (l : list DbPost)
    : list DbPost :=
  fold_right (insertDesc text) [] l.

(** LIMIT: a negative count means no limit. *)
Definition limit {A : Type} (count : Z) (l : list A) : list A :=
  if count <? 0 then l else firstn (Z.to_nat count) l.

(** [rows.Scan]: [createdAt] is read back from the text written for
    it.  The SELECT does not read [channelId]: the field keeps its
    zero. *)
Definition scanPost (f : Faults) (p : DbPost) : DbPost :=
  mkDbPost (DbPost_Id p) (DbPost_Header p) (DbPost_Content p) (DbPost_Link p)
    (timeOfText f (timeText f (DbPost_CreatedAt p))) 0.

Definition GetPosts (channelId count : Z) : M (list DbPost * option error) :=
  f <- getFaults ;;
  d <- getDb ;;
  match failGetPosts f with
  | Some e => ret ([], Some e)
  | None =>
      let rows := filter (fun p => DbPost_ChannelId p =? channelId) (posts d) in
      ret (map (scanPost f) (limit count (orderByCreatedAtDesc (timeText f) rows)), None)
  end.

Fixpoint insertAll (channelId insertedId : Z) (ps : list Post) : list DbPost :=
  match ps with
  | [] => []
  | post :: rest =>
      mkDbPost insertedId (Post_Header post) (Post_Content post) (Post_Link post)
        (Post_CreatedAt post) channelId
      :: insertAll channelId (insertedId + 1) rest
  end.

(** One transaction: on a failure the posts inserted so far are
    returned with the error and nothing is kept. *)
Definition SavePosts (channelId : Z) (ps : list Post) : M (list DbPost * option error) :=
  f <- getFaults ;;
  d <- getDb ;;
  let savedPosts := insertAll channelId (postSeq d + 1) ps in
  match failSavePosts f with
  | Some (k, e) => ret (firstn k savedPosts, Some e)
  | None =>
      putDb (mkDb (channels d) (posts d ++ savedPosts)%list (channelSeq d)
               (postSeq d + len ps)) ;;
      ret (savedPosts, None)
  end.

End SqliteCache.

Definition sqliteCache : Cache :=
  mkCache SqliteCache.GetChannel SqliteCache.SaveChannel SqliteCache.UpdateLastPostId
    SqliteCache.GetPosts SqliteCache.SavePosts.

(** ** prepareFeed *)

Definition generateFeed (channel : DbChannel) (ps : list DbPost) : feeds.Feed :=
  feeds.mkFeed (DbChannel_Name channel) (Some (DbChannel_Link channel))
    (DbChannel_Description channel)
    (map (fun post => feeds.mkItem (DbPost_Header post) (DbPost_Link post)
                        (DbPost_Content post) (DbPost_CreatedAt post)) ps).

(** [posts[len(posts)-1].CreatedAt], read only when [len(posts) > 0]. *)
Definition lastCreatedAt (ps : list Post) : Time :=
  Post_CreatedAt (last ps zeroPost).

Section Walk.

Variable channelName : string.
Variable fetcher : Fetcher.
Variable channel : Channel.
Variable dbCachedChannel : DbChannel.

(** The loop [for postId > 0 && len(posts) < MAX_RSS_POSTS_COUNT].
    [fuel] bounds the number of iterations; [Z.to_nat postId] of it
    is always enough ([walk_fuel]). *)
Fixpoint walk (fuel : nat) (postId : Z) (ps : list Post) : M (list Post) :=
  match fuel with
  | O => ret ps
  | S fuel' =>
      if (postId >? 0) && (len ps <? MAX_RSS_POSTS_COUNT) then
        emit (EvDownload channelName postId) ;;
        '(post, err) <- FetchPost fetcher (Channel_Name channel) postId ;;
        let postId := postId - 1 in
        match err with
        | Some e => emit (EvError e) ;; walk fuel' postId ps
        | None =>
            if (len ps >? 0) && Time_eqb (Post_CreatedAt post) (lastCreatedAt ps)
            then emit EvDuplicated ;; walk fuel' postId ps
            else if postId =? DbChannel_LastId dbCachedChannel
            then ret ps
            else walk fuel' postId (ps ++ [post])%list
        end
      else ret ps
  end.

End Walk.

Definition prepareFeed (channelName : string) (cache : Cache) (fetcher : Fetcher)
    : M (feeds.Feed * option error) :=
  '(channel, err) <- FetchChannel fetcher channelName ;;
  let feed := emptyFeed in
  match err with
  | None =>
      '(dbCachedChannel, err) <- GetChannel cache channelName ;;
      dbCachedChannel <-
        match err with
        | Some _ =>
            let newChannel :=
              mkChannel (Channel_Name channel) (Channel_Title channel) 0
                (Channel_Link channel) (Channel_Description channel) in
            '(saved, _) <- SaveChannel cache newChannel ;;
            ret saved
        | None => ret dbCachedChannel
        end ;;
      if DbChannel_LastId dbCachedChannel =? Channel_LastId channel then
        '(dbPosts, err) <- GetPosts cache (DbChannel_Id dbCachedChannel) MAX_RSS_POSTS_COUNT ;;
        match err with
        | None => ret (generateFeed dbCachedChannel dbPosts, None)
        | Some e => emit (EvCachedProblem e) ;; ret (feed, Some e)
        end
      else
        let postId := Channel_LastId channel in
        ps <- walk channelName fetcher channel dbCachedChannel (Z.to_nat postId) postId [] ;;
        _ <- UpdateLastPostId cache (DbChannel_Id dbCachedChannel) (Channel_LastId channel) ;;
        '(newDbPosts, err) <- SavePosts cache (DbChannel_Id dbCachedChannel) ps ;;
        match err with
        | Some e => emit (EvCantSave e) ;; ret (feed, None)
        | None => ret (generateFeed dbCachedChannel newDbPosts, None)
        end
  | Some e => emit (EvFetchChannelFailed e) ;; ret (feed, Some e)
  end.

(** ** Vocabulary of the statements *)

Definition withOut (w : World) (o : list Event) : World :=
  mkWorld (web w) (faults w) (db w) o.

Definition withDb (w : World) (d : Db) : World :=
  mkWorld (web w) (faults w) d (out w).

(** The remote protocol: a message element carries id [a] when its
    [data-post] attribute reads [<channelName>/<a in decimal>]. *)
Definition carriesId (n : Node) (a : Z) : Prop :=
  exists channelName,
    strings.ContainsByte channelName "/" = false /\
    goquery.Attr [n] "data-post"
    = ((channelName ++ String "/" (strconv.Itoa a))%string, true).

Definition hasSeparator (n : Node) : bool :=
  strings.ContainsByte (fst (goquery.Attr [n] "data-post")) "/".

(** One iteration of the head lookup's callback, on parsed ids. *)
Definition keepMax (lastId currentId : Z) : Z :=
  if (lastId =? -1) || (currentId >? lastId) then currentId else lastId.

(** What the post page shows. *)
Definition errorMessageOf (doc : Node) : string :=
  last (map (fun s => goquery.Text [s])
          (goquery.Find [doc] ".tgme_widget_message_error")) "".

Definition contentOf (doc : Node) : string :=
  last (map (fun s => goquery.Text [s])
          (goquery.Find [doc] ".tgme_widget_message_text.js-message_text")) "".

(** The [datetime] attributes of the date elements, in document order. *)
Definition datetimesOf (doc : Node) : list string :=
  map (fun s => fst (goquery.Attr (goquery.Find [s] "time") "datetime"))
    (goquery.Find [doc] ".tgme_widget_message_date").

(** A single unambiguous creation timestamp: exactly one date element,
    and its [datetime] parses. *)
Definition resolvedCreatedAt (time_Parse : string -> string -> Time + error)
    (doc : Node) : option Time :=
  match datetimesOf doc with
  | [datetime] =>
      match time_Parse TelegramWebFetcher.layout datetime with
      | inl t => Some t
      | inr _ => None
      end
  | _ => None
  end.

Definition parsedOrZero (time_Parse : string -> string -> Time + error)
    (datetime : string) : Time :=
  match time_Parse TelegramWebFetcher.layout datetime with
  | inl t => t
  | inr _ => zeroTime
  end.

(** The creation time the program settles on: the last date element
    decides, and a failed parse leaves the zero time. *)
Definition createdAtOf (time_Parse : string -> string -> Time + error)
    (doc : Node) : Time :=
  match rev (datetimesOf doc) with
  | [] => zeroTime
  | datetime :: _ => parsedOrZero time_Parse datetime
  end.

(** The back-link appended to the content. *)
Definition backLink (url : string) : string :=
  (String "010" (String "010" "") ++ "<a href=" ++ String "034" ""
     ++ url ++ String "034" "" ++ ">[link]</a>")%string.

(** The header snippet in the specification's words: the first 100
    characters and the ellipsis marker when the content is longer than
    100, empty otherwise. *)
Definition headerSnippetSpec (content : string) : string :=
  if Z.of_nat (String.length content) >? 100
  then (substring 0 100 content ++ "...")%string
  else "".

(** The header snippet as the program builds it. *)
Definition trimmedSnippet (content : string) : string :=
  if Z.of_nat (String.length content) >? 100
  then (strings.Trim (substring 0 100 content) " " ++ "...")%string
  else "".

Fixpoint allSpaces (s : string) : bool :=
  match s with
  | EmptyString => true
  | String a rest => Ascii.eqb a " " && allSpaces rest
  end.

Fixpoint lastByte (s : string) : option ascii :=
  match s with
  | EmptyString => None
  | String a EmptyString => Some a
  | String _ rest => lastByte rest
  end.

Definition firstByte (s : string) : option ascii :=
  match s with
  | EmptyString => None
  | String a _ => Some a
  end.

(** [h] is [s] without its leading and trailing spaces. *)
Definition trimmedOf (s h : string) : Prop :=
  (exists l r, s = (l ++ h ++ r)%string /\ allSpaces l = true /\ allSpaces r = true) /\
  firstByte h <> Some " "%char /\ lastByte h <> Some " "%char.

(** The ids for which a single-item fetch was issued, in order: the
    program prints a line before each call of [FetchPost]. *)
Definition downloads (evs : list Event) : list Z :=
  flat_map (fun e => match e with
                     | EvDownload _ postId => [postId]
                     | _ => []
                     end) evs.

(** The requests sent to the remote site, in order. *)
Definition requests (evs : list Event) : list string :=
  flat_map (fun e => match e with
                     | EvHttpGet url => [url]
                     | _ => []
                     end) evs.

(** [p] is what a successful single-item fetch of id [d] returned. *)
Definition fetchedFrom (fetcher : Fetcher) (name : string) (d : Z) (p : Post) : Prop :=
  exists w, fst (FetchPost fetcher name d w) = Return (p, None).

(** [from; from - 1; ...], [n] ids. *)
Fixpoint countdown (from : Z) (n : nat) : list Z :=
  match n with
  | O => []
  | S n' => from :: countdown (from - 1) n'
  end.

(** A fetcher whose single-item fetch returns and only adds to the
    output, without printing download lines of its own. *)
Definition quiet (fetcher : Fetcher) : Prop :=
  forall name id w,
    exists r evs,
      FetchPost fetcher name id w = (Return r, withOut w (out w ++ evs)) /\
      downloads evs = [].

Definition findChannel (name : string) (d : Db) : option DbChannel :=
  find (fun c => String.eqb (DbChannel_Name c) name) (channels d).

(** The stored cursor of a channel, if the channel is known. *)
Definition cursorOf (name : string) (d : Db) : option Z :=
  match find (fun c => String.eqb (DbChannel_Name c) name) (channels d) with
  | Some c => Some (DbChannel_LastId c)
  | None => None
  end.

(** The two parts of [prepareFeed] that follow the head lookup, named
    for the statements ([prepareFeed_unfold] relates them to it): the
    lookup or creation of the channel record, and the freshness check
    with the path it selects. *)
Definition resolveChannel (cache : Cache) (channelName : string) (channel : Channel)
    : M DbChannel :=
  '(dbCachedChannel, err) <- GetChannel cache channelName ;;
  match err with
  | Some _ =>
      let newChannel :=
        mkChannel (Channel_Name channel) (Channel_Title channel) 0
          (Channel_Link channel) (Channel_Description channel) in
      '(saved, _) <- SaveChannel cache newChannel ;;
      ret saved
  | None => ret dbCachedChannel
  end.

Definition serve (channelName : string) (cache : Cache) (fetcher : Fetcher)
    (channel : Channel) (dbCachedChannel : DbChannel) : M (feeds.Feed * option error) :=
  if DbChannel_LastId dbCachedChannel =? Channel_LastId channel then
    '(dbPosts, err) <- GetPosts cache (DbChannel_Id dbCachedChannel) MAX_RSS_POSTS_COUNT ;;
    match err with
    | None => ret (generateFeed dbCachedChannel dbPosts, None)
    | Some e => emit (EvCachedProblem e) ;; ret (emptyFeed, Some e)
    end
  else
    let postId := Channel_LastId channel in
    ps <- walk channelName fetcher channel dbCachedChannel (Z.to_nat postId) postId [] ;;
    _ <- UpdateLastPostId cache (DbChannel_Id dbCachedChannel) (Channel_LastId channel) ;;
    '(newDbPosts, err) <- SavePosts cache (DbChannel_Id dbCachedChannel) ps ;;
    match err with
    | Some e => emit (EvCantSave e) ;; ret (emptyFeed, None)
    | None => ret (generateFeed dbCachedChannel newDbPosts, None)
    end.

(** The effect of the two writes on the tables. *)
Definition dbUpdate (channelId lastPostId : Z) (d : Db) : Db :=
  mkDb (map (SqliteCache.setLastId channelId lastPostId) (channels d))
    (posts d) (channelSeq d) (postSeq d).

Definition dbAppend (channelId : Z) (ps : list Post) (d : Db) : Db :=
  mkDb (channels d)
    (posts d ++ SqliteCache.insertAll channelId (postSeq d + 1) ps)%list
    (channelSeq d) (postSeq d + len ps).

Definition dbCreate (channel : Channel) (d : Db) : Db :=
  mkDb (channels d ++
          [mkDbChannel (channelSeq d + 1) (Channel_Name channel) (Channel_Title channel)
             0 (Channel_Link channel) (Channel_Description channel)])%list
    (posts d) (channelSeq d + 1) (postSeq d).

Definition createdChannel (channel : Channel) (d : Db) : DbChannel :=
  mkDbChannel (channelSeq d + 1) (Channel_Name channel) (Channel_Title channel)
    0 (Channel_Link channel) (Channel_Description channel).

(** What [GetPosts] reads for a channel: its rows in descending order
    of the [createdAt] text, cut at the limit. *)
Definition recentPosts (f : Faults) (channelId count : Z) (d : Db) : list DbPost :=
  map (SqliteCache.scanPost f)
    (SqliteCache.limit count
       (SqliteCache.orderByCreatedAtDesc (timeText f)
          (filter (fun p => DbPost_ChannelId p =? channelId) (posts d)))).

(** The tables after the writes of a stale sync. *)
Definition afterUpdate (f : Faults) (channelId lastPostId : Z) (d : Db) : Db :=
  match failUpdateLastPostId f with
  | Some _ => d
  | None => dbUpdate channelId lastPostId d
  end.



(** ** The server, one request after another

    A request names a channel; the remote site and the database driver
    behave as they do at that moment.  The handler runs [prepareFeed]
    on the shared database; the requests are taken one at a time. *)

Record Call : Type := mkCall {
  callName : string;
  callWeb : string -> Response;
  callFaults : Faults
}.

Definition worldOf (d : Db) (c : Call) : World :=
  mkWorld (callWeb c) (callFaults c) d [].

Definition handle (time_Parse : string -> string -> Time + error) (d : Db) (c : Call) : Db :=
  db (snd (prepareFeed (callName c) sqliteCache (telegramWebFetcher time_Parse)
             (worldOf d c))).

Definition handleAll (time_Parse : string -> string -> Time + error)
    (d : Db) (calls : list Call) : Db :=
  fold_left (handle time_Parse) calls d.

(** The head id a call's head lookup derives, if it succeeds. *)
Definition headSeen (d : Db) (c : Call) : option Z :=
  match fst (TelegramWebFetcher.FetchChannel (callName c) (worldOf d c)) with
  | Return (channel, None) => Some (Channel_LastId channel)
  | _ => None
  end.

(** Every call finds a head id that is not below the cursor stored for
    its channel when it starts. *)
Fixpoint headsNotBelowCursor (time_Parse : string -> string -> Time + error)
    (d : Db) (calls : list Call) : Prop :=
  match calls with
  | [] => True
  | c :: rest =>
      (forall head cursor,
          headSeen d c = Some head ->
          cursorOf (callName c) d = Some cursor ->
          cursor <= head) /\
      headsNotBelowCursor time_Parse (handle time_Parse d c) rest
  end.

(** What the schema guarantees of the channels table: [id] is a
    primary key handed out by the AUTOINCREMENT counter. *)
Definition wfDb (d : Db) : Prop :=
  NoDup (map DbChannel_Id (channels d)) /\
  Forall (fun c => DbChannel_Id c <= channelSeq d) (channels d).

(** ** Sample pages and worlds, for the examples *)

Definition messageNode (dataPost : string) : Node :=
  mkNode "" [("data-post", dataPost)] [].

Definition listingPage (dataPosts : list string) (title description : string) : Node :=
  mkNode "" []
    [ (".tgme_widget_message", map messageNode dataPosts);
      (".tgme_channel_info_header_title",
        [mkNode "" [] [("span", [mkNode title [] []])]]);
      (".tgme_channel_info_description", [mkNode description [] []]) ].

Definition dateNode (datetime : string) : Node :=
  mkNode "" [] [("time", [mkNode "" [("datetime", datetime)] []])].

Definition postPage (content datetime : string) : Node :=
  mkNode "" []
    [ (".tgme_widget_message_text.js-message_text", [mkNode content [] []]);
      (".tgme_widget_message_date", [dateNode datetime]) ].

(** A post page that shows no date element. *)
Definition undatedPage (content : string) : Node :=
  mkNode "" []
    [ (".tgme_widget_message_text.js-message_text", [mkNode content [] []]) ].

(** The page of a removed post. *)
Definition removedPage (message : string) : Node :=
  mkNode "" [] [ (".tgme_widget_message_error", [mkNode message [] []]) ].

Definition site (pages : list (string * Response)) : string -> Response :=
  fun url => match assoc url pages with
             | Some r => r
             | None => GetFailed "no such host"
             end.

(** A clock that knows the timestamps of a table and rejects the rest
    (in the samples, location 1 is the zone of offset +00:00). *)
Definition tableClock (table : list (string * Time)) (layout value : string)
    : Time + error :=
  match assoc value table with
  | Some t => inl t
  | None => inr "parsing time: cannot parse"
  end.

Definition sampleClock : string -> string -> Time + error :=
  tableClock
    [ ("2023-06-16T17:37:03+00:00", mkTime 0 63822533823 1);
      ("2023-06-17T09:00:00+00:00", mkTime 0 63822589200 1);
      ("2023-06-18T09:00:00+00:00", mkTime 0 63822675600 1);
      ("2023-06-19T09:00:00+00:00", mkTime 0 63822762000 1);
      ("2023-06-20T09:00:00+00:00", mkTime 0 63822848400 1);
      ("2023-06-21T09:00:00+00:00", mkTime 0 63822934800 1);
      ("2023-06-22T09:00:00+00:00", mkTime 0 63823021200 1) ].

Fixpoint repeatByte (n : nat) (c : ascii) : string :=
  match n with
  | O => EmptyString
  | S n' => String c (repeatByte n' c)
  end.

Definition lexfridmanListing : Node :=
  listingPage ["lexfridman/291"; "lexfridman/293"; "lexfridman/290"]
    "Lex Fridman" "Host of Lex Fridman Podcast.".

Definition brokenListing : Node :=
  listingPage ["lexfridman/291"; "lexfridman"] "Lex Fridman" "".

(** 101 bytes, the first of them a space. *)
Definition paddedContent : string := String " " (repeatByte 100 "a").

Definition paddedWorld : World :=
  mkWorld
    (site [ (tgChannelPostUrl "lexfridman" 272,
             Page (postPage paddedContent "2023-06-16T17:37:03+00:00")) ])
    noFaults emptyDb [].

(** A new channel whose newest post shows no date. *)
Definition undatedWorld : World :=
  mkWorld
    (site [ (tgChannelFeedUrl "news", Page (listingPage ["news/1"; "news/2"] "News" ""));
            (tgChannelPostUrl "news" 2, Page (undatedPage "hello"));
            (tgChannelPostUrl "news" 1,
             Page (postPage "first" "2023-06-16T17:37:03+00:00")) ])
    noFaults emptyDb [].

Definition storedChannel (id : Z) (name : string) (cursor : Z) : DbChannel :=
  mkDbChannel id name "News" cursor (tgChannelFeedUrl name) "".

(** Channel "news" is stored with cursor 5; the listing shows posts 5
    and 7, post 6 has been removed. *)
Definition gapWorld : World :=
  mkWorld
    (site [ (tgChannelFeedUrl "news", Page (listingPage ["news/5"; "news/7"] "News" ""));
            (tgChannelPostUrl "news" 7, Page (postPage "seven" "2023-06-22T09:00:00+00:00"));
            (tgChannelPostUrl "news" 6, Page (removedPage "Post not found"));
            (tgChannelPostUrl "news" 5, Page (postPage "five" "2023-06-21T09:00:00+00:00"));
            (tgChannelPostUrl "news" 4, Page (postPage "four" "2023-06-20T09:00:00+00:00"));
            (tgChannelPostUrl "news" 3, Page (postPage "three" "2023-06-19T09:00:00+00:00"));
            (tgChannelPostUrl "news" 2, Page (postPage "two" "2023-06-18T09:00:00+00:00"));
            (tgChannelPostUrl "news" 1, Page (postPage "one" "2023-06-17T09:00:00+00:00")) ])
    noFaults
    (mkDb [storedChannel 1 "news" 5] [] 1 0)
    [].

(** Channel "news" is stored with cursor 5 and one new post, 6, has
    appeared. *)
Definition oneNewPostWorld : World :=
  mkWorld
    (site [ (tgChannelFeedUrl "news", Page (listingPage ["news/5"; "news/6"] "News" ""));
            (tgChannelPostUrl "news" 6, Page (postPage "six" "2023-06-22T09:00:00+00:00"));
            (tgChannelPostUrl "news" 5, Page (postPage "five" "2023-06-21T09:00:00+00:00")) ])
    noFaults
    (mkDb [storedChannel 1 "news" 5] [] 1 0)
    [].

(** As [gapWorld] with posts 6 and 7 both new and readable, and a
    database that refuses the append. *)
Definition appendFailsWorld : World :=
  mkWorld
    (site [ (tgChannelFeedUrl "news", Page (listingPage ["news/6"; "news/7"] "News" ""));
            (tgChannelPostUrl "news" 7, Page (postPage "seven" "2023-06-22T09:00:00+00:00"));
            (tgChannelPostUrl "news" 6, Page (postPage "six" "2023-06-21T09:00:00+00:00")) ])
    (mkFaults None None None None (Some (O, "database is locked"))
       sampleTimeText sampleTimeOfText)
    (mkDb [storedChannel 1 "news" 5] [] 1 0)
    [].

(** Channel "news" is stored with cursor 10; posts 6 to 10 have been
    removed since and the listing shows 4 and 5. *)
Definition rolledBackWorld : World :=
  mkWorld
    (site [ (tgChannelFeedUrl "news", Page (listingPage ["news/4"; "news/5"] "News" ""));
            (tgChannelPostUrl "news" 5, Page (postPage "five" "2023-06-21T09:00:00+00:00"));
            (tgChannelPostUrl "news" 4, Page (postPage "four" "2023-06-20T09:00:00+00:00"));
            (tgChannelPostUrl "news" 3, Page (postPage "three" "2023-06-19T09:00:00+00:00"));
            (tgChannelPostUrl "news" 2, Page (postPage "two" "2023-06-18T09:00:00+00:00"));
            (tgChannelPostUrl "news" 1, Page (postPage "one" "2023-06-17T09:00:00+00:00")) ])
    noFaults
    (mkDb [storedChannel 1 "news" 10] [] 1 0)
    [].



(** Channel "news" is stored with cursor 7 and two posts, next to a
    post of another channel; the listing still ends at 7. *)
Definition freshWorld : World :=
  mkWorld
    (site [ (tgChannelFeedUrl "news", Page (listingPage ["news/6"; "news/7"] "News" "")) ])
    noFaults
    (mkDb [storedChannel 1 "news" 7; storedChannel 2 "other" 2]
       [ mkDbPost 1 "" "five" (tgChannelPostUrl "news" 5) (mkTime 0 63822934800 1) 1;
         mkDbPost 2 "" "seven" (tgChannelPostUrl "news" 7) (mkTime 0 63823021200 1) 1;
         mkDbPost 3 "" "other" (tgChannelPostUrl "other" 2) (mkTime 0 63823021200 1) 2 ]
       2 3)
    [].

(** Two requests for "news": the site first shows post 6 as newest,
    then post 7. *)
Definition firstCall : Call := mkCall "news" (web oneNewPostWorld) noFaults.
Definition secondCall : Call := mkCall "news" (web gapWorld) noFaults.

(** ** Vocabulary of the further properties *)

(** The post a row holds. *)
Definition postOf (r : DbPost) : Post :=
  mkPost (DbPost_Header r) (DbPost_Content r) (DbPost_Link r) (DbPost_CreatedAt r).

(** The rows stored for a channel, in insertion order. *)
Definition rowsOf (channelId : Z) (d : Db) : list DbPost :=
  filter (fun p => DbPost_ChannelId p =? channelId) (posts d).

(** The channel record that [SaveChannel] builds for [channel]. *)
Definition recordOf (id : Z) (channel : Channel) : DbChannel :=
  mkDbChannel id (Channel_Name channel) (Channel_Title channel) (Channel_LastId channel)
    (Channel_Link channel) (Channel_Description channel).

(** [c'] is [c] but for the cursor. *)
Definition sameButCursor (c c' : DbChannel) : Prop :=
  DbChannel_Id c' = DbChannel_Id c /\
  DbChannel_Name c' = DbChannel_Name c /\
  DbChannel_Title c' = DbChannel_Title c /\
  DbChannel_Link c' = DbChannel_Link c /\
  DbChannel_Description c' = DbChannel_Description c.

(** A database with one channel and one post, for the examples. *)
Definition smallDb : Db :=
  mkDb [storedChannel 1 "news" 5]
    [mkDbPost 1 "" "five" (tgChannelPostUrl "news" 5) (mkTime 0 63822934800 1) 1]
    1 1.

Definition smallWorld : World := mkWorld (site []) noFaults smallDb [].

Definition twoPosts : list Post :=
  [ mkPost "" "seven" (tgChannelPostUrl "news" 7) (mkTime 0 63823021200 1);
    mkPost "" "six" (tgChannelPostUrl "news" 6) (mkTime 0 63822934800 1) ].

(** [c] with its cursor set to [lastPostId]. *)
Definition withCursor (c : DbChannel) (lastPostId : Z) : DbChannel :=
  mkDbChannel (DbChannel_Id c) (DbChannel_Name c) (DbChannel_Title c) lastPostId
    (DbChannel_Link c) (DbChannel_Description c).

Definition sportChannel : Channel :=
  mkChannel "sport" "Sport" 0 (tgChannelFeedUrl "sport") "Scores".

(** The listing page cannot be fetched. *)
Definition offlineWorld : World :=
  mkWorld (site []) noFaults smallDb [].

(** [from; from + 1; ...], [n] ids. *)
Fixpoint countUp (from : Z) (n : nat) : list Z :=
  match n with
  | O => []
  | S n' => from :: countUp (from + 1) n'
  end.

(** As [gapWorld], with a database whose channel lookup fails. *)
Definition lookupFailsWorld : World :=
  mkWorld (web gapWorld) (mkFaults (Some "disk I/O error") None None None None
                          sampleTimeText sampleTimeOfText)
    (db gapWorld) [].

(** As [appendFailsWorld], but the cursor update fails and the append
    goes through. *)
Definition updateFailsWorld : World :=
  mkWorld (web appendFailsWorld) (mkFaults None None (Some "database is locked") None None
                                   sampleTimeText sampleTimeOfText)
    (db appendFailsWorld) [].

(** No two neighbours of the list share their creation time. *)
Fixpoint noAdjacentDup (ps : list Post) : Prop :=
  match ps with
  | [] => True
  | p :: rest =>
      match rest with
      | [] => True
      | q :: _ => Post_CreatedAt p <> Post_CreatedAt q
      end /\ noAdjacentDup rest
  end.

(** Channel "news" is stored with cursor 1; posts 3 and 4 show the same
    creation time. *)
Definition twinWorld : World :=
  mkWorld
    (site [ (tgChannelFeedUrl "news", Page (listingPage ["news/4"; "news/5"] "News" ""));
            (tgChannelPostUrl "news" 5, Page (postPage "five" "2023-06-21T09:00:00+00:00"));
            (tgChannelPostUrl "news" 4, Page (postPage "four" "2023-06-20T09:00:00+00:00"));
            (tgChannelPostUrl "news" 3, Page (postPage "three" "2023-06-20T09:00:00+00:00"));
            (tgChannelPostUrl "news" 2, Page (postPage "two" "2023-06-18T09:00:00+00:00")) ])
    noFaults
    (mkDb [storedChannel 1 "news" 1] [] 1 0)
    [].

(** What the schema guarantees of the tables: channel names are
    UNIQUE, and the ids of the posts are a primary key handed out by
    the AUTOINCREMENT counter. *)
Definition uniqueNames (d : Db) : Prop :=
  NoDup (map DbChannel_Name (channels d)).

Definition wfPosts (d : Db) : Prop :=
  NoDup (map DbPost_Id (posts d)) /\
  Forall (fun p => DbPost_Id p <= postSeq d) (posts d).

(** [freshWorld] with a store whose SELECT on the posts fails. *)
Definition readFailsWorld : World :=
  mkWorld (web freshWorld)
    (mkFaults None None None (Some "disk I/O error") None
       sampleTimeText sampleTimeOfText)
    (db freshWorld) [].

(** The page of a post cannot be read: the request fails, the body
    cannot be parsed, or the page carries an error message. *)
Definition unreadable (r : Response) : Prop :=
  match r with
  | Page doc => errorMessageOf doc <> ""
  | _ => True
  end.

(** Channel "news" is stored with cursor 0; the listing ends at 3 and
    no post page can be fetched. *)
Definition deafWorld : World :=
  mkWorld
    (site [ (tgChannelFeedUrl "news", Page (listingPage ["news/2"; "news/3"] "News" ""));
            (tgChannelPostUrl "news" 2, Page (removedPage "Post not found")) ])
    noFaults
    (mkDb [storedChannel 1 "news" 0] [] 1 0)
    [].

(** * Properties *)

(** ** The library models *)

Section Library.

Lemma Split_nonempty (s : string) (c : ascii) : strings.Split s c <> [].
Proof.
  destruct s as [|a s]; simpl; [discriminate|].
  destruct (Ascii.eqb a c); [discriminate|].
  destruct (strings.Split s c); discriminate.
Qed.

(** Without the separator there is nothing at index 1. *)
Lemma Split_no_separator (s : string) (c : ascii) :
  strings.ContainsByte s c = false -> strings.Split s c = [s].
Proof.
  induction s as [|a s IH]; simpl; intros H; [reflexivity|].
  apply orb_false_iff in H as [Ha Hs].
  rewrite Ha, (IH Hs). reflexivity.
Qed.

(** Up to the first separator, then the split of the rest. *)
Lemma Split_separator (p rest : string) (c : ascii) :
  strings.ContainsByte p c = false ->
  strings.Split (p ++ String c rest) c = p :: strings.Split rest c.
Proof.
  induction p as [|a p IH]; simpl; intros H.
  - rewrite Ascii.eqb_refl. reflexivity.
  - apply orb_false_iff in H as [Ha Hp].
    rewrite Ha, (IH Hp). reflexivity.
Qed.

Lemma Split_index1 (s : string) (c : ascii) :
  nth_error (strings.Split s c) 1 = None <-> strings.ContainsByte s c = false.
Proof.
  split.
  - induction s as [|a s IH]; simpl; [reflexivity|].
    destruct (Ascii.eqb a c) eqn:Ha; simpl.
    + pose proof (Split_nonempty s c) as Hne.
      destruct (strings.Split s c); [congruence|discriminate].
    + destruct (strings.Split s c) as [|h t] eqn:Hs; simpl in *.
      * exfalso. apply (Split_nonempty s c Hs).
      * exact IH.
  - intros H. rewrite (Split_no_separator _ _ H). reflexivity.
Qed.

Ltac step_digit :=
  cbn [NilEmpty.string_of_uint strconv.digits Pos.of_uint_acc Pos.of_uint];
  match goal with
  | |- context [strconv.digit ?c] =>
      let v := eval vm_compute in (strconv.digit c) in
      change (strconv.digit c) with v
  end; cbv iota beta zeta.

Lemma of_uint_acc_ge (d : Decimal.uint) :
  forall p, (p <= Pos.of_uint_acc d p)%positive.
Proof.
  induction d as [|d IH|d IH|d IH|d IH|d IH|d IH|d IH|d IH|d IH|d IH];
    intros p; cbn [Pos.of_uint_acc]; [lia|..];
    match goal with
    | |- (_ <= Pos.of_uint_acc _ ?q)%positive => specialize (IH q); lia
    end.
Qed.

Ltac no_overflow IH :=
  match goal with
  | H : Z.pos (Pos.of_uint_acc ?d ?q) <= strconv.maxUint64
    |- context [?n1 >? strconv.maxUint64] =>
      let E := fresh in
      assert (E : n1 = Z.pos q) by lia; rewrite E; clear E;
      pose proof (of_uint_acc_ge d q);
      replace (Z.pos q >? strconv.maxUint64) with false
        by (symmetry; rewrite Z.gtb_ltb; apply Z.ltb_ge; lia);
      apply IH; assumption
  end.

Lemma digits_acc (d : Decimal.uint) :
  forall p,
    Z.pos (Pos.of_uint_acc d p) <= strconv.maxUint64 ->
    strconv.digits (NilEmpty.string_of_uint d) (Z.pos p)
    = strconv.Digits (Z.pos (Pos.of_uint_acc d p)).
Proof.
  induction d as [|d IH|d IH|d IH|d IH|d IH|d IH|d IH|d IH|d IH|d IH];
    intros p H; [reflexivity|..]; step_digit;
    cbn [Pos.of_uint_acc] in H; no_overflow IH.
Qed.

Lemma digits_uint (d : Decimal.uint) :
  Z.of_N (Pos.of_uint d) <= strconv.maxUint64 ->
  strconv.digits (NilEmpty.string_of_uint d) 0 = strconv.Digits (Z.of_N (Pos.of_uint d)).
Proof.
  induction d as [|d IH|d IH|d IH|d IH|d IH|d IH|d IH|d IH|d IH|d IH];
    intros H; [reflexivity|..]; step_digit; cbn [Pos.of_uint Z.of_N] in H.
  1: exact (IH H).
  all: match goal with
       | |- context [?n1 >? strconv.maxUint64] =>
           replace (n1 >? strconv.maxUint64) with false by reflexivity
       end;
       cbn [Z.of_N]; apply digits_acc; exact H.
Qed.

Lemma uint_no_byte (d : Decimal.uint) (c : ascii) :
  strconv.digit c = None ->
  strings.ContainsByte (NilEmpty.string_of_uint d) c = false.
Proof.
  intros Hc.
  induction d as [|d IH|d IH|d IH|d IH|d IH|d IH|d IH|d IH|d IH|d IH];
    [reflexivity|..];
    cbn [NilEmpty.string_of_uint strings.ContainsByte];
    rewrite IH, orb_false_r; apply Ascii.eqb_neq; intros <-;
    vm_compute in Hc; discriminate.
Qed.

Lemma to_uint_not_Nil (p : positive) : Pos.to_uint p <> Decimal.Nil.
Proof.
  intros H. pose proof (DecimalPos.Unsigned.of_to p) as E.
  rewrite H in E. discriminate.
Qed.

Lemma Itoa_pos (p : positive) :
  strconv.Itoa (Z.pos p) = NilEmpty.string_of_uint (Pos.to_uint p).
Proof.
  unfold strconv.Itoa; simpl. unfold NilZero.string_of_uint.
  pose proof (to_uint_not_Nil p).
  destruct (Pos.to_uint p); [congruence|reflexivity..].
Qed.

(** [Atoi] reads back what [Itoa] prints, for ids within [int]. *)
Lemma Atoi_Itoa (a : Z) :
  0 <= a <= maxInt64 -> strconv.Atoi (strconv.Itoa a) = (a, None).
Proof.
  intros [Hlo Hhi]. destruct a as [|p|p]; [reflexivity| |lia].
  rewrite Itoa_pos.
  pose proof (digits_uint (Pos.to_uint p)) as Hd.
  rewrite DecimalPos.Unsigned.of_to in Hd. cbn [Z.of_N] in Hd.
  specialize (Hd ltac:(unfold maxInt64, strconv.maxUint64 in *; lia)).
  pose proof (to_uint_not_Nil p) as Hn.
  unfold strconv.Atoi.
  destruct (Pos.to_uint p) eqn:E; [congruence|..];
    cbn [NilEmpty.string_of_uint] in *; cbv iota beta;
    rewrite Hd; cbv iota beta;
    (replace (Z.pos p >? maxInt64) with false
       by (symmetry; rewrite Z.gtb_ltb; apply Z.ltb_ge; lia));
    (replace (Z.pos p <? minInt64) with false
       by (symmetry; apply Z.ltb_ge; unfold minInt64; lia));
    reflexivity.
Qed.

Lemma Itoa_no_separator (a : Z) :
  0 <= a -> strings.ContainsByte (strconv.Itoa a) "/" = false.
Proof.
  intros Ha. destruct a as [|p|p]; [reflexivity| |lia].
  rewrite Itoa_pos. apply uint_no_byte. reflexivity.
Qed.

End Library.

(** ** The head lookup *)

Section HeadLookup.

Import TelegramWebFetcher.

Lemma Each_Panicked {S : Type} (sel : Selection) (f : S -> Selection -> exec S) msg :
  fold_left (fun acc n => match acc with
                          | Return s => f s [n]
                          | Panicked m => Panicked m
                          end) sel (Panicked msg) = Panicked msg.
Proof. induction sel as [|n sel IH]; simpl; auto. Qed.

Lemma Each_cons {S : Type} (n : Node) (sel : Selection)
    (f : S -> Selection -> exec S) (init : S) :
  Each (n :: sel) f init
  = match f init [n] with
    | Return s => Each sel f s
    | Panicked msg => Panicked msg
    end.
Proof.
  unfold Each; simpl. destruct (f init [n]); [reflexivity|apply Each_Panicked].
Qed.

Lemma lastIdStep_carries (n : Node) (a lastId : Z) :
  carriesId n a -> 0 <= a <= maxInt64 ->
  lastIdStep lastId [n] = Return (keepMax lastId a).
Proof.
  intros (c & Hc & Hattr) Ha. unfold lastIdStep. rewrite Hattr.
  rewrite (Split_separator _ _ _ Hc).
  rewrite (Split_no_separator (strconv.Itoa a) "/") by (apply Itoa_no_separator; lia).
  cbn [nth_error]. rewrite (Atoi_Itoa a Ha). unfold keepMax.
  destruct ((lastId =? -1) || (a >? lastId)); reflexivity.
Qed.

Lemma Each_carries (sel : Selection) (ids : list Z) :
  Forall2 carriesId sel ids ->
  Forall (fun a => 0 <= a <= maxInt64) ids ->
  forall lastId, Each sel lastIdStep lastId = Return (fold_left keepMax ids lastId).
Proof.
  induction 1 as [|n a sel ids Hn _ IH]; intros Hr lastId; [reflexivity|].
  inversion Hr; subst.
  rewrite Each_cons, (lastIdStep_carries n a lastId Hn) by assumption.
  simpl. apply IH. assumption.
Qed.

(** On ids of messages the sentinel [-1] never wins: the loop keeps
    the largest id seen. *)
Lemma keepMax_fold (ids : list Z) :
  Forall (fun a => 0 <= a) ids ->
  forall lastId, -1 <= lastId ->
    let r := fold_left keepMax ids lastId in
    lastId <= r /\ (r = lastId \/ In r ids) /\ Forall (fun a => a <= r) ids.
Proof.
  induction 1 as [|a ids Ha _ IH]; intros lastId Hl; cbn [fold_left]; cbv zeta.
  - split; [lia|split; [auto|constructor]].
  - assert (Hk : keepMax lastId a = Z.max lastId a).
    { unfold keepMax. destruct (lastId =? -1) eqn:E1; simpl.
      - apply Z.eqb_eq in E1. lia.
      - destruct (a >? lastId) eqn:E2; rewrite Z.gtb_ltb in E2;
          [apply Z.ltb_lt in E2|apply Z.ltb_ge in E2]; lia. }
    rewrite Hk. destruct (IH (Z.max lastId a) ltac:(lia)) as (H1 & H2 & H3).
    split; [|split].
    + lia.
    + destruct H2 as [H2|H2]; [|right; right; exact H2].
      destruct (Z.max_spec lastId a) as [[_ E]|[_ E]]; rewrite E in *.
      * right; left; symmetry; exact H2.
      * left; exact H2.
    + constructor; [lia|exact H3].
Qed.

Lemma Each_total (sel : Selection) :
  forall lastId,
    if forallb hasSeparator sel
    then exists r, Each sel lastIdStep lastId = Return r
    else Each sel lastIdStep lastId = Panicked "index out of range [1]".
Proof.
  induction sel as [|n sel IH]; intros lastId; simpl.
  - eexists; reflexivity.
  - rewrite Each_cons. unfold lastIdStep, hasSeparator.
    destruct (goquery.Attr [n] "data-post") as [dataPost ok]; cbn [fst].
    destruct (strings.ContainsByte dataPost "/") eqn:Hsep; cbn [andb].
    + destruct (nth_error (strings.Split dataPost "/") 1) as [part|] eqn:Hnth.
      * destruct (strconv.Atoi part) as [currentId e].
        destruct ((lastId =? -1) || (currentId >? lastId)); apply IH.
      * apply Split_index1 in Hnth. congruence.
    + apply Split_index1 in Hsep. rewrite Hsep. reflexivity.
Qed.

End HeadLookup.

(** ** C8, C10: the head id *)

Section HeadId.

Import TelegramWebFetcher.

Lemma FetchChannel_Page (channelName : string) (w : World) (doc : Node) :
  web w (tgChannelFeedUrl channelName) = Page doc ->
  FetchChannel channelName w
  = let w' := mkWorld (web w) (faults w) (db w)
                (out w ++ [EvHttpGet (tgChannelFeedUrl channelName)]) in
    match Each (goquery.Find [doc] ".tgme_widget_message") lastIdStep (-1) with
    | Panicked msg => (Panicked msg, w')
    | Return lastId =>
        if lastId =? -1
        then (Return (zeroChannel, Some "Can't parse channel page"), w')
        else (Return (mkChannel channelName
                        (fold_left (fun _ s => goquery.Text (goquery.Find [s] "span"))
                           (goquery.Find [doc] ".tgme_channel_info_header_title") "")
                        lastId (tgChannelFeedUrl channelName)
                        (fold_left (fun _ s => goquery.Text [s])
                           (goquery.Find [doc] ".tgme_channel_info_description") ""),
                      None), w')
    end.
Proof.
  intros Hweb. unfold FetchChannel, bind, http_Get. rewrite Hweb. cbv zeta.
  destruct (Each _ lastIdStep (-1)) as [lastId|msg]; [|reflexivity].
  destruct (lastId =? -1); reflexivity.
Qed.

End HeadId.

(** C8. When the messages of the listing page carry the ids [ids], the
    head lookup succeeds with the largest of them as head id; on a page
    without messages it fails with the parse error. *)
Theorem FetchChannel_head_is_max (channelName : string) (w : World) (doc : Node)
    (ids : list Z) :
  web w (tgChannelFeedUrl channelName) = Page doc ->
  Forall2 carriesId (goquery.Find [doc] ".tgme_widget_message") ids ->
  Forall (fun a => 0 <= a <= maxInt64) ids ->
  match ids with
  | [] =>
      fst (TelegramWebFetcher.FetchChannel channelName w)
      = Return (zeroChannel, Some "Can't parse channel page")
  | _ :: _ =>
      exists channel,
        fst (TelegramWebFetcher.FetchChannel channelName w) = Return (channel, None) /\
        In (Channel_LastId channel) ids /\
        Forall (fun a => a <= Channel_LastId channel) ids
  end.
Proof.
  intros Hweb Hids Hrange.
  rewrite (FetchChannel_Page _ _ _ Hweb), (Each_carries _ _ Hids Hrange). cbv zeta.
  assert (Hnonneg : Forall (fun a => 0 <= a) ids).
  { eapply Forall_impl; [|exact Hrange]. simpl; lia. }
  destruct (keepMax_fold ids Hnonneg (-1) ltac:(lia)) as (Hle & Hin & Hmax).
  destruct ids as [|a ids]; [reflexivity|].
  set (r := fold_left keepMax (a :: ids) (-1)) in *.
  assert (Hr : 0 <= r).
  { inversion Hmax; subst. inversion Hnonneg; subst. lia. }
  destruct (r =? -1) eqn:E; [apply Z.eqb_eq in E; lia|].
  eexists; split; [reflexivity|]. cbn [Channel_LastId].
  split; [destruct Hin as [Hin|Hin]; [lia|exact Hin]|exact Hmax].
Qed.

Lemma FetchChannel_head_is_max_witness :
  let w := mkWorld (site [(tgChannelFeedUrl "lexfridman", Page lexfridmanListing)])
             noFaults emptyDb [] in
  exists channel,
    fst (TelegramWebFetcher.FetchChannel "lexfridman" w) = Return (channel, None) /\
    In (Channel_LastId channel) [291; 293; 290] /\
    Forall (fun a => a <= Channel_LastId channel) [291; 293; 290].
Proof.
  intros w.
  apply (FetchChannel_head_is_max "lexfridman" w lexfridmanListing [291; 293; 290]).
  - reflexivity.
  - repeat constructor; exists "lexfridman"; split; reflexivity.
  - repeat constructor; unfold maxInt64; lia.
Defined.

(** C10. The head lookup returns exactly when every message element's
    [data-post] holds a separator; on a page with a message whose
    attribute has none it panics on the index. *)
Theorem FetchChannel_total_iff_separators (channelName : string) (w : World)
    (doc : Node) :
  web w (tgChannelFeedUrl channelName) = Page doc ->
  if forallb hasSeparator (goquery.Find [doc] ".tgme_widget_message")
  then exists r, fst (TelegramWebFetcher.FetchChannel channelName w) = Return r
  else fst (TelegramWebFetcher.FetchChannel channelName w)
       = Panicked "index out of range [1]".
Proof.
  intros Hweb. rewrite (FetchChannel_Page _ _ _ Hweb). cbv zeta.
  pose proof (Each_total (goquery.Find [doc] ".tgme_widget_message") (-1)) as H.
  destruct (forallb hasSeparator _).
  - destruct H as [r ->]. destruct (r =? -1); eexists; reflexivity.
  - rewrite H. reflexivity.
Qed.

Lemma FetchChannel_total_iff_separators_witness :
  let w := mkWorld (site [(tgChannelFeedUrl "lexfridman", Page brokenListing)])
             noFaults emptyDb [] in
  fst (TelegramWebFetcher.FetchChannel "lexfridman" w)
  = Panicked "index out of range [1]".
Proof.
  intros w.
  apply (FetchChannel_total_iff_separators "lexfridman" w brokenListing).
  reflexivity.
Defined.

(** ** C4, C5: the single-item fetch *)

Section ItemFetch.

Import TelegramWebFetcher.

Variable time_Parse : string -> string -> Time + error.

Lemma last_cons_indep {A : Type} (a : A) (l : list A) (d d' : A) :
  last (a :: l) d = last (a :: l) d'.
Proof.
  revert a. induction l as [|b l IH]; intros a; [reflexivity|].
  change (last (b :: l) d = last (b :: l) d'). apply IH.
Qed.

(** A callback that overwrites a captured variable leaves the value
    of the last element. *)
Lemma fold_left_overwrite {A B : Type} (f : A -> B) (l : list A) (init : B) :
  fold_left (fun _ s => f s) l init = last (map f l) init.
Proof.
  revert init. induction l as [|a l IH]; intros init; [reflexivity|].
  cbn [fold_left map]. rewrite IH.
  destruct l as [|b l]; [reflexivity|].
  cbn [map]. change (last (f b :: map f l) (f a) = last (f b :: map f l) init).
  apply last_cons_indep.
Qed.

Lemma createdAt_fold (sel : list Node) (acc : Time * list Event) :
  fst (fold_left (createdAtStep time_Parse) sel acc)
  = match rev (map (fun s => fst (goquery.Attr (goquery.Find [s] "time") "datetime")) sel) with
    | [] => fst acc
    | datetime :: _ => parsedOrZero time_Parse datetime
    end.
Proof.
  induction sel as [|s sel IH] using rev_ind; [reflexivity|].
  rewrite fold_left_app, map_app, rev_app_distr. cbn [fold_left map rev app].
  unfold createdAtStep at 1, parsedOrZero.
  destruct (goquery.Attr (goquery.Find [s] "time") "datetime") as [datetime ok].
  cbn [fst]. destruct (time_Parse layout datetime); reflexivity.
Qed.

Lemma createdAt_fold_prints (sel : list Node) (acc : Time * list Event) :
  downloads (snd (fold_left (createdAtStep time_Parse) sel acc)) = downloads (snd acc).
Proof.
  revert acc. induction sel as [|s sel IH]; intros acc; [reflexivity|].
  cbn [fold_left]. rewrite IH. unfold createdAtStep.
  destruct (goquery.Attr (goquery.Find [s] "time") "datetime") as [datetime ok].
  destruct (time_Parse layout datetime); cbn [snd]; [reflexivity|].
  unfold downloads. rewrite flat_map_app. cbn. apply app_nil_r.
Qed.

Lemma FetchPost_Page (channelName : string) (id : Z) (w : World) (doc : Node) :
  web w (tgChannelPostUrl channelName id) = Page doc ->
  let url := tgChannelPostUrl channelName id in
  exists printed,
    downloads printed = [] /\
    FetchPost time_Parse channelName id w
    = if negb (String.eqb (errorMessageOf doc) "")
      then (Return (zeroPost, Some (errorMessageOf doc)),
            withOut w (out w ++ [EvHttpGet url]))
      else (Return (mkPost (trimmedSnippet (contentOf doc))
                      (contentOf doc ++ backLink url) url
                      (createdAtOf time_Parse doc), None),
            withOut w ((out w ++ [EvHttpGet url]) ++ printed)).
Proof.
  intros Hweb url.
  exists (snd (fold_left (createdAtStep time_Parse)
                 (goquery.Find [doc] ".tgme_widget_message_date") (zeroTime, []))).
  split; [apply createdAt_fold_prints|].
  subst url. unfold FetchPost, bind, http_Get. rewrite Hweb.
  rewrite !fold_left_overwrite. fold (errorMessageOf doc) (contentOf doc).
  destruct (negb (String.eqb (errorMessageOf doc) "")); [reflexivity|].
  pose proof (createdAt_fold (goquery.Find [doc] ".tgme_widget_message_date")
                (zeroTime, [])) as Hc.
  destruct (fold_left (createdAtStep time_Parse) _ (zeroTime, [])) as [createdAt printed].
  cbn [fst snd] in *. subst createdAt. reflexivity.
Qed.

End ItemFetch.

Section Trim.

Lemma TrimLeft_spec (s : string) :
  (exists l, s = (l ++ strings.TrimLeft s " ")%string /\ allSpaces l = true) /\
  firstByte (strings.TrimLeft s " ") <> Some " "%char.
Proof.
  induction s as [|a s [(l & Hl & Hs) Hf]]; cbn [strings.TrimLeft].
  - split; [exists ""; split; reflexivity|discriminate].
  - destruct (Ascii.eqb a " ") eqn:E.
    + split; [|exact Hf]. apply Ascii.eqb_eq in E; subst a.
      exists (String " " l). split; [cbn; congruence|cbn; exact Hs].
    + split; [exists ""; split; reflexivity|].
      apply Ascii.eqb_neq in E. cbn. intros H; inversion H; congruence.
Qed.

Lemma TrimRight_spec (s : string) :
  (exists r, s = (strings.TrimRight s " " ++ r)%string /\ allSpaces r = true) /\
  lastByte (strings.TrimRight s " ") <> Some " "%char /\
  (firstByte s <> Some " "%char -> firstByte (strings.TrimRight s " ") <> Some " "%char).
Proof.
  induction s as [|a s [(r & Hr & Hs) [Hl _]]]; cbn [strings.TrimRight].
  - split; [exists ""; split; reflexivity|split; [discriminate|auto]].
  - destruct (strings.TrimRight s " ") as [|b t] eqn:Et.
    + destruct (Ascii.eqb a " ") eqn:E.
      * split; [|split; [discriminate|discriminate]].
        apply Ascii.eqb_eq in E; subst a. cbn in Hr. subst s.
        exists (String " " r). split; [reflexivity|exact Hs].
      * split; [exists r; split; [cbn in *; congruence|exact Hs]|].
        apply Ascii.eqb_neq in E.
        split; [|intros _]; cbn; intros H; inversion H; congruence.
    + split; [exists r; split; [cbn in *; congruence|exact Hs]|].
      split; [exact Hl|cbn; auto].
Qed.

Lemma Trim_spec (s : string) : trimmedOf s (strings.Trim s " ").
Proof.
  unfold strings.Trim, trimmedOf.
  destruct (TrimLeft_spec s) as [(l & Hl & Hls) Hf].
  destruct (TrimRight_spec (strings.TrimLeft s " ")) as [(r & Hr & Hrs) [Hlast Hfirst]].
  split; [|split; [apply Hfirst; exact Hf|exact Hlast]].
  exists l, r. split; [|split; assumption].
  rewrite <- Hr. exact Hl.
Qed.

End Trim.

(** C4, as amended.  A single-item fetch fails only when the request
    fails, the page cannot be read or the page shows an error message.
    On any other page it succeeds whether or not a creation timestamp
    resolves: [createdAt] is what the last date element parses to, and
    the zero time when there is no date element or the parse fails. *)
Theorem FetchPost_createdAt (time_Parse : string -> string -> Time + error)
    (channelName : string) (id : Z) (w : World) :
  match web w (tgChannelPostUrl channelName id) with
  | GetFailed err | ReadFailed err =>
      fst (TelegramWebFetcher.FetchPost time_Parse channelName id w)
      = Return (zeroPost, Some err)
  | Page doc =>
      if String.eqb (errorMessageOf doc) ""
      then exists post,
          fst (TelegramWebFetcher.FetchPost time_Parse channelName id w)
          = Return (post, None) /\
          Post_CreatedAt post = createdAtOf time_Parse doc /\
          (forall t, resolvedCreatedAt time_Parse doc = Some t -> Post_CreatedAt post = t) /\
          (resolvedCreatedAt time_Parse doc = None ->
           datetimesOf doc = [] \/
           (exists d e, last (datetimesOf doc) "" = d /\
                        time_Parse TelegramWebFetcher.layout d = inr e) \/
           (2 <= List.length (datetimesOf doc))%nat)
      else fst (TelegramWebFetcher.FetchPost time_Parse channelName id w)
           = Return (zeroPost, Some (errorMessageOf doc))
  end.
Proof.
  destruct (web w (tgChannelPostUrl channelName id)) as [err|err|doc] eqn:Hweb.
  - unfold TelegramWebFetcher.FetchPost, bind, http_Get. rewrite Hweb. reflexivity.
  - unfold TelegramWebFetcher.FetchPost, bind, http_Get. rewrite Hweb. reflexivity.
  - destruct (FetchPost_Page time_Parse channelName id w doc Hweb) as (printed & _ & ->).
    destruct (String.eqb (errorMessageOf doc) ""); cbn [negb]; [|reflexivity].
    eexists; split; [reflexivity|]. cbn [Post_CreatedAt fst].
    split; [reflexivity|]. unfold resolvedCreatedAt, createdAtOf, parsedOrZero.
    destruct (datetimesOf doc) as [|d [|d' l]] eqn:Hd; cbn [rev app].
    + split; [discriminate|auto].
    + destruct (time_Parse TelegramWebFetcher.layout d) as [t|e] eqn:Hp.
      * split; [congruence|discriminate].
      * split; [discriminate|]. intros _. right; left. exists d, e. auto.
    + split; [discriminate|]. intros _. right; right. cbn. lia.
Qed.

(** C4, the claim as stated fails: the newest post of the channel shows
    no date, its fetch succeeds with the zero time, and the sync
    persists it. *)
Lemma undated_item_is_persisted :
  resolvedCreatedAt sampleClock (undatedPage "hello") = None /\
  (exists post,
      fst (TelegramWebFetcher.FetchPost sampleClock "news" 2 undatedWorld)
      = Return (post, None) /\
      Post_CreatedAt post = zeroTime) /\
  (exists row,
      In row (posts (db (snd (prepareFeed "news" sqliteCache
                                (telegramWebFetcher sampleClock) undatedWorld)))) /\
      DbPost_Link row = tgChannelPostUrl "news" 2 /\
      DbPost_CreatedAt row = zeroTime).
Proof.
  split; [reflexivity|]. split.
  - eexists; split; vm_compute; reflexivity.
  - eexists; split; [vm_compute; left; reflexivity|split; vm_compute; reflexivity].
Qed.

(** C5, as amended.  The header snippet of a fetched item is the first
    100 bytes of the source content without their leading and trailing
    spaces, followed by the ellipsis marker, when the content is longer
    than 100 bytes; it is empty otherwise. *)
Theorem FetchPost_header_trimmed (time_Parse : string -> string -> Time + error)
    (channelName : string) (id : Z) (w : World) (post : Post) :
  fst (TelegramWebFetcher.FetchPost time_Parse channelName id w) = Return (post, None) ->
  exists content,
    Post_Content post = (content ++ backLink (tgChannelPostUrl channelName id))%string /\
    if Z.of_nat (String.length content) >? 100
    then exists h, trimmedOf (substring 0 100 content) h /\
                   Post_Header post = (h ++ "...")%string
    else Post_Header post = "".
Proof.
  intros H.
  destruct (web w (tgChannelPostUrl channelName id)) as [err|err|doc] eqn:Hweb.
  - unfold TelegramWebFetcher.FetchPost, bind, http_Get in H. rewrite Hweb in H.
    discriminate.
  - unfold TelegramWebFetcher.FetchPost, bind, http_Get in H. rewrite Hweb in H.
    discriminate.
  - destruct (FetchPost_Page time_Parse channelName id w doc Hweb) as (printed & _ & E).
    rewrite E in H. clear E.
    destruct (negb (String.eqb (errorMessageOf doc) "")); [discriminate|].
    cbn [fst] in H. injection H as <-.
    exists (contentOf doc). split; [reflexivity|].
    cbn [Post_Header]. unfold trimmedSnippet.
    destruct (Z.of_nat (String.length (contentOf doc)) >? 100); [|reflexivity].
    eexists; split; [apply Trim_spec|reflexivity].
Qed.

Lemma FetchPost_header_trimmed_witness :
  exists post,
    fst (TelegramWebFetcher.FetchPost sampleClock "lexfridman" 272 paddedWorld)
    = Return (post, None) /\
    exists content,
      Post_Content post = (content ++ backLink (tgChannelPostUrl "lexfridman" 272))%string /\
      if Z.of_nat (String.length content) >? 100
      then exists h, trimmedOf (substring 0 100 content) h /\
                     Post_Header post = (h ++ "...")%string
      else Post_Header post = "".
Proof.
  eexists. split; [vm_compute; reflexivity|].
  apply (FetchPost_header_trimmed sampleClock "lexfridman" 272 paddedWorld).
  vm_compute. reflexivity.
Defined.

(** C5, the claim as stated fails: the content is 101 bytes long and
    begins with a space; the header is not its first 100 bytes followed
    by the marker, the leading space is gone. *)
Lemma header_is_not_first_100_bytes :
  exists post,
    fst (TelegramWebFetcher.FetchPost sampleClock "lexfridman" 272 paddedWorld)
    = Return (post, None) /\
    Post_Content post
    = (paddedContent ++ backLink (tgChannelPostUrl "lexfridman" 272))%string /\
    Post_Header post = (repeatByte 99 "a" ++ "...")%string /\
    Post_Header post <> headerSnippetSpec paddedContent.
Proof.
  eexists. split; [vm_compute; reflexivity|].
  split; [reflexivity|]. split; [reflexivity|].
  vm_compute. discriminate.
Qed.

(** ** The walk *)

Section WalkFacts.

Variable channelName : string.
Variable fetcher : Fetcher.
Variable channel : Channel.
Variable dbCachedChannel : DbChannel.
Hypothesis fetcher_quiet : quiet fetcher.

Lemma downloads_app (l l' : list Event) :
  downloads (l ++ l') = (downloads l ++ downloads l')%list.
Proof. unfold downloads. apply flat_map_app. Qed.

Lemma emit_eq (e : Event) (w : World) :
  emit e w = (Return tt, withOut w (out w ++ [e])).
Proof. reflexivity. Qed.

Lemma bind_eq {A B : Type} (m : M A) (k : A -> M B) (w : World) :
  bind m k w = match m w with
               | (Return a, w') => k a w'
               | (Panicked msg, w') => (Panicked msg, w')
               end.
Proof. reflexivity. Qed.

(** The walk never panics and only adds to the output.  The fetches it
    issues go down one by one from [postId] and stay above zero; the
    list it returns extends [ps] and holds at most
    [MAX_RSS_POSTS_COUNT] posts once [ps] does. *)
Lemma walk_frame (fuel : nat) :
  forall (postId : Z) (ps : list Post) (w : World),
  exists ps' evs,
    walk channelName fetcher channel dbCachedChannel fuel postId ps w
    = (Return ps', withOut w (out w ++ evs)) /\
    (exists n, downloads evs = countdown postId n /\ (n <= fuel)%nat /\
               Z.of_nat n <= Z.max postId 0) /\
    (exists more, ps' = (ps ++ more)%list) /\
    len ps' <= Z.max (len ps) MAX_RSS_POSTS_COUNT.
Proof.
  induction fuel as [|fuel IH]; intros postId ps w; cbn [walk].
  - exists ps, []. split; [unfold ret, withOut; rewrite app_nil_r; destruct w; reflexivity|].
    split; [exists O; cbn; repeat split; lia|].
    split; [exists []; rewrite app_nil_r; reflexivity|lia].
  - destruct ((postId >? 0) && (len ps <? MAX_RSS_POSTS_COUNT)) eqn:Hguard.
    2:{ exists ps, []. split; [unfold ret, withOut; rewrite app_nil_r; destruct w; reflexivity|].
        split; [exists O; cbn; repeat split; lia|].
        split; [exists []; rewrite app_nil_r; reflexivity|lia]. }
    apply andb_true_iff in Hguard as [Hpos Hlen].
    rewrite Z.gtb_ltb in Hpos. apply Z.ltb_lt in Hpos. apply Z.ltb_lt in Hlen.
    unfold bind at 1. rewrite emit_eq.
    destruct (fetcher_quiet (Channel_Name channel) postId
                (withOut w (out w ++ [EvDownload channelName postId])))
      as ([post err] & evs & Hfetch & Hquiet).
    unfold bind at 1. rewrite Hfetch. cbv beta iota zeta.
    cbn [out withOut] in *.
    assert (Hcont : forall ps1 e1,
      len ps1 <= Z.max (len ps) MAX_RSS_POSTS_COUNT ->
      (exists more, ps1 = (ps ++ more)%list) ->
      downloads e1 = [] ->
      exists ps' evs',
        walk channelName fetcher channel dbCachedChannel fuel (postId - 1) ps1
          (withOut w (((out w ++ [EvDownload channelName postId]) ++ evs) ++ e1))
        = (Return ps', withOut w (out w ++ evs')) /\
        (exists n, downloads evs' = countdown postId n /\ (n <= S fuel)%nat /\
                   Z.of_nat n <= Z.max postId 0) /\
        (exists more, ps' = (ps ++ more)%list) /\
        len ps' <= Z.max (len ps) MAX_RSS_POSTS_COUNT).
    { intros ps1 e1 Hl1 [more1 Hm1] He1.
      destruct (IH (postId - 1) ps1
                  (withOut w (((out w ++ [EvDownload channelName postId]) ++ evs) ++ e1)))
        as (ps' & evs' & Hw & (n & Hd & Hn & Hb) & [more Hm] & Hl).
      exists ps', ((([EvDownload channelName postId] ++ evs) ++ e1) ++ evs')%list.
      split; [rewrite Hw; cbn [out withOut web faults db]; rewrite !app_assoc; reflexivity|].
      split.
      - exists (S n). rewrite !downloads_app, Hquiet, He1, Hd. cbn.
        repeat split; lia.
      - split; [exists (more1 ++ more)%list; subst; rewrite app_assoc; reflexivity|lia]. }
    destruct err as [e|].
    + unfold bind at 1. rewrite emit_eq. cbn [out withOut].
      apply (Hcont ps [EvError e]); [lia|exists []; rewrite app_nil_r; reflexivity|reflexivity].
    + destruct ((len ps >? 0) && Time_eqb (Post_CreatedAt post) (lastCreatedAt ps)).
      * unfold bind at 1. rewrite emit_eq. cbn [out withOut].
        apply (Hcont ps [EvDuplicated]); [lia|exists []; rewrite app_nil_r; reflexivity|reflexivity].
      * destruct (postId - 1 =? DbChannel_LastId dbCachedChannel).
        -- exists ps, ([EvDownload channelName postId] ++ evs)%list.
           split; [unfold ret; rewrite !app_assoc; reflexivity|].
           split; [exists 1%nat; rewrite downloads_app, Hquiet; cbn; repeat split; lia|].
           split; [exists []; rewrite app_nil_r; reflexivity|lia].
        -- destruct (Hcont (ps ++ [post])%list []) as (ps' & evs' & Hw & H1 & H2 & H3).
           ++ unfold len in *. rewrite length_app. cbn [List.length].
              unfold MAX_RSS_POSTS_COUNT in *. lia.
           ++ exists [post]. reflexivity.
           ++ reflexivity.
           ++ rewrite app_nil_r in Hw. exists ps', evs'. auto.
Qed.

End WalkFacts.

Section WalkFuel.

Variable channelName : string.
Variable fetcher : Fetcher.
Variable channel : Channel.
Variable dbCachedChannel : DbChannel.

(** [Z.to_nat postId] iterations are enough: more fuel changes
    nothing, so the bound never cuts the loop short. *)
Lemma walk_fuel (fuel : nat) :
  forall (postId : Z) (ps : list Post) (w : World),
    (Z.to_nat postId <= fuel)%nat ->
    walk channelName fetcher channel dbCachedChannel fuel postId ps w
    = walk channelName fetcher channel dbCachedChannel (Z.to_nat postId) postId ps w.
Proof.
  induction fuel as [|fuel IH]; intros postId ps w Hfuel.
  - replace (Z.to_nat postId) with O by lia. reflexivity.
  - destruct (Z.to_nat postId) as [|m] eqn:Hm.
    + cbn [walk]. replace (postId >? 0) with false; [reflexivity|].
      symmetry. rewrite Z.gtb_ltb. apply Z.ltb_ge. lia.
    + assert (Hm' : Z.to_nat (postId - 1) = m) by lia.
      assert (Hrec : forall ps1 w1,
        walk channelName fetcher channel dbCachedChannel fuel (postId - 1) ps1 w1
        = walk channelName fetcher channel dbCachedChannel m (postId - 1) ps1 w1).
      { intros ps1 w1. rewrite <- Hm'. apply IH. lia. }
      cbn [walk].
      destruct ((postId >? 0) && (len ps <? MAX_RSS_POSTS_COUNT)); [|reflexivity].
      rewrite !bind_eq, !emit_eq. rewrite !bind_eq.
      destruct (FetchPost fetcher (Channel_Name channel) postId _) as [[[post err]|msg] w1];
        [|reflexivity].
      cbv beta iota zeta. destruct err as [e|].
      * rewrite !bind_eq, !emit_eq. apply Hrec.
      * destruct ((len ps >? 0) && Time_eqb (Post_CreatedAt post) (lastCreatedAt ps)).
        -- rewrite !bind_eq, !emit_eq. apply Hrec.
        -- destruct (postId - 1 =? DbChannel_LastId dbCachedChannel);
             [reflexivity|apply Hrec].
Qed.

End WalkFuel.

(** C9.  When the walk comes to the id just above the stored cursor
    and its fetch succeeds with a post that is not an adjacent
    duplicate, the fetch has been issued but the loop breaks before the
    append: the walk ends with the posts collected so far, without that
    post. *)
Theorem walk_discards_boundary_item (channelName : string) (fetcher : Fetcher)
    (channel : Channel) (dbCachedChannel : DbChannel) (fuel : nat)
    (ps : list Post) (w w1 : World) (post : Post) :
  let postId := DbChannel_LastId dbCachedChannel + 1 in
  postId > 0 ->
  len ps < MAX_RSS_POSTS_COUNT ->
  FetchPost fetcher (Channel_Name channel) postId
    (withOut w (out w ++ [EvDownload channelName postId]))
  = (Return (post, None), w1) ->
  (len ps >? 0) && Time_eqb (Post_CreatedAt post) (lastCreatedAt ps) = false ->
  walk channelName fetcher channel dbCachedChannel (S fuel) postId ps w
  = (Return ps, w1).
Proof.
  intros postId Hpos Hlen Hfetch Hdup. cbn [walk].
  replace (postId >? 0) with true by (symmetry; rewrite Z.gtb_ltb; apply Z.ltb_lt; lia).
  replace (len ps <? MAX_RSS_POSTS_COUNT) with true by (symmetry; apply Z.ltb_lt; lia).
  cbn [andb]. unfold bind at 1. rewrite emit_eq.
  unfold bind at 1. rewrite Hfetch. cbv beta iota zeta. rewrite Hdup.
  replace (postId - 1 =? DbChannel_LastId dbCachedChannel) with true
    by (symmetry; apply Z.eqb_eq; subst postId; lia).
  reflexivity.
Qed.

Lemma walk_discards_boundary_item_witness :
  exists post w1,
    FetchPost (telegramWebFetcher sampleClock) "news" 6
      (withOut oneNewPostWorld [EvDownload "news" 6])
    = (Return (post, None), w1) /\
    Post_Link post = tgChannelPostUrl "news" 6 /\
    walk "news" (telegramWebFetcher sampleClock)
      (mkChannel "news" "News" 6 (tgChannelFeedUrl "news") "")
      (storedChannel 1 "news" 5) 6 6 [] oneNewPostWorld
    = (Return [], w1).
Proof.
  eexists. eexists. split; [vm_compute; reflexivity|]. split; [reflexivity|].
  eapply (walk_discards_boundary_item "news" (telegramWebFetcher sampleClock)
           (mkChannel "news" "News" 6 (tgChannelFeedUrl "news") "")
           (storedChannel 1 "news" 5) 5 [] oneNewPostWorld).
  - reflexivity.
  - reflexivity.
  - vm_compute. reflexivity.
  - reflexivity.
Defined.

Section Boundary.

Variable channelName : string.
Variable fetcher : Fetcher.
Variable channel : Channel.
Variable dbCachedChannel : DbChannel.

(** Seen over a whole walk: no post it collects stems from the fetch
    of the id just above the stored cursor. *)
Lemma walk_never_collects_boundary_item (fuel : nat) :
  forall (postId : Z) (ps ps' : list Post) (w w' : World),
    walk channelName fetcher channel dbCachedChannel fuel postId ps w = (Return ps', w') ->
    Forall (fun p => exists d, d <> DbChannel_LastId dbCachedChannel + 1 /\
                               fetchedFrom fetcher (Channel_Name channel) d p) ps ->
    Forall (fun p => exists d, d <> DbChannel_LastId dbCachedChannel + 1 /\
                               fetchedFrom fetcher (Channel_Name channel) d p) ps'.
Proof.
  induction fuel as [|fuel IH]; intros postId ps ps' w w' Hwalk Hps; cbn [walk] in Hwalk.
  - injection Hwalk as <- _. exact Hps.
  - destruct ((postId >? 0) && (len ps <? MAX_RSS_POSTS_COUNT));
      [|injection Hwalk as <- _; exact Hps].
    rewrite bind_eq, emit_eq, bind_eq in Hwalk.
    destruct (FetchPost fetcher (Channel_Name channel) postId _)
      as [[[post err]|msg] w1] eqn:Hfetch; [|discriminate].
    cbv beta iota zeta in Hwalk. destruct err as [e|].
    + rewrite bind_eq, emit_eq in Hwalk. exact (IH _ _ _ _ _ Hwalk Hps).
    + destruct ((len ps >? 0) && Time_eqb (Post_CreatedAt post) (lastCreatedAt ps)).
      * rewrite bind_eq, emit_eq in Hwalk. exact (IH _ _ _ _ _ Hwalk Hps).
      * destruct (postId - 1 =? DbChannel_LastId dbCachedChannel) eqn:Hb.
        -- injection Hwalk as <- _. exact Hps.
        -- apply (IH _ _ _ _ _ Hwalk). apply Forall_app. split; [exact Hps|].
           constructor; [|constructor]. exists postId. split.
           ++ apply Z.eqb_neq in Hb. lia.
           ++ eexists. rewrite Hfetch. reflexivity.
Qed.

End Boundary.

(** ** The sync *)

Section Sync.

Variable time_Parse : string -> string -> Time + error.

Lemma requests_app (l l' : list Event) :
  requests (l ++ l') = (requests l ++ requests l')%list.
Proof. unfold requests. apply flat_map_app. Qed.

Lemma telegram_quiet : quiet (telegramWebFetcher time_Parse).
Proof.
  intros name id w.
  change (FetchPost (telegramWebFetcher time_Parse) name id w)
    with (TelegramWebFetcher.FetchPost time_Parse name id w).
  destruct (web w (tgChannelPostUrl name id)) as [err|err|doc] eqn:Hweb.
  - exists (zeroPost, Some err), [EvHttpGet (tgChannelPostUrl name id); EvPrintln err].
    split; [|reflexivity].
    unfold TelegramWebFetcher.FetchPost, bind, http_Get. rewrite Hweb.
    unfold emit, ret, withOut. cbn. rewrite <- app_assoc. reflexivity.
  - exists (zeroPost, Some err), [EvHttpGet (tgChannelPostUrl name id)].
    split; [|reflexivity].
    unfold TelegramWebFetcher.FetchPost, bind, http_Get. rewrite Hweb. reflexivity.
  - destruct (FetchPost_Page time_Parse name id w doc Hweb) as (printed & Hp & ->).
    destruct (negb _).
    + eexists. exists [EvHttpGet (tgChannelPostUrl name id)]. split; reflexivity.
    + eexists. exists (EvHttpGet (tgChannelPostUrl name id) :: printed).
      split; [|exact Hp]. rewrite <- app_assoc. reflexivity.
Qed.

(** The head lookup sends one request and fetches no item. *)
Lemma FetchChannel_frame (name : string) (w : World) :
  exists evs,
    snd (TelegramWebFetcher.FetchChannel name w) = withOut w (out w ++ evs) /\
    downloads evs = [] /\ requests evs = [tgChannelFeedUrl name].
Proof.
  destruct (web w (tgChannelFeedUrl name)) as [err|err|doc] eqn:Hweb.
  - exists [EvHttpGet (tgChannelFeedUrl name); EvPrintln err].
    split; [|split; reflexivity].
    unfold TelegramWebFetcher.FetchChannel, bind, http_Get. rewrite Hweb.
    unfold emit, ret, withOut. cbn. rewrite <- app_assoc. reflexivity.
  - exists [EvHttpGet (tgChannelFeedUrl name)].
    split; [|split; reflexivity].
    unfold TelegramWebFetcher.FetchChannel, bind, http_Get. rewrite Hweb. reflexivity.
  - exists [EvHttpGet (tgChannelFeedUrl name)].
    split; [|split; reflexivity].
    rewrite (FetchChannel_Page _ _ _ Hweb). cbv zeta.
    destruct (Each _ TelegramWebFetcher.lastIdStep (-1)) as [lastId|msg]; [|reflexivity].
    destruct (lastId =? -1); reflexivity.
Qed.

End Sync.

Ltac run_store :=
  cbv [bind getFaults getDb putDb ret panic emit
       GetChannel SaveChannel UpdateLastPostId GetPosts SavePosts sqliteCache
       SqliteCache.GetChannel SqliteCache.SaveChannel SqliteCache.UpdateLastPostId
       SqliteCache.GetPosts SqliteCache.SavePosts
       Channel_Name Channel_Title Channel_LastId Channel_Link Channel_Description].

Section SyncSteps.

Variable time_Parse : string -> string -> Time + error.

Lemma prepareFeed_unfold (channelName : string) (cache : Cache) (fetcher : Fetcher)
    (w : World) :
  prepareFeed channelName cache fetcher w
  = match FetchChannel fetcher channelName w with
    | (Return (channel, None), w0) =>
        match resolveChannel cache channelName channel w0 with
        | (Return dbCachedChannel, w1) =>
            serve channelName cache fetcher channel dbCachedChannel w1
        | (Panicked msg, w1) => (Panicked msg, w1)
        end
    | (Return (_, Some e), w0) =>
        (Return (emptyFeed, Some e), withOut w0 (out w0 ++ [EvFetchChannelFailed e]))
    | (Panicked msg, w0) => (Panicked msg, w0)
    end.
Proof.
  unfold prepareFeed, resolveChannel, serve. rewrite bind_eq.
  destruct (FetchChannel fetcher channelName w) as [[[channel [e|]]|msg] w0];
    [reflexivity| |reflexivity].
  cbv beta iota zeta. rewrite !bind_eq.
  destruct (GetChannel cache channelName w0) as [[[c [e|]]|msg] w1];
    cbv beta iota zeta; [|reflexivity|reflexivity].
  rewrite !bind_eq.
  destruct (SaveChannel cache _ w1) as [[[saved e']|msg] w2]; reflexivity.
Qed.

Lemma existsb_find (name : string) (l : list DbChannel) :
  existsb (fun c => String.eqb (DbChannel_Name c) name) l
  = match find (fun c => String.eqb (DbChannel_Name c) name) l with
    | Some _ => true
    | None => false
    end.
Proof.
  induction l as [|c l IH]; [reflexivity|].
  cbn [existsb find]. destruct (String.eqb (DbChannel_Name c) name); auto.
Qed.

Lemma resolveChannel_sqlite (name : string) (channel : Channel) (w : World) :
  Channel_Name channel = name ->
  resolveChannel sqliteCache name channel w
  = match failGetChannel (faults w), findChannel name (db w) with
    | None, Some c => (Return c, w)
    | _, _ =>
        match failSaveChannel (faults w), findChannel name (db w) with
        | None, None =>
            (Return (createdChannel channel (db w)), withDb w (dbCreate channel (db w)))
        | _, _ => (Panicked "nil pointer dereference", w)
        end
    end.
Proof.
  intros Hname. unfold resolveChannel, findChannel, createdChannel, dbCreate, withDb.
  destruct channel as [n t l k d]. cbn in Hname. subst n.
  destruct (failGetChannel (faults w)) as [e|] eqn:Hg;
    destruct (failSaveChannel (faults w)) as [e'|] eqn:Hs;
    destruct (find (fun c => String.eqb (DbChannel_Name c) name) (channels (db w)))
      as [c|] eqn:Hf;
    run_store;
    repeat (first [rewrite Hg|rewrite Hs|rewrite existsb_find|rewrite Hf];
            cbv beta iota zeta);
    reflexivity.
Qed.

End SyncSteps.

Section Serve.

Variable channelName : string.
Variable fetcher : Fetcher.
Variable channel : Channel.
Variable dbCachedChannel : DbChannel.

Lemma serve_fresh (w : World) :
  DbChannel_LastId dbCachedChannel = Channel_LastId channel ->
  serve channelName sqliteCache fetcher channel dbCachedChannel w
  = match failGetPosts (faults w) with
    | Some e => (Return (emptyFeed, Some e), withOut w (out w ++ [EvCachedProblem e]))
    | None =>
        (Return (generateFeed dbCachedChannel
                   (recentPosts (faults w) (DbChannel_Id dbCachedChannel)
                      MAX_RSS_POSTS_COUNT (db w)),
                 None), w)
    end.
Proof.
  intros Hfresh. unfold serve, recentPosts, withOut.
  rewrite Hfresh, Z.eqb_refl.
  destruct (failGetPosts (faults w)) as [e|] eqn:Hg;
    run_store; rewrite Hg; cbv beta iota zeta; [reflexivity|].
  destruct w; reflexivity.
Qed.

Hypothesis fetcher_quiet : quiet fetcher.

Lemma serve_stale (w : World) :
  DbChannel_LastId dbCachedChannel <> Channel_LastId channel ->
  exists ps evs,
    walk channelName fetcher channel dbCachedChannel
      (Z.to_nat (Channel_LastId channel)) (Channel_LastId channel) [] w
    = (Return ps, withOut w (out w ++ evs)) /\
    (exists n, downloads evs = countdown (Channel_LastId channel) n /\
               Z.of_nat n <= Z.max (Channel_LastId channel) 0) /\
    len ps <= MAX_RSS_POSTS_COUNT /\
    serve channelName sqliteCache fetcher channel dbCachedChannel w
    = let d1 := afterUpdate (faults w) (DbChannel_Id dbCachedChannel)
                  (Channel_LastId channel) (db w) in
      match failSavePosts (faults w) with
      | Some (k, e) =>
          (Return (emptyFeed, None),
           mkWorld (web w) (faults w) d1 ((out w ++ evs) ++ [EvCantSave e]))
      | None =>
          (Return (generateFeed dbCachedChannel
                     (SqliteCache.insertAll (DbChannel_Id dbCachedChannel)
                        (postSeq d1 + 1) ps), None),
           mkWorld (web w) (faults w) (dbAppend (DbChannel_Id dbCachedChannel) ps d1)
             (out w ++ evs))
      end.
Proof.
  intros Hstale.
  destruct (walk_frame channelName fetcher channel dbCachedChannel fetcher_quiet
              (Z.to_nat (Channel_LastId channel)) (Channel_LastId channel) [] w)
    as (ps & evs & Hw & (n & Hd & _ & Hn) & _ & Hlen).
  exists ps, evs. split; [exact Hw|]. split; [exists n; auto|].
  split; [unfold len in *; cbn [List.length] in Hlen; unfold MAX_RSS_POSTS_COUNT in *; lia|].
  unfold serve. apply Z.eqb_neq in Hstale. rewrite Hstale.
  cbv zeta. rewrite bind_eq, Hw. unfold afterUpdate, dbUpdate, dbAppend, withOut.
  destruct (failUpdateLastPostId (faults w)) as [e1|] eqn:Hu;
    destruct (failSavePosts (faults w)) as [[k e2]|] eqn:Hs;
    run_store; cbn [faults db out web channels posts channelSeq postSeq];
    rewrite Hu; cbv beta iota zeta;
    cbn [faults db out web channels posts channelSeq postSeq];
    rewrite Hs; reflexivity.
Qed.

End Serve.

Section SyncFacts.

Variable time_Parse : string -> string -> Time + error.

Lemma FetchChannel_ok (name : string) (w : World) (channel : Channel) :
  fst (TelegramWebFetcher.FetchChannel name w) = Return (channel, None) ->
  Channel_Name channel = name /\
  exists evs,
    FetchChannel (telegramWebFetcher time_Parse) name w
    = (Return (channel, None), withOut w (out w ++ evs)) /\
    downloads evs = [] /\ requests evs = [tgChannelFeedUrl name].
Proof.
  intros H. split.
  - destruct (web w (tgChannelFeedUrl name)) as [err|err|doc] eqn:Hweb.
    + unfold TelegramWebFetcher.FetchChannel, bind, http_Get in H.
      rewrite Hweb in H. discriminate.
    + unfold TelegramWebFetcher.FetchChannel, bind, http_Get in H.
      rewrite Hweb in H. discriminate.
    + rewrite (FetchChannel_Page _ _ _ Hweb) in H. cbv zeta in H.
      destruct (Each _ TelegramWebFetcher.lastIdStep (-1)) as [lastId|msg];
        [|discriminate].
      destruct (lastId =? -1); [discriminate|].
      cbn [fst] in H. injection H as <-. reflexivity.
  - destruct (FetchChannel_frame name w) as (evs & Hsnd & Hd & Hr).
    exists evs. split; [|auto].
    change (FetchChannel (telegramWebFetcher time_Parse) name w)
      with (TelegramWebFetcher.FetchChannel name w).
    rewrite <- Hsnd, <- H. apply surjective_pairing.
Qed.

Lemma find_setLastId (name : string) (channelId lastPostId : Z) (l : list DbChannel) :
  find (fun c => String.eqb (DbChannel_Name c) name)
    (map (SqliteCache.setLastId channelId lastPostId) l)
  = option_map (SqliteCache.setLastId channelId lastPostId)
      (find (fun c => String.eqb (DbChannel_Name c) name) l).
Proof.
  induction l as [|c l IH]; [reflexivity|]. cbn [map find].
  replace (DbChannel_Name (SqliteCache.setLastId channelId lastPostId c))
    with (DbChannel_Name c)
    by (unfold SqliteCache.setLastId; destruct (DbChannel_Id c =? channelId); reflexivity).
  destruct (String.eqb (DbChannel_Name c) name); [reflexivity|exact IH].
Qed.

Lemma cursorOf_dbUpdate (name : string) (d : Db) (c : DbChannel) (lastPostId : Z) :
  findChannel name d = Some c ->
  cursorOf name (dbUpdate (DbChannel_Id c) lastPostId d) = Some lastPostId.
Proof.
  unfold findChannel, cursorOf, dbUpdate. cbn [channels]. intros Hf.
  rewrite find_setLastId, Hf. cbn [option_map]. unfold SqliteCache.setLastId.
  rewrite Z.eqb_refl. reflexivity.
Qed.

Lemma findChannel_dbCreate (name : string) (channel : Channel) (d : Db) :
  Channel_Name channel = name ->
  findChannel name d = None ->
  findChannel name (dbCreate channel d) = Some (createdChannel channel d).
Proof.
  unfold findChannel, dbCreate, createdChannel. cbn [channels]. intros Hn Hf.
  induction (channels d) as [|c l IH]; cbn [app find] in *.
  - cbn [DbChannel_Name]. rewrite Hn, String.eqb_refl. reflexivity.
  - destruct (String.eqb (DbChannel_Name c) name); [discriminate|auto].
Qed.

Lemma cursorOf_findChannel (name : string) (d : Db) :
  cursorOf name d = option_map DbChannel_LastId (findChannel name d).
Proof. unfold cursorOf, findChannel. destruct (find _ _); reflexivity. Qed.

End SyncFacts.

(** C7.  When the head lookup succeeds and the store carries out the
    channel statements, the sync returns and the stored cursor is then
    the head id of that lookup, whatever the single-item fetches of the
    walk returned and whether or not the append went through. *)
Theorem sync_sets_cursor_to_head (time_Parse : string -> string -> Time + error)
    (name : string) (w : World) (channel : Channel) :
  fst (TelegramWebFetcher.FetchChannel name w) = Return (channel, None) ->
  failGetChannel (faults w) = None ->
  failSaveChannel (faults w) = None ->
  failUpdateLastPostId (faults w) = None ->
  let result := prepareFeed name sqliteCache (telegramWebFetcher time_Parse) w in
  (exists feed err, fst result = Return (feed, err)) /\
  cursorOf name (db (snd result)) = Some (Channel_LastId channel).
Proof.
  intros Hhead Hget Hsave Hupd result. subst result.
  destruct (FetchChannel_ok time_Parse name w channel Hhead) as (Hname & evs0 & Hfc & _).
  rewrite prepareFeed_unfold, Hfc, (resolveChannel_sqlite name channel _ Hname).
  cbn [faults db withOut]. rewrite Hget, Hsave.
  assert (Hserve : forall c w1,
    faults w1 = faults w ->
    findChannel name (db w1) = Some c ->
    let result := serve name sqliteCache (telegramWebFetcher time_Parse) channel c w1 in
    (exists feed err, fst result = Return (feed, err)) /\
    cursorOf name (db (snd result)) = Some (Channel_LastId channel)).
  { intros c w1 Hf Hfind. cbv zeta.
    destruct (Z.eq_dec (DbChannel_LastId c) (Channel_LastId channel)) as [Hfresh|Hstale].
    - rewrite (serve_fresh name _ channel c w1 Hfresh).
      destruct (failGetPosts (faults w1)); cbn [fst snd db withOut];
        (split; [eexists; eexists; reflexivity|]);
        rewrite cursorOf_findChannel, Hfind; cbn [option_map]; congruence.
    - destruct (serve_stale name _ channel c (telegram_quiet time_Parse) w1 Hstale)
        as (ps & evs & _ & _ & _ & ->).
      cbv zeta. unfold afterUpdate. rewrite Hf, Hupd.
      destruct (failSavePosts (faults w)) as [[k e]|]; cbn [fst snd db];
        (split; [eexists; eexists; reflexivity|]);
        [|unfold dbAppend, cursorOf; cbn [channels];
          change (cursorOf name (dbUpdate (DbChannel_Id c) (Channel_LastId channel) (db w1))
                  = Some (Channel_LastId channel))];
        apply cursorOf_dbUpdate; exact Hfind. }
  destruct (findChannel name (db w)) as [c|] eqn:Hfind.
  - apply Hserve; [reflexivity|exact Hfind].
  - apply Hserve; [reflexivity|].
    cbn [db withDb]. apply findChannel_dbCreate; assumption.
Qed.

Lemma sync_sets_cursor_to_head_witness :
  let result := prepareFeed "news" sqliteCache (telegramWebFetcher sampleClock) gapWorld in
  cursorOf "news" (db gapWorld) = Some 5 /\
  (exists feed err, fst result = Return (feed, err)) /\
  cursorOf "news" (db (snd result)) = Some 7.
Proof.
  split; [reflexivity|].
  apply (sync_sets_cursor_to_head sampleClock "news" gapWorld
           (mkChannel "news" "News" 7 (tgChannelFeedUrl "news") ""));
    reflexivity.
Defined.

(** ** C1, C2: where the walk and the append fall short *)

Section StaleSync.

Variable time_Parse : string -> string -> Time + error.

(** What does hold of every sync: the single-item fetches go down one
    by one from the head id and stay above zero. *)
Lemma sync_downloads (name : string) (w : World) :
  exists evs,
    out (snd (prepareFeed name sqliteCache (telegramWebFetcher time_Parse) w))
    = (out w ++ evs)%list /\
    (downloads evs = [] \/
     exists channel n,
       fst (TelegramWebFetcher.FetchChannel name w) = Return (channel, None) /\
       downloads evs = countdown (Channel_LastId channel) n /\
       Z.of_nat n <= Z.max (Channel_LastId channel) 0).
Proof.
  rewrite prepareFeed_unfold.
  destruct (FetchChannel_frame name w) as (evs0 & Hsnd & Hd0 & _).
  change (FetchChannel (telegramWebFetcher time_Parse) name w)
    with (TelegramWebFetcher.FetchChannel name w).
  destruct (TelegramWebFetcher.FetchChannel name w) as [[[channel [e|]]|msg] w0] eqn:Hfc;
    cbn [snd] in Hsnd; subst w0.
  - exists (evs0 ++ [EvFetchChannelFailed e])%list. cbn [snd out withOut].
    split; [rewrite app_assoc; reflexivity|left].
    rewrite downloads_app, Hd0. reflexivity.
  - assert (Hname : Channel_Name channel = name).
    { apply (FetchChannel_ok time_Parse name w). rewrite Hfc. reflexivity. }
    rewrite (resolveChannel_sqlite name channel _ Hname). cbn [faults db withOut].
    assert (Hserve : forall c d,
      exists evs,
        out (snd (serve name sqliteCache (telegramWebFetcher time_Parse) channel c
                    (mkWorld (web w) (faults w) d (out w ++ evs0))))
        = (out w ++ evs)%list /\
        (downloads evs = [] \/
         exists n, downloads evs = countdown (Channel_LastId channel) n /\
                   Z.of_nat n <= Z.max (Channel_LastId channel) 0)).
    { intros c d.
      destruct (Z.eq_dec (DbChannel_LastId c) (Channel_LastId channel)) as [Hfresh|Hstale].
      - rewrite (serve_fresh name _ channel c _ Hfresh). cbn [faults].
        destruct (failGetPosts (faults w)) as [e|]; cbn [snd out withOut].
        + exists (evs0 ++ [EvCachedProblem e])%list.
          split; [rewrite app_assoc; reflexivity|left].
          rewrite downloads_app, Hd0. reflexivity.
        + exists evs0. auto.
      - destruct (serve_stale name _ channel c (telegram_quiet time_Parse)
                    (mkWorld (web w) (faults w) d (out w ++ evs0)) Hstale)
          as (ps & evs & _ & (n & Hd & Hn) & _ & ->).
        cbv zeta. cbn [faults out].
        destruct (failSavePosts (faults w)) as [[k e]|]; cbn [snd out].
        + exists ((evs0 ++ evs) ++ [EvCantSave e])%list.
          split; [rewrite !app_assoc; reflexivity|right]. exists n.
          rewrite !downloads_app, Hd0, Hd. cbn. rewrite app_nil_r. auto.
        + exists (evs0 ++ evs)%list.
          split; [rewrite !app_assoc; reflexivity|right]. exists n.
          rewrite !downloads_app, Hd0, Hd. auto. }
    unfold withOut, withDb. cbn [web faults db out].
    destruct (failGetChannel (faults w)), (findChannel name (db w)) as [c|],
      (failSaveChannel (faults w));
      try (exists evs0; cbn [snd out]; split; [reflexivity|left; exact Hd0]);
      match goal with
      | |- context [serve _ _ _ _ ?c (mkWorld _ _ ?d _)] =>
          destruct (Hserve c d) as (evs & Ho & [Hd|(n & Hd & Hn)])
      end;
      exists evs; (split; [exact Ho|]); auto;
      right; exists channel, n; auto.
  - exists evs0. cbn [snd out withOut]. auto.
Qed.

(** A stale sync of a known channel whose append fails returns the
    empty feed and no error. *)
Lemma stale_append_failure (name : string) (w : World) (channel : Channel)
    (c : DbChannel) (k : nat) (e : error) :
  fst (TelegramWebFetcher.FetchChannel name w) = Return (channel, None) ->
  failGetChannel (faults w) = None ->
  findChannel name (db w) = Some c ->
  DbChannel_LastId c <> Channel_LastId channel ->
  failSavePosts (faults w) = Some (k, e) ->
  fst (prepareFeed name sqliteCache (telegramWebFetcher time_Parse) w)
  = Return (emptyFeed, None).
Proof.
  intros Hhead Hget Hfind Hstale Hsave.
  destruct (FetchChannel_ok time_Parse name w channel Hhead) as (Hname & evs0 & Hfc & _).
  rewrite prepareFeed_unfold, Hfc, (resolveChannel_sqlite name channel _ Hname).
  cbn [faults db withOut]. rewrite Hget, Hfind. unfold withOut.
  destruct (serve_stale name _ channel c (telegram_quiet time_Parse)
              (mkWorld (web w) (faults w) (db w) (out w ++ evs0)) Hstale)
    as (ps & evs & _ & _ & _ & ->).
  cbv zeta. cbn [faults]. rewrite Hsave. reflexivity.
Qed.

End StaleSync.

(** C1, at the failing input.  The stored cursor is 5, the head id 7
    and post 6 has been removed: its fetch fails, the boundary check is
    skipped, and the walk goes on to fetch and persist posts 5 to 1,
    all at or below the cursor. *)
Theorem walk_passes_cursor_after_failed_fetch :
  let after := snd (prepareFeed "news" sqliteCache (telegramWebFetcher sampleClock) gapWorld) in
  cursorOf "news" (db gapWorld) = Some 5 /\
  downloads (out after) = [7; 6; 5; 4; 3; 2; 1] /\
  map DbPost_Link (posts (db after))
  = map (tgChannelPostUrl "news") [7; 5; 4; 3; 2; 1].
Proof. vm_compute. repeat split. Qed.

(** C2, at the failing input.  The channel is stale and the database
    refuses the append: the cursor has moved to the head id, nothing is
    stored, and the caller gets the empty feed with a nil error. *)
Theorem append_failure_returns_nil_error :
  let result := prepareFeed "news" sqliteCache (telegramWebFetcher sampleClock)
                  appendFailsWorld in
  failSavePosts (faults appendFailsWorld) = Some (O, "database is locked") /\
  cursorOf "news" (db appendFailsWorld) = Some 5 /\
  fst result = Return (emptyFeed, None) /\
  cursorOf "news" (db (snd result)) = Some 7 /\
  posts (db (snd result)) = [] /\
  last (out (snd result)) EvDuplicated = EvCantSave "database is locked".
Proof. vm_compute. repeat split. Qed.

(** C3, the claim as stated fails: the stored cursor is 10, the listing
    now ends at 5, and the sync writes 5. *)
Lemma cursor_decreases_when_head_drops :
  cursorOf "news" (db rolledBackWorld) = Some 10 /\
  cursorOf "news"
    (db (snd (prepareFeed "news" sqliteCache (telegramWebFetcher sampleClock)
                rolledBackWorld)))
  = Some 5.
Proof. vm_compute. split; reflexivity. Qed.

(** ** C3: the cursor across syncs *)

Section Cursor.

Variable time_Parse : string -> string -> Time + error.

(** The tables a sync can leave behind. *)
Lemma prepareFeed_db (name : string) (w : World) :
  let d' := db (snd (prepareFeed name sqliteCache (telegramWebFetcher time_Parse) w)) in
  d' = db w \/
  exists channel c d0,
    fst (TelegramWebFetcher.FetchChannel name w) = Return (channel, None) /\
    Channel_Name channel = name /\
    findChannel name d0 = Some c /\
    (d0 = db w \/ (findChannel name (db w) = None /\ d0 = dbCreate channel (db w))) /\
    exists d1,
      (d1 = d0 \/ d1 = dbUpdate (DbChannel_Id c) (Channel_LastId channel) d0) /\
      (d' = d1 \/ exists ps, d' = dbAppend (DbChannel_Id c) ps d1).
Proof.
  cbv zeta. rewrite prepareFeed_unfold.
  destruct (FetchChannel_frame name w) as (evs0 & Hsnd & _).
  change (FetchChannel (telegramWebFetcher time_Parse) name w)
    with (TelegramWebFetcher.FetchChannel name w).
  destruct (TelegramWebFetcher.FetchChannel name w) as [[[channel [e|]]|msg] w0] eqn:Hfc;
    cbn [snd] in Hsnd; subst w0; [left; reflexivity| |left; reflexivity].
  assert (Hname : Channel_Name channel = name).
  { apply (FetchChannel_ok time_Parse name w). rewrite Hfc. reflexivity. }
  rewrite (resolveChannel_sqlite name channel _ Hname).
  unfold withOut, withDb. cbn [web faults db out].
  assert (Hserve : forall c d0,
    findChannel name d0 = Some c ->
    exists d1,
      (d1 = d0 \/ d1 = dbUpdate (DbChannel_Id c) (Channel_LastId channel) d0) /\
      (db (snd (serve name sqliteCache (telegramWebFetcher time_Parse) channel c
                  (mkWorld (web w) (faults w) d0 (out w ++ evs0)))) = d1 \/
       exists ps,
         db (snd (serve name sqliteCache (telegramWebFetcher time_Parse) channel c
                    (mkWorld (web w) (faults w) d0 (out w ++ evs0))))
         = dbAppend (DbChannel_Id c) ps d1)).
  { intros c d0 Hfind.
    destruct (Z.eq_dec (DbChannel_LastId c) (Channel_LastId channel)) as [Hfresh|Hstale].
    - rewrite (serve_fresh name _ channel c _ Hfresh). cbn [faults db].
      exists d0. split; [auto|left].
      destruct (failGetPosts (faults w)); reflexivity.
    - destruct (serve_stale name _ channel c (telegram_quiet time_Parse)
                  (mkWorld (web w) (faults w) d0 (out w ++ evs0)) Hstale)
        as (ps & evs & _ & _ & _ & ->).
      cbv zeta. cbn [faults db]. unfold afterUpdate.
      exists (match failUpdateLastPostId (faults w) with
              | Some _ => d0
              | None => dbUpdate (DbChannel_Id c) (Channel_LastId channel) d0
              end).
      split; [destruct (failUpdateLastPostId (faults w)); auto|].
      destruct (failSavePosts (faults w)) as [[k e]|]; cbn [snd db];
        [left; reflexivity|right; exists ps; reflexivity]. }
  destruct (findChannel name (db w)) as [c|] eqn:Hfind.
  - destruct (failGetChannel (faults w)).
    + destruct (failSaveChannel (faults w)); left; reflexivity.
    + right. destruct (Hserve c (db w) Hfind) as (d1 & Hd1 & Hd').
      exists channel, c, (db w).
      split; [reflexivity|split; [exact Hname|split; [exact Hfind|split; [auto|]]]].
      exists d1. split; [exact Hd1|].
      destruct Hd' as [Hd'|[ps Hd']]; [left|right; exists ps]; exact Hd'.
  - assert (Hcreated : findChannel name (dbCreate channel (db w))
                       = Some (createdChannel channel (db w)))
      by (apply findChannel_dbCreate; assumption).
    destruct (Hserve _ _ Hcreated) as (d1 & Hd1 & Hd').
    destruct (failGetChannel (faults w)), (failSaveChannel (faults w));
      try (left; reflexivity);
      right; exists channel, (createdChannel channel (db w)), (dbCreate channel (db w));
      (split; [reflexivity|split; [exact Hname|split; [exact Hcreated|split; [auto|]]]]);
      exists d1; (split; [exact Hd1|]);
      (destruct Hd' as [Hd'|[ps Hd']]; [left|right; exists ps]; exact Hd').
Qed.

End Cursor.

Section CursorSteps.

Variable time_Parse : string -> string -> Time + error.

Lemma NoDup_map_inj {A B : Type} (f : A -> B) (l : list A) (x y : A) :
  NoDup (map f l) -> In x l -> In y l -> f x = f y -> x = y.
Proof.
  induction l as [|a l IH]; cbn [map]; intros Hnd Hx Hy Hf; [contradiction|].
  inversion Hnd as [|? ? Hnotin Hnd']; subst.
  destruct Hx as [->|Hx], Hy as [->|Hy]; auto.
  - exfalso. apply Hnotin. rewrite Hf. apply in_map. exact Hy.
  - exfalso. apply Hnotin. rewrite <- Hf. apply in_map. exact Hx.
Qed.

Lemma NoDup_snoc {A : Type} (l : list A) (x : A) :
  NoDup l -> ~ In x l -> NoDup (l ++ [x]).
Proof.
  induction l as [|a l IH]; cbn [app]; intros Hnd Hx.
  - constructor; [intros []|constructor].
  - inversion Hnd as [|? ? Ha Hnd']; subst. constructor.
    + intros Hin. apply in_app_or in Hin as [Hin|[->|[]]]; [auto|].
      apply Hx. left. reflexivity.
    + apply IH; [exact Hnd'|]. intros Hin. apply Hx. right. exact Hin.
Qed.

Lemma map_Id_setLastId (channelId lastPostId : Z) (l : list DbChannel) :
  map DbChannel_Id (map (SqliteCache.setLastId channelId lastPostId) l)
  = map DbChannel_Id l.
Proof.
  rewrite map_map. apply map_ext. intros c. unfold SqliteCache.setLastId.
  destruct (DbChannel_Id c =? channelId); reflexivity.
Qed.

Lemma wfDb_dbUpdate (channelId lastPostId : Z) (d : Db) :
  wfDb d -> wfDb (dbUpdate channelId lastPostId d).
Proof.
  intros [Hnd Hseq]. split; cbn [dbUpdate channels channelSeq].
  - rewrite map_Id_setLastId. exact Hnd.
  - apply Forall_map. eapply Forall_impl; [|exact Hseq].
    intros c Hc. unfold SqliteCache.setLastId.
    destruct (DbChannel_Id c =? channelId); exact Hc.
Qed.

Lemma wfDb_dbAppend (channelId : Z) (ps : list Post) (d : Db) :
  wfDb d -> wfDb (dbAppend channelId ps d).
Proof. intros H. exact H. Qed.

Lemma wfDb_dbCreate (channel : Channel) (d : Db) :
  wfDb d -> wfDb (dbCreate channel d).
Proof.
  intros [Hnd Hseq]. split; cbn [dbCreate channels channelSeq].
  - rewrite map_app. cbn [map DbChannel_Id].
    apply NoDup_snoc; [exact Hnd|].
    intros Hin. apply in_map_iff in Hin as (c & Hc & Hin).
    rewrite Forall_forall in Hseq. specialize (Hseq c Hin). lia.
  - apply Forall_app. split.
    + eapply Forall_impl; [|exact Hseq]. cbv beta. intros c Hc. lia.
    + constructor; [cbn; lia|constructor].
Qed.

Lemma cursorOf_dbAppend (n : string) (channelId : Z) (ps : list Post) (d : Db) :
  cursorOf n (dbAppend channelId ps d) = cursorOf n d.
Proof. reflexivity. Qed.

Lemma cursorOf_dbCreate (n : string) (channel : Channel) (d : Db) (cur : Z) :
  cursorOf n d = Some cur -> cursorOf n (dbCreate channel d) = Some cur.
Proof.
  unfold cursorOf, dbCreate. cbn [channels].
  induction (channels d) as [|c l IH]; cbn [app find]; [discriminate|].
  destruct (String.eqb (DbChannel_Name c) n); auto.
Qed.

Lemma cursorOf_dbUpdate_other (name n : string) (c : DbChannel) (lastPostId : Z) (d : Db) :
  wfDb d -> findChannel name d = Some c -> n <> name ->
  cursorOf n (dbUpdate (DbChannel_Id c) lastPostId d) = cursorOf n d.
Proof.
  intros [Hnd _] Hfind Hneq. unfold cursorOf, dbUpdate. cbn [channels].
  rewrite find_setLastId. unfold findChannel in Hfind.
  destruct (find (fun c0 => String.eqb (DbChannel_Name c0) n) (channels d)) as [c'|] eqn:Hn;
    [|reflexivity].
  cbn [option_map]. unfold SqliteCache.setLastId.
  destruct (DbChannel_Id c' =? DbChannel_Id c) eqn:E; [|reflexivity].
  exfalso. apply Z.eqb_eq in E.
  apply find_some in Hn as [Hin' Hname']. apply find_some in Hfind as [Hin Hname].
  apply String.eqb_eq in Hname', Hname.
  assert (c' = c) by (eapply NoDup_map_inj; eauto).
  subst c'. congruence.
Qed.

(** One call: the schema invariant is kept, and no stored cursor gets
    smaller provided the head id found is not below the cursor of the
    channel synced. *)
Lemma handle_step (d : Db) (c : Call) :
  wfDb d ->
  (forall head cursor,
      headSeen d c = Some head -> cursorOf (callName c) d = Some cursor ->
      cursor <= head) ->
  wfDb (handle time_Parse d c) /\
  forall n cur,
    cursorOf n d = Some cur ->
    exists cur', cursorOf n (handle time_Parse d c) = Some cur' /\ cur <= cur'.
Proof.
  intros Hwf Hhead. unfold handle.
  destruct (prepareFeed_db time_Parse (callName c) (worldOf d c))
    as [->|(channel & ch & d0 & Hfc & Hname & Hfind & Hd0 & d1 & Hd1 & Hd')].
  { cbn [db worldOf]. split; [exact Hwf|]. intros n cur Hc. exists cur. split; [exact Hc|lia]. }
  cbn [db worldOf] in Hd0.
  assert (Hwf0 : wfDb d0)
    by (destruct Hd0 as [->|[_ ->]]; [exact Hwf|apply wfDb_dbCreate; exact Hwf]).
  assert (Hwf1 : wfDb d1)
    by (destruct Hd1 as [->| ->]; [exact Hwf0|apply wfDb_dbUpdate; exact Hwf0]).
  split; [destruct Hd' as [->|[ps ->]]; [exact Hwf1|apply wfDb_dbAppend; exact Hwf1]|].
  intros n cur Hcur.
  assert (H0 : cursorOf n d0 = Some cur)
    by (destruct Hd0 as [->|[_ ->]]; [exact Hcur|apply cursorOf_dbCreate; exact Hcur]).
  assert (H1 : exists cur', cursorOf n d1 = Some cur' /\ cur <= cur').
  { destruct Hd1 as [->| ->]; [exists cur; split; [exact H0|lia]|].
    destruct (String.eqb_spec n (callName c)) as [->|Hneq].
    - exists (Channel_LastId channel).
      split; [apply cursorOf_dbUpdate; exact Hfind|].
      destruct Hd0 as [->|[Hnone _]].
      + apply Hhead; [|exact Hcur]. unfold headSeen. rewrite Hfc. reflexivity.
      + rewrite cursorOf_findChannel, Hnone in Hcur. discriminate.
    - exists cur. split; [|lia].
      rewrite (cursorOf_dbUpdate_other (callName c) n ch _ d0 Hwf0 Hfind Hneq). exact H0. }
  destruct H1 as (cur' & Hc' & Hle). exists cur'. split; [|exact Hle].
  destruct Hd' as [->|[ps ->]]; [exact Hc'|]. rewrite cursorOf_dbAppend. exact Hc'.
Qed.

Lemma handleAll_steps (calls : list Call) :
  forall d,
    wfDb d -> headsNotBelowCursor time_Parse d calls ->
    wfDb (handleAll time_Parse d calls) /\
    forall n cur,
      cursorOf n d = Some cur ->
      exists cur', cursorOf n (handleAll time_Parse d calls) = Some cur' /\ cur <= cur'.
Proof.
  induction calls as [|c calls IH]; intros d Hwf Hheads; cbn [handleAll fold_left].
  - split; [exact Hwf|]. intros n cur Hc. exists cur. split; [exact Hc|lia].
  - destruct Hheads as [Hhead Hrest].
    destruct (handle_step d c Hwf Hhead) as [Hwf' Hstep].
    destruct (IH _ Hwf' Hrest) as [Hwf'' Hall]. split; [exact Hwf''|].
    intros n cur Hc. destruct (Hstep n cur Hc) as (cur1 & Hc1 & Hle1).
    destruct (Hall n cur1 Hc1) as (cur2 & Hc2 & Hle2).
    exists cur2. split; [exact Hc2|lia].
Qed.

Lemma headsNotBelowCursor_app (before after : list Call) :
  forall d,
    headsNotBelowCursor time_Parse d (before ++ after) ->
    headsNotBelowCursor time_Parse d before /\
    headsNotBelowCursor time_Parse (handleAll time_Parse d before) after.
Proof.
  induction before as [|c before IH]; intros d H; cbn [app headsNotBelowCursor] in *.
  - split; [exact I|exact H].
  - destruct H as [Hc Hrest]. destruct (IH _ Hrest) as [Hb Ha].
    split; [split; assumption|exact Ha].
Qed.

End CursorSteps.

(** C3, as amended.  In every sequence of syncs in which each head
    lookup finds a head id that is not below the cursor stored for its
    channel, the cursor stored for any channel never gets smaller: the
    cursor read at some point of the sequence is at most the cursor
    read at any later point. *)
Theorem cursor_monotone_when_heads_grow (time_Parse : string -> string -> Time + error)
    (d : Db) (before after : list Call) (name : string) (cursor : Z) :
  wfDb d ->
  headsNotBelowCursor time_Parse d (before ++ after) ->
  cursorOf name (handleAll time_Parse d before) = Some cursor ->
  exists cursor',
    cursorOf name (handleAll time_Parse d (before ++ after)) = Some cursor' /\
    cursor <= cursor'.
Proof.
  intros Hwf Hheads Hcur.
  destruct (headsNotBelowCursor_app time_Parse before after d Hheads) as [Hb Ha].
  destruct (handleAll_steps time_Parse before d Hwf Hb) as [Hwf' _].
  destruct (handleAll_steps time_Parse after _ Hwf' Ha) as [_ Hall].
  unfold handleAll at 1. rewrite fold_left_app. apply Hall. exact Hcur.
Qed.

Lemma cursor_monotone_when_heads_grow_witness :
  exists cursor',
    cursorOf "news" (handleAll sampleClock (db gapWorld) ([firstCall] ++ [secondCall]))
    = Some cursor' /\
    6 <= cursor'.
Proof.
  apply (cursor_monotone_when_heads_grow sampleClock (db gapWorld)
           [firstCall] [secondCall] "news" 6).
  - split.
    + cbn. constructor; [intros []|constructor].
    + constructor; [vm_compute; discriminate|constructor].
  - cbn [app headsNotBelowCursor]. split; [|split; [|exact I]].
    + intros head cursor H1 H2. vm_compute in H1. vm_compute in H2.
      injection H1 as <-. injection H2 as <-. lia.
    + intros head cursor H1 H2. vm_compute in H1. vm_compute in H2.
      injection H1 as <-. injection H2 as <-. lia.
  - vm_compute. reflexivity.
Defined.

(** ** C6: the fresh path *)

Section Recent.

Lemma Time_before_spec (t u : Time) :
  Time_before t u = true <-> ext t < ext u \/ (ext t = ext u /\ wall t < wall u).
Proof.
  unfold Time_before. rewrite orb_true_iff, andb_true_iff, !Z.ltb_lt, Z.eqb_eq.
  reflexivity.
Qed.

Lemma Time_before_false (t u : Time) :
  Time_before t u = false <-> ext u < ext t \/ (ext u = ext t /\ wall u <= wall t).
Proof.
  rewrite <- not_true_iff_false, Time_before_spec. lia.
Qed.



Lemma ltb_lt (a b : string) : String.ltb a b = true <-> String.compare a b = Lt.
Proof. unfold String.ltb. destruct (String.compare a b); split; congruence. Qed.



Variable text : Time -> string.


Lemma insertDesc_perm (p : DbPost) (l : list DbPost) :
  Permutation (SqliteCache.insertDesc text p l) (p :: l).
Proof.
  induction l as [|q l IH]; cbn [SqliteCache.insertDesc]; [reflexivity|].
  destruct (String.ltb _ _); [|reflexivity].
  rewrite IH. apply perm_swap.
Qed.

Lemma orderBy_perm (l : list DbPost) :
  Permutation (SqliteCache.orderByCreatedAtDesc text l) l.
Proof.
  induction l as [|p l IH]; [reflexivity|].
  cbn [SqliteCache.orderByCreatedAtDesc fold_right].
  rewrite insertDesc_perm. constructor. exact IH.
Qed.




End Recent.




(** ** One new post *)

Section OneNewPost.

Variable time_Parse : string -> string -> Time + error.

(** The case of C9 seen from the caller: the head id is one above the
    stored cursor and the page of that post is readable.  The post is
    fetched, the loop breaks at once, nothing is stored and the feed
    has no items, while the cursor moves to the head id. *)
Lemma single_new_post_is_dropped (name : string) (w : World) (channel : Channel)
    (c : DbChannel) (doc : Node) :
  fst (TelegramWebFetcher.FetchChannel name w) = Return (channel, None) ->
  failGetChannel (faults w) = None ->
  failUpdateLastPostId (faults w) = None ->
  failSavePosts (faults w) = None ->
  findChannel name (db w) = Some c ->
  0 <= DbChannel_LastId c ->
  Channel_LastId channel = DbChannel_LastId c + 1 ->
  web w (tgChannelPostUrl name (Channel_LastId channel)) = Page doc ->
  errorMessageOf doc = "" ->
  let result := prepareFeed name sqliteCache (telegramWebFetcher time_Parse) w in
  fst result = Return (generateFeed c [], None) /\
  posts (db (snd result)) = posts (db w) /\
  cursorOf name (db (snd result)) = Some (Channel_LastId channel) /\
  exists evs, out (snd result) = (out w ++ evs)%list /\
              downloads evs = [Channel_LastId channel].
Proof.
  intros Hhead Hget Hupd Hsave Hfind Hcur Hone Hweb Herr result. subst result.
  destruct (FetchChannel_ok time_Parse name w channel Hhead)
    as (Hname & evs0 & Hfc & Hd0 & _).
  rewrite prepareFeed_unfold, Hfc, (resolveChannel_sqlite name channel _ Hname).
  cbn [faults db withOut]. rewrite Hget, Hfind. unfold withOut.
  set (w0 := mkWorld (web w) (faults w) (db w) (out w ++ evs0)).
  assert (Hstale : DbChannel_LastId c <> Channel_LastId channel) by lia.
  destruct (serve_stale name _ channel c (telegram_quiet time_Parse) w0 Hstale)
    as (ps & evs & Hwalk & _ & _ & ->).
  assert (Hps : ps = [] /\ downloads evs = [Channel_LastId channel]).
  { destruct (Z.to_nat (Channel_LastId channel)) as [|fuel] eqn:Hfuel; [lia|].
    cbn [walk] in Hwalk.
    replace (Channel_LastId channel >? 0) with true in Hwalk
      by (symmetry; rewrite Z.gtb_ltb; apply Z.ltb_lt; lia).
    cbn [andb len List.length Z.of_nat] in Hwalk.
    change (0 <? MAX_RSS_POSTS_COUNT) with true in Hwalk.
    cbv beta iota in Hwalk.
    rewrite bind_eq, emit_eq, bind_eq in Hwalk.
    change (FetchPost (telegramWebFetcher time_Parse) (Channel_Name channel))
      with (TelegramWebFetcher.FetchPost time_Parse (Channel_Name channel)) in Hwalk.
    rewrite Hname in Hwalk.
    destruct (FetchPost_Page time_Parse name (Channel_LastId channel)
                (withOut w0 (out w0 ++ [EvDownload name (Channel_LastId channel)])) doc Hweb)
      as (printed & Hprinted & Hfp).
    rewrite Hfp, Herr in Hwalk. cbn [String.eqb negb] in Hwalk.
    cbv beta iota zeta in Hwalk. cbn [andb Z.gtb Z.compare] in Hwalk.
    replace (Channel_LastId channel - 1 =? DbChannel_LastId c) with true in Hwalk
      by (symmetry; apply Z.eqb_eq; lia).
    unfold ret, withOut in Hwalk. cbn [web faults db out] in Hwalk.
    injection Hwalk as Hps Hout. split; [symmetry; exact Hps|].
    rewrite <- !app_assoc in Hout. do 2 apply app_inv_head in Hout. subst evs.
    rewrite !downloads_app, Hprinted. reflexivity. }
  destruct Hps as [-> Hdl].
  cbv zeta. subst w0. cbn [faults db out]. unfold afterUpdate. rewrite Hupd, Hsave.
  cbn [fst snd db out]. split; [reflexivity|].
  split; [cbn [dbAppend dbUpdate posts SqliteCache.insertAll]; apply app_nil_r|].
  split.
  - rewrite cursorOf_dbAppend. apply cursorOf_dbUpdate. exact Hfind.
  - exists (evs0 ++ evs)%list. split; [rewrite app_assoc; reflexivity|].
    rewrite downloads_app, Hd0, Hdl. reflexivity.
Qed.

End OneNewPost.

(** * Further properties *)

(** ** The store *)

Section Store.

Lemma insertAll_postOf (channelId : Z) (ps : list Post) :
  forall insertedId, map postOf (SqliteCache.insertAll channelId insertedId ps) = ps.
Proof.
  induction ps as [|[h c l t] ps IH]; intros insertedId; [reflexivity|].
  cbn [SqliteCache.insertAll map]. rewrite IH. reflexivity.
Qed.

Lemma insertAll_channel (channelId : Z) (ps : list Post) :
  forall insertedId,
    Forall (fun r => DbPost_ChannelId r = channelId)
      (SqliteCache.insertAll channelId insertedId ps).
Proof.
  induction ps as [|p ps IH]; intros insertedId; cbn [SqliteCache.insertAll];
    constructor; [reflexivity|apply IH].
Qed.

Lemma insertAll_length (channelId : Z) (ps : list Post) :
  forall insertedId,
    List.length (SqliteCache.insertAll channelId insertedId ps) = List.length ps.
Proof.
  induction ps as [|p ps IH]; intros insertedId; cbn [SqliteCache.insertAll List.length];
    [reflexivity|rewrite IH; reflexivity].
Qed.

Lemma filter_all {A : Type} (f : A -> bool) (l : list A) :
  Forall (fun x => f x = true) l -> filter f l = l.
Proof.
  induction 1 as [|x l Hx _ IH]; cbn [filter]; [reflexivity|].
  rewrite Hx, IH. reflexivity.
Qed.

Lemma limit_all {A : Type} (count : Z) (l : list A) :
  len l <= count -> SqliteCache.limit count l = l.
Proof.
  intros H. unfold SqliteCache.limit, len in *.
  destruct (count <? 0); [reflexivity|].
  apply firstn_all2. lia.
Qed.

End Store.

(** X1.  Posts appended with [SavePosts] are listed back by [GetPosts]:
    when the limit covers the rows of the channel, the list is the
    channel's earlier rows and the saved ones, each with its id,
    header, content and link, with a zero [ChannelId], and with the
    creation time that the driver reads back from the text it wrote
    for the one saved (not the saved [time.Time] itself). *)
Theorem SavePosts_GetPosts_round_trip (channelId count : Z) (ps : list Post) (w : World) :
  failSavePosts (faults w) = None ->
  failGetPosts (faults w) = None ->
  len (rowsOf channelId (db w)) + len ps <= count ->
  let readBack := fun t => timeOfText (faults w) (timeText (faults w) t) in
  exists saved w1 listed,
    SqliteCache.SavePosts channelId ps w = (Return (saved, None), w1) /\
    SqliteCache.GetPosts channelId count w1 = (Return (listed, None), w1) /\
    map postOf saved = ps /\
    Forall (fun r => DbPost_ChannelId r = channelId) saved /\
    Permutation listed
      (map (fun r => mkDbPost (DbPost_Id r) (DbPost_Header r) (DbPost_Content r)
                       (DbPost_Link r) (readBack (DbPost_CreatedAt r)) 0)
         (rowsOf channelId (db w) ++ saved)) /\
    Forall (fun p => exists r,
              In r listed /\
              DbPost_Header r = Post_Header p /\
              DbPost_Content r = Post_Content p /\
              DbPost_Link r = Post_Link p /\
              DbPost_CreatedAt r = readBack (Post_CreatedAt p)) ps.
Proof.
  intros Hsave Hget Hcount readBack.
  set (saved := SqliteCache.insertAll channelId (postSeq (db w) + 1) ps).
  set (w1 := mkWorld (web w) (faults w)
               (mkDb (channels (db w)) (posts (db w) ++ saved)%list (channelSeq (db w))
                  (postSeq (db w) + len ps)) (out w)).
  assert (Hrows : rowsOf channelId (db w1) = (rowsOf channelId (db w) ++ saved)%list).
  { unfold rowsOf. cbn [db w1 posts]. rewrite filter_app. f_equal.
    apply filter_all. eapply Forall_impl; [|apply insertAll_channel].
    cbv beta. intros r ->. apply Z.eqb_refl. }
  set (listed := map (SqliteCache.scanPost (faults w))
                   (SqliteCache.limit count
                      (SqliteCache.orderByCreatedAtDesc (timeText (faults w))
                         (rowsOf channelId (db w1))))).
  exists saved, w1, listed.
  assert (Hperm : Permutation listed
                    (map (SqliteCache.scanPost (faults w))
                       (rowsOf channelId (db w) ++ saved))).
  { unfold listed. rewrite limit_all.
    - apply Permutation_map. rewrite orderBy_perm, Hrows. reflexivity.
    - unfold len. rewrite (Permutation_length (orderBy_perm _ _)), Hrows, length_app.
      unfold saved. rewrite insertAll_length. unfold len in Hcount. lia. }
  split; [unfold SqliteCache.SavePosts; run_store; rewrite Hsave; reflexivity|].
  split.
  { unfold SqliteCache.GetPosts. run_store.
    replace (failGetPosts (faults w1)) with (@None error) by (symmetry; exact Hget).
    reflexivity. }
  split; [apply insertAll_postOf|]. split; [apply insertAll_channel|].
  split; [exact Hperm|].
  rewrite <- (insertAll_postOf channelId ps (postSeq (db w) + 1)). fold saved.
  apply Forall_forall. intros p Hp. apply in_map_iff in Hp as (r & <- & Hr).
  exists (SqliteCache.scanPost (faults w) r). split.
  - apply (Permutation_in _ (Permutation_sym Hperm)).
    apply in_map. apply in_or_app. right. exact Hr.
  - repeat split.
Qed.

Lemma SavePosts_GetPosts_round_trip_witness :
  let readBack := fun t => timeOfText (faults smallWorld) (timeText (faults smallWorld) t) in
  exists saved w1 listed,
    SqliteCache.SavePosts 1 twoPosts smallWorld = (Return (saved, None), w1) /\
    SqliteCache.GetPosts 1 MAX_RSS_POSTS_COUNT w1 = (Return (listed, None), w1) /\
    map postOf saved = twoPosts /\
    Forall (fun r => DbPost_ChannelId r = 1) saved /\
    Permutation listed
      (map (fun r => mkDbPost (DbPost_Id r) (DbPost_Header r) (DbPost_Content r)
                       (DbPost_Link r) (readBack (DbPost_CreatedAt r)) 0)
         (rowsOf 1 (db smallWorld) ++ saved)) /\
    Forall (fun p => exists r,
              In r listed /\
              DbPost_Header r = Post_Header p /\
              DbPost_Content r = Post_Content p /\
              DbPost_Link r = Post_Link p /\
              DbPost_CreatedAt r = readBack (Post_CreatedAt p)) twoPosts.
Proof.
  apply (SavePosts_GetPosts_round_trip 1 MAX_RSS_POSTS_COUNT twoPosts smallWorld).
  - reflexivity.
  - reflexivity.
  - vm_compute. discriminate.
Defined.

Section StoreChannels.

Lemma find_snoc {A : Type} (f : A -> bool) (l : list A) (x : A) :
  find f (l ++ [x])
  = match find f l with
    | Some y => Some y
    | None => if f x then Some x else None
    end.
Proof.
  induction l as [|a l IH]; cbn [app find]; [reflexivity|].
  destruct (f a); [reflexivity|exact IH].
Qed.

Lemma GetChannel_find (name : string) (w : World) :
  failGetChannel (faults w) = None ->
  SqliteCache.GetChannel name w
  = (match findChannel name (db w) with
     | Some c => Return (c, None)
     | None => Return (zeroDbChannel, Some "sql: no rows in result set")
     end, w).
Proof.
  intros Hget. unfold SqliteCache.GetChannel, findChannel. run_store. rewrite Hget.
  destruct (find _ _); reflexivity.
Qed.

Lemma findChannel_update_other (name n : string) (c : DbChannel) (lastPostId : Z) (d : Db) :
  wfDb d -> findChannel name d = Some c -> n <> name ->
  findChannel n (dbUpdate (DbChannel_Id c) lastPostId d) = findChannel n d.
Proof.
  intros [Hnd _] Hfind Hneq. unfold findChannel, dbUpdate in *. cbn [channels].
  rewrite find_setLastId.
  destruct (find (fun c0 => String.eqb (DbChannel_Name c0) n) (channels d)) as [c'|] eqn:Hn;
    [|reflexivity].
  cbn [option_map]. unfold SqliteCache.setLastId.
  destruct (DbChannel_Id c' =? DbChannel_Id c) eqn:E; [|reflexivity].
  exfalso. apply Z.eqb_eq in E.
  apply find_some in Hn as [Hin' Hname']. apply find_some in Hfind as [Hin Hname].
  apply String.eqb_eq in Hname', Hname.
  assert (c' = c) by (eapply NoDup_map_inj; eauto).
  subst c'. congruence.
Qed.

Lemma map_setLastId_absent (channelId lastPostId : Z) (l : list DbChannel) :
  Forall (fun c => DbChannel_Id c <> channelId) l ->
  map (SqliteCache.setLastId channelId lastPostId) l = l.
Proof.
  induction 1 as [|c l Hc _ IH]; cbn [map]; [reflexivity|].
  rewrite IH. unfold SqliteCache.setLastId.
  apply Z.eqb_neq in Hc. rewrite Hc. reflexivity.
Qed.

End StoreChannels.

(** X2.  A channel saved under a name that is not stored yet gets the
    next id and is what [GetChannel] then returns for that name, field
    by field; the lookups of all other names and the posts are as
    before. *)
Theorem SaveChannel_GetChannel_round_trip (channel : Channel) (w : World) :
  failSaveChannel (faults w) = None ->
  failGetChannel (faults w) = None ->
  findChannel (Channel_Name channel) (db w) = None ->
  exists w1,
    SqliteCache.SaveChannel channel w
    = (Return (recordOf (channelSeq (db w) + 1) channel, None), w1) /\
    SqliteCache.GetChannel (Channel_Name channel) w1
    = (Return (recordOf (channelSeq (db w) + 1) channel, None), w1) /\
    (forall name, name <> Channel_Name channel ->
       fst (SqliteCache.GetChannel name w1) = fst (SqliteCache.GetChannel name w)) /\
    posts (db w1) = posts (db w).
Proof.
  intros Hsave Hget Hfind.
  destruct channel as [n t l k ds]. cbn [Channel_Name] in *.
  set (saved := recordOf (channelSeq (db w) + 1) (mkChannel n t l k ds)).
  set (w1 := mkWorld (web w) (faults w)
               (mkDb (channels (db w) ++ [saved]) (posts (db w))
                  (channelSeq (db w) + 1) (postSeq (db w))) (out w)).
  exists w1.
  assert (Hfind1 : forall name,
            findChannel name (db w1)
            = match findChannel name (db w) with
              | Some c => Some c
              | None => if String.eqb n name then Some saved else None
              end).
  { intros name. unfold findChannel. cbn [db w1 channels]. rewrite find_snoc. reflexivity. }
  split.
  { unfold SqliteCache.SaveChannel, findChannel in *. run_store.
    rewrite Hsave, existsb_find, Hfind. reflexivity. }
  split.
  { rewrite GetChannel_find by exact Hget.
    rewrite Hfind1, Hfind, String.eqb_refl. reflexivity. }
  split; [|reflexivity].
  intros name Hneq. rewrite !GetChannel_find by exact Hget. cbn [fst].
  rewrite Hfind1. destruct (findChannel name (db w)); [reflexivity|].
  destruct (String.eqb_spec n name); [congruence|reflexivity].
Qed.

Lemma SaveChannel_GetChannel_round_trip_witness :
  exists w1,
    SqliteCache.SaveChannel sportChannel smallWorld
    = (Return (recordOf 2 sportChannel, None), w1) /\
    SqliteCache.GetChannel "sport" w1 = (Return (recordOf 2 sportChannel, None), w1) /\
    (forall name, name <> "sport" ->
       fst (SqliteCache.GetChannel name w1) = fst (SqliteCache.GetChannel name smallWorld)) /\
    posts (db w1) = posts (db smallWorld).
Proof.
  apply (SaveChannel_GetChannel_round_trip sportChannel smallWorld); reflexivity.
Defined.

(** X4.  [UpdateLastPostId] on the id of a stored channel changes the
    cursor of that channel and nothing else: [GetChannel] returns the
    record with the new cursor, the records of the other names and the
    posts are as before. *)
Theorem UpdateLastPostId_sets_cursor_only (name : string) (c : DbChannel)
    (lastPostId : Z) (w : World) :
  wfDb (db w) ->
  failUpdateLastPostId (faults w) = None ->
  failGetChannel (faults w) = None ->
  findChannel name (db w) = Some c ->
  exists w1,
    SqliteCache.UpdateLastPostId (DbChannel_Id c) lastPostId w = (Return None, w1) /\
    SqliteCache.GetChannel name w1 = (Return (withCursor c lastPostId, None), w1) /\
    (forall n, n <> name ->
       fst (SqliteCache.GetChannel n w1) = fst (SqliteCache.GetChannel n w)) /\
    posts (db w1) = posts (db w).
Proof.
  intros Hwf Hupd Hget Hfind.
  set (w1 := mkWorld (web w) (faults w) (dbUpdate (DbChannel_Id c) lastPostId (db w)) (out w)).
  exists w1. split.
  { unfold SqliteCache.UpdateLastPostId. run_store. rewrite Hupd. reflexivity. }
  split.
  { rewrite GetChannel_find by exact Hget. cbn [db w1].
    unfold findChannel, dbUpdate in *. cbn [channels].
    rewrite find_setLastId, Hfind. cbn [option_map]. unfold SqliteCache.setLastId.
    rewrite Z.eqb_refl. reflexivity. }
  split; [|reflexivity].
  intros n Hneq. rewrite !GetChannel_find by exact Hget. cbn [fst db w1].
  rewrite (findChannel_update_other name n c lastPostId (db w) Hwf Hfind Hneq).
  reflexivity.
Qed.

Lemma UpdateLastPostId_sets_cursor_only_witness :
  exists w1,
    SqliteCache.UpdateLastPostId 1 9 smallWorld = (Return None, w1) /\
    SqliteCache.GetChannel "news" w1 = (Return (storedChannel 1 "news" 9, None), w1) /\
    (forall n, n <> "news" ->
       fst (SqliteCache.GetChannel n w1) = fst (SqliteCache.GetChannel n smallWorld)) /\
    posts (db w1) = posts (db smallWorld).
Proof.
  apply (UpdateLastPostId_sets_cursor_only "news" (storedChannel 1 "news" 5) 9 smallWorld).
  - split.
    + cbn. constructor; [intros []|constructor].
    + constructor; [vm_compute; discriminate|constructor].
  - reflexivity.
  - reflexivity.
  - reflexivity.
Defined.

(** X5.  [UpdateLastPostId] on an id that no channel has succeeds
    without an error and leaves the tables as they were. *)
Theorem UpdateLastPostId_unknown_id (channelId lastPostId : Z) (w : World) :
  failUpdateLastPostId (faults w) = None ->
  Forall (fun c => DbChannel_Id c <> channelId) (channels (db w)) ->
  SqliteCache.UpdateLastPostId channelId lastPostId w = (Return None, w).
Proof.
  intros Hupd Habsent. unfold SqliteCache.UpdateLastPostId. run_store. rewrite Hupd.
  rewrite (map_setLastId_absent _ _ _ Habsent).
  destruct w as [wb f [cs ps cseq pseq] o]. reflexivity.
Qed.

Lemma UpdateLastPostId_unknown_id_witness :
  SqliteCache.UpdateLastPostId 0 7 smallWorld = (Return None, smallWorld).
Proof.
  apply (UpdateLastPostId_unknown_id 0 7 smallWorld).
  - reflexivity.
  - constructor; [vm_compute; discriminate|constructor].
Defined.

(** ** The paths of a sync *)

Section Paths.

Variable time_Parse : string -> string -> Time + error.

(** A sync panics, or stops at a failed head lookup, or comes to the
    freshness check with the channel record in hand. *)
Lemma prepareFeed_paths (name : string) (w : World) :
  let result := prepareFeed name sqliteCache (telegramWebFetcher time_Parse) w in
  (exists msg, fst result = Panicked msg /\ db (snd result) = db w) \/
  (exists channel0 e evs,
      fst (TelegramWebFetcher.FetchChannel name w) = Return (channel0, Some e) /\
      result = (Return (emptyFeed, Some e), withOut w (out w ++ evs)) /\
      downloads evs = [] /\ requests evs = [tgChannelFeedUrl name]) \/
  (exists channel c d0 evs0,
      fst (TelegramWebFetcher.FetchChannel name w) = Return (channel, None) /\
      Channel_Name channel = name /\
      downloads evs0 = [] /\ requests evs0 = [tgChannelFeedUrl name] /\
      findChannel name d0 = Some c /\
      ((failGetChannel (faults w) = None /\ findChannel name (db w) = Some c /\ d0 = db w) \/
       (failSaveChannel (faults w) = None /\ findChannel name (db w) = None /\
        d0 = dbCreate channel (db w) /\ c = createdChannel channel (db w))) /\
      result = serve name sqliteCache (telegramWebFetcher time_Parse) channel c
                 (mkWorld (web w) (faults w) d0 (out w ++ evs0))).
Proof.
  cbv zeta. rewrite prepareFeed_unfold.
  destruct (FetchChannel_frame name w) as (evs0 & Hsnd & Hd0 & Hr0).
  change (FetchChannel (telegramWebFetcher time_Parse) name w)
    with (TelegramWebFetcher.FetchChannel name w).
  destruct (TelegramWebFetcher.FetchChannel name w) as [[[channel [e|]]|msg] w0] eqn:Hfc;
    cbn [snd] in Hsnd; subst w0.
  - right; left. exists channel, e, (evs0 ++ [EvFetchChannelFailed e])%list.
    split; [reflexivity|]. split.
    + unfold withOut. cbn [web faults db out]. rewrite app_assoc. reflexivity.
    + rewrite downloads_app, requests_app, Hd0, Hr0. split; reflexivity.
  - assert (Hname : Channel_Name channel = name).
    { apply (FetchChannel_ok time_Parse name w). rewrite Hfc. reflexivity. }
    rewrite (resolveChannel_sqlite name channel _ Hname).
    unfold withOut, withDb. cbn [web faults db out].
    destruct (findChannel name (db w)) as [c|] eqn:Hfind.
    + destruct (failGetChannel (faults w)) eqn:Hget.
      * left. destruct (failSaveChannel (faults w)); eexists; split; reflexivity.
      * right; right. exists channel, c, (db w), evs0.
        split; [reflexivity|]. split; [exact Hname|]. split; [exact Hd0|].
        split; [exact Hr0|]. split; [exact Hfind|]. split; [left; auto|reflexivity].
    + assert (Hcreated : findChannel name (dbCreate channel (db w))
                         = Some (createdChannel channel (db w)))
        by (apply findChannel_dbCreate; assumption).
      destruct (failSaveChannel (faults w)) eqn:Hsave.
      * left. destruct (failGetChannel (faults w)); eexists; split; reflexivity.
      * right; right.
        exists channel, (createdChannel channel (db w)), (dbCreate channel (db w)), evs0.
        split; [reflexivity|]. split; [exact Hname|]. split; [exact Hd0|].
        split; [exact Hr0|]. split; [exact Hcreated|].
        split; [right; auto|]. destruct (failGetChannel (faults w)); reflexivity.
  - left. exists msg. split; reflexivity.
Qed.

End Paths.

Section Results.

Variable time_Parse : string -> string -> Time + error.

Lemma recentPosts_length (f : Faults) (channelId : Z) (d : Db) :
  (List.length (recentPosts f channelId MAX_RSS_POSTS_COUNT d) <= 20)%nat.
Proof.
  unfold recentPosts. rewrite length_map.
  change (SqliteCache.limit MAX_RSS_POSTS_COUNT ?l) with (firstn 20 l).
  apply firstn_le_length.
Qed.

Lemma generateFeed_length (c : DbChannel) (rows : list DbPost) :
  List.length (feeds.Feed_Items (generateFeed c rows)) = List.length rows.
Proof. unfold generateFeed. cbn [feeds.Feed_Items]. apply length_map. Qed.

End Results.

(** X6.  Whatever the remote site and the store do, a feed returned by
    a sync has at most [MAX_RSS_POSTS_COUNT] items. *)
Theorem prepareFeed_items_capped (time_Parse : string -> string -> Time + error)
    (name : string) (w : World) (feed : feeds.Feed) (err : option error) :
  fst (prepareFeed name sqliteCache (telegramWebFetcher time_Parse) w) = Return (feed, err) ->
  len (feeds.Feed_Items feed) <= MAX_RSS_POSTS_COUNT.
Proof.
  intros Hres. unfold len, MAX_RSS_POSTS_COUNT.
  destruct (prepareFeed_paths time_Parse name w)
    as [(msg & Hp & _)|[(ch0 & e & evs & _ & Hp & _)
                       |(channel & c & d0 & evs0 & _ & _ & _ & _ & _ & _ & Hp)]].
  - rewrite Hp in Hres. discriminate.
  - rewrite Hp in Hres. cbn [fst] in Hres. injection Hres as <- _. cbn. lia.
  - rewrite Hp in Hres. clear Hp.
    destruct (Z.eq_dec (DbChannel_LastId c) (Channel_LastId channel)) as [Hfresh|Hstale].
    + rewrite (serve_fresh name _ channel c _ Hfresh) in Hres. cbn [faults db] in Hres.
      destruct (failGetPosts (faults w)); cbn [fst] in Hres; injection Hres as <- _.
      * cbn. lia.
      * rewrite generateFeed_length. pose proof (recentPosts_length (faults w) (DbChannel_Id c) d0). lia.
    + destruct (serve_stale name _ channel c (telegram_quiet time_Parse)
                  (mkWorld (web w) (faults w) d0 (out w ++ evs0)) Hstale)
        as (ps & evs & _ & _ & Hlen & Hs).
      rewrite Hs in Hres. clear Hs. cbv zeta in Hres. cbn [faults] in Hres.
      destruct (failSavePosts (faults w)) as [[k e]|]; cbn [fst] in Hres;
        injection Hres as <- _.
      * cbn. lia.
      * rewrite generateFeed_length, insertAll_length.
        unfold len, MAX_RSS_POSTS_COUNT in Hlen. lia.
Qed.

Lemma prepareFeed_items_capped_witness :
  exists feed err,
    fst (prepareFeed "news" sqliteCache (telegramWebFetcher sampleClock) gapWorld)
    = Return (feed, err) /\
    len (feeds.Feed_Items feed) <= MAX_RSS_POSTS_COUNT.
Proof.
  eexists. eexists. split; [vm_compute; reflexivity|].
  apply (prepareFeed_items_capped sampleClock "news" gapWorld _ None).
  vm_compute. reflexivity.
Defined.

(** X7.  A sync returns an error only in two cases: the head lookup
    failed, or the channel is fresh and [GetPosts] failed.  Fresh: the
    cursor the sync works with, the stored one or 0 for a record it
    has just created, equals the head id; a stale sync never returns
    an error.  The error is the one of that call, the feed is the
    empty feed, no single-item fetch was issued and no post was
    stored. *)
Theorem prepareFeed_error_cases (time_Parse : string -> string -> Time + error)
    (name : string) (w : World) (feed : feeds.Feed) (e : error) :
  let result := prepareFeed name sqliteCache (telegramWebFetcher time_Parse) w in
  fst result = Return (feed, Some e) ->
  feed = emptyFeed /\
  posts (db (snd result)) = posts (db w) /\
  (exists evs, out (snd result) = (out w ++ evs)%list /\ downloads evs = []) /\
  ((exists channel0,
       fst (TelegramWebFetcher.FetchChannel name w) = Return (channel0, Some e)) \/
   (exists channel,
       fst (TelegramWebFetcher.FetchChannel name w) = Return (channel, None) /\
       failGetPosts (faults w) = Some e /\
       ((exists c, findChannel name (db w) = Some c /\
                   DbChannel_LastId c = Channel_LastId channel) \/
        (findChannel name (db w) = None /\ Channel_LastId channel = 0)))).
Proof.
  cbv zeta. intros Hres.
  destruct (prepareFeed_paths time_Parse name w)
    as [(msg & Hp & _)|[(ch0 & e0 & evs & Hfc & Hp & Hd & _)
                       |(channel & c & d0 & evs0 & Hfc & _ & Hd0 & _ & _ & Hd & Hp)]].
  - rewrite Hp in Hres. discriminate.
  - rewrite Hp in *. cbn [fst snd db out withOut] in *. injection Hres as <- <-.
    split; [reflexivity|]. split; [reflexivity|].
    split; [exists evs; auto|]. left. exists ch0. exact Hfc.
  - rewrite Hp in *. clear Hp.
    assert (Hposts0 : posts d0 = posts (db w))
      by (destruct Hd as [(_ & _ & ->)|(_ & _ & -> & _)]; reflexivity).
    destruct (Z.eq_dec (DbChannel_LastId c) (Channel_LastId channel)) as [Hfresh|Hstale].
    + assert (Hcursor :
        (exists c', findChannel name (db w) = Some c' /\
                    DbChannel_LastId c' = Channel_LastId channel) \/
        (findChannel name (db w) = None /\ Channel_LastId channel = 0)).
      { destruct Hd as [(_ & Hfound & _)|(_ & Hnone & _ & Hc)].
        - left. exists c. auto.
        - right. split; [exact Hnone|]. rewrite <- Hfresh, Hc. reflexivity. }
      rewrite (serve_fresh name _ channel c _ Hfresh) in *. cbn [faults db] in *.
      destruct (failGetPosts (faults w)) as [e1|] eqn:Hg; cbn [fst snd db out withOut] in *;
        [|discriminate].
      injection Hres as <- <-.
      split; [reflexivity|]. split; [exact Hposts0|]. split.
      * exists (evs0 ++ [EvCachedProblem e1])%list.
        split; [rewrite app_assoc; reflexivity|].
        rewrite downloads_app, Hd0. reflexivity.
      * right. exists channel. auto.
    + destruct (serve_stale name _ channel c (telegram_quiet time_Parse)
                  (mkWorld (web w) (faults w) d0 (out w ++ evs0)) Hstale)
        as (ps & evs & _ & _ & _ & Hs).
      rewrite Hs in Hres. cbv zeta in Hres. cbn [faults] in Hres.
      destruct (failSavePosts (faults w)) as [[k e1]|]; discriminate.
Qed.

Lemma prepareFeed_error_cases_witness :
  let result := prepareFeed "news" sqliteCache (telegramWebFetcher sampleClock)
                  readFailsWorld in
  fst result = Return (emptyFeed, Some "disk I/O error") /\
  posts (db (snd result)) = posts (db readFailsWorld) /\
  (exists evs, out (snd result) = (out readFailsWorld ++ evs)%list /\ downloads evs = []) /\
  ((exists channel0,
       fst (TelegramWebFetcher.FetchChannel "news" readFailsWorld)
       = Return (channel0, Some "disk I/O error")) \/
   (exists channel,
       fst (TelegramWebFetcher.FetchChannel "news" readFailsWorld) = Return (channel, None) /\
       failGetPosts (faults readFailsWorld) = Some "disk I/O error" /\
       ((exists c, findChannel "news" (db readFailsWorld) = Some c /\
                   DbChannel_LastId c = Channel_LastId channel) \/
        (findChannel "news" (db readFailsWorld) = None /\ Channel_LastId channel = 0)))).
Proof.
  split; [reflexivity|].
  pose proof (prepareFeed_error_cases sampleClock "news" readFailsWorld emptyFeed
                "disk I/O error" eq_refl) as H.
  exact (proj2 H).
Defined.

(** X8.  A failed head lookup ends the sync: the error is returned as
    it is with the empty feed, the only request sent is the one for the
    listing page, and the cache, whichever it is, is not touched. *)
Theorem head_lookup_failure_is_fatal (time_Parse : string -> string -> Time + error)
    (cache : Cache) (name : string) (w : World) (channel0 : Channel) (e : error) :
  fst (TelegramWebFetcher.FetchChannel name w) = Return (channel0, Some e) ->
  exists evs,
    prepareFeed name cache (telegramWebFetcher time_Parse) w
    = (Return (emptyFeed, Some e), withOut w (out w ++ evs)) /\
    requests evs = [tgChannelFeedUrl name] /\
    downloads evs = [] /\
    last evs EvDuplicated = EvFetchChannelFailed e.
Proof.
  intros Hhead. rewrite prepareFeed_unfold.
  destruct (FetchChannel_frame name w) as (evs0 & Hsnd & Hd0 & Hr0).
  change (FetchChannel (telegramWebFetcher time_Parse) name w)
    with (TelegramWebFetcher.FetchChannel name w).
  destruct (TelegramWebFetcher.FetchChannel name w) as [r w0].
  cbn [fst snd] in *. subst r w0.
  exists (evs0 ++ [EvFetchChannelFailed e])%list.
  split; [unfold withOut; cbn [web faults db out]; rewrite app_assoc; reflexivity|].
  rewrite requests_app, downloads_app, Hr0, Hd0.
  split; [reflexivity|]. split; [reflexivity|]. apply last_last.
Qed.

Lemma head_lookup_failure_is_fatal_witness :
  exists evs,
    prepareFeed "news" sqliteCache (telegramWebFetcher sampleClock) offlineWorld
    = (Return (emptyFeed, Some "no such host"), withOut offlineWorld (out offlineWorld ++ evs)) /\
    requests evs = [tgChannelFeedUrl "news"] /\
    downloads evs = [] /\
    last evs EvDuplicated = EvFetchChannelFailed "no such host".
Proof.
  apply (head_lookup_failure_is_fatal sampleClock sqliteCache "news" offlineWorld zeroChannel).
  reflexivity.
Defined.

(** X3.  When the head lookup succeeds but [GetChannel] fails on a
    channel that is stored, the sync goes on to [SaveChannel], whose
    insertion hits the UNIQUE name: the sync panics and the tables are
    as before. *)
Theorem lookup_failure_on_stored_channel_panics
    (time_Parse : string -> string -> Time + error)
    (name : string) (w : World) (channel : Channel) (c : DbChannel) (e : error) :
  fst (TelegramWebFetcher.FetchChannel name w) = Return (channel, None) ->
  failGetChannel (faults w) = Some e ->
  findChannel name (db w) = Some c ->
  let result := prepareFeed name sqliteCache (telegramWebFetcher time_Parse) w in
  fst result = Panicked "nil pointer dereference" /\
  db (snd result) = db w.
Proof.
  intros Hhead Hget Hfind result. subst result.
  destruct (FetchChannel_ok time_Parse name w channel Hhead) as (Hname & evs0 & Hfc & _).
  rewrite prepareFeed_unfold, Hfc, (resolveChannel_sqlite name channel _ Hname).
  cbn [faults db withOut]. rewrite Hget, Hfind.
  destruct (failSaveChannel (faults w)); split; reflexivity.
Qed.

Lemma lookup_failure_on_stored_channel_panics_witness :
  let result := prepareFeed "news" sqliteCache (telegramWebFetcher sampleClock)
                  lookupFailsWorld in
  fst result = Panicked "nil pointer dereference" /\
  db (snd result) = db lookupFailsWorld.
Proof.
  apply (lookup_failure_on_stored_channel_panics sampleClock "news" lookupFailsWorld
           (mkChannel "news" "News" 7 (tgChannelFeedUrl "news") "")
           (storedChannel 1 "news" 5) "disk I/O error");
    reflexivity.
Defined.

Section StaleResult.

Lemma insertAll_ids (channelId : Z) (ps : list Post) :
  forall insertedId,
    map DbPost_Id (SqliteCache.insertAll channelId insertedId ps)
    = countUp insertedId (List.length ps).
Proof.
  induction ps as [|p ps IH]; intros insertedId; [reflexivity|].
  cbn [SqliteCache.insertAll map List.length countUp DbPost_Id]. rewrite IH. reflexivity.
Qed.

End StaleResult.

(** X9.  A stale sync of a stored channel whose append goes through
    returns, without an error, a feed made of exactly the rows it has
    just appended, which get the next ids in the order of the walk; the
    rows stored before are kept and are not part of the feed.  The
    result of [UpdateLastPostId] is not looked at: if it failed, the
    cursor is as before and the rows are appended all the same. *)
Theorem stale_sync_returns_appended_rows (time_Parse : string -> string -> Time + error)
    (name : string) (w : World) (channel : Channel) (c : DbChannel) :
  fst (TelegramWebFetcher.FetchChannel name w) = Return (channel, None) ->
  failGetChannel (faults w) = None ->
  findChannel name (db w) = Some c ->
  DbChannel_LastId c <> Channel_LastId channel ->
  failSavePosts (faults w) = None ->
  let result := prepareFeed name sqliteCache (telegramWebFetcher time_Parse) w in
  exists rows,
    fst result = Return (generateFeed c rows, None) /\
    posts (db (snd result)) = (posts (db w) ++ rows)%list /\
    map DbPost_Id rows = countUp (postSeq (db w) + 1) (List.length rows) /\
    postSeq (db (snd result)) = postSeq (db w) + len rows /\
    Forall (fun r => DbPost_ChannelId r = DbChannel_Id c) rows /\
    len rows <= MAX_RSS_POSTS_COUNT /\
    cursorOf name (db (snd result))
    = match failUpdateLastPostId (faults w) with
      | Some _ => Some (DbChannel_LastId c)
      | None => Some (Channel_LastId channel)
      end.
Proof.
  intros Hhead Hget Hfind Hstale Hsave result. subst result.
  destruct (FetchChannel_ok time_Parse name w channel Hhead) as (Hname & evs0 & Hfc & _).
  rewrite prepareFeed_unfold, Hfc, (resolveChannel_sqlite name channel _ Hname).
  cbn [faults db withOut]. rewrite Hget, Hfind. unfold withOut.
  destruct (serve_stale name _ channel c (telegram_quiet time_Parse)
              (mkWorld (web w) (faults w) (db w) (out w ++ evs0)) Hstale)
    as (ps & evs & _ & _ & Hlen & ->).
  cbv zeta. cbn [faults db]. rewrite Hsave. cbn [fst snd db].
  assert (Hseq : postSeq (afterUpdate (faults w) (DbChannel_Id c) (Channel_LastId channel)
                            (db w)) = postSeq (db w))
    by (unfold afterUpdate; destruct (failUpdateLastPostId (faults w)); reflexivity).
  assert (Hposts : posts (afterUpdate (faults w) (DbChannel_Id c) (Channel_LastId channel)
                            (db w)) = posts (db w))
    by (unfold afterUpdate; destruct (failUpdateLastPostId (faults w)); reflexivity).
  rewrite Hseq.
  exists (SqliteCache.insertAll (DbChannel_Id c) (postSeq (db w) + 1) ps).
  split; [reflexivity|].
  split; [cbn [dbAppend posts]; rewrite Hposts, Hseq; reflexivity|].
  split; [rewrite insertAll_ids, insertAll_length; reflexivity|].
  split; [cbn [dbAppend postSeq]; rewrite Hseq; unfold len; rewrite insertAll_length;
          reflexivity|].
  split; [apply insertAll_channel|].
  split; [unfold len in *; rewrite insertAll_length; exact Hlen|].
  rewrite cursorOf_dbAppend. unfold afterUpdate.
  destruct (failUpdateLastPostId (faults w)).
  - rewrite cursorOf_findChannel, Hfind. reflexivity.
  - apply cursorOf_dbUpdate. exact Hfind.
Qed.

Lemma stale_sync_returns_appended_rows_witness :
  let result := prepareFeed "news" sqliteCache (telegramWebFetcher sampleClock)
                  updateFailsWorld in
  exists rows,
    fst result = Return (generateFeed (storedChannel 1 "news" 5) rows, None) /\
    posts (db (snd result)) = (posts (db updateFailsWorld) ++ rows)%list /\
    map DbPost_Id rows = countUp (postSeq (db updateFailsWorld) + 1) (List.length rows) /\
    postSeq (db (snd result)) = postSeq (db updateFailsWorld) + len rows /\
    Forall (fun r => DbPost_ChannelId r = 1) rows /\
    len rows <= MAX_RSS_POSTS_COUNT /\
    cursorOf "news" (db (snd result)) = Some 5.
Proof.
  apply (stale_sync_returns_appended_rows sampleClock "news" updateFailsWorld
           (mkChannel "news" "News" 7 (tgChannelFeedUrl "news") "")
           (storedChannel 1 "news" 5));
    try reflexivity.
  vm_compute. discriminate.
Defined.

(** ** The walk, further *)

Section Guard.

Variable channelName : string.
Variable fetcher : Fetcher.
Variable channel : Channel.
Variable dbCachedChannel : DbChannel.

Lemma Time_eqb_neq (t u : Time) : Time_eqb t u = false -> t <> u.
Proof.
  unfold Time_eqb. intros H ->. rewrite !Z.eqb_refl in H. discriminate.
Qed.

Lemma lastCreatedAt_cons (a b : Post) (ps : list Post) :
  lastCreatedAt (a :: b :: ps) = lastCreatedAt (b :: ps).
Proof. reflexivity. Qed.

Lemma noAdjacentDup_snoc (ps : list Post) (p : Post) :
  noAdjacentDup ps ->
  (ps = [] \/ Post_CreatedAt p <> lastCreatedAt ps) ->
  noAdjacentDup (ps ++ [p]).
Proof.
  induction ps as [|a ps IH]; intros Hps Hlast; [cbn; auto|].
  destruct Hlast as [Hnil|Hlast]; [discriminate|].
  destruct Hps as [Ha Hps]. destruct ps as [|b ps].
  - cbn. split; [|auto]. intros E. apply Hlast. symmetry. exact E.
  - change (Post_CreatedAt a <> Post_CreatedAt b /\ noAdjacentDup ((b :: ps) ++ [p])).
    split; [exact Ha|]. apply IH; [exact Hps|]. right.
    rewrite lastCreatedAt_cons in Hlast. exact Hlast.
Qed.

End Guard.

(** X10.  The adjacent-duplicate guard: whatever the fetcher returns,
    the list a walk ends with has no two neighbours with the same
    creation time, provided the list it started from had none. *)
Theorem walk_keeps_no_adjacent_duplicates (channelName : string) (fetcher : Fetcher)
    (channel : Channel) (dbCachedChannel : DbChannel) (fuel : nat) :
  forall (postId : Z) (ps ps' : list Post) (w w' : World),
    walk channelName fetcher channel dbCachedChannel fuel postId ps w = (Return ps', w') ->
    noAdjacentDup ps ->
    noAdjacentDup ps'.
Proof.
  induction fuel as [|fuel IH]; intros postId ps ps' w w' Hwalk Hps; cbn [walk] in Hwalk.
  - injection Hwalk as <- _. exact Hps.
  - destruct ((postId >? 0) && (len ps <? MAX_RSS_POSTS_COUNT));
      [|injection Hwalk as <- _; exact Hps].
    rewrite bind_eq, emit_eq, bind_eq in Hwalk.
    destruct (FetchPost fetcher (Channel_Name channel) postId _)
      as [[[post err]|msg] w1]; [|discriminate].
    cbv beta iota zeta in Hwalk. destruct err as [e|].
    + rewrite bind_eq, emit_eq in Hwalk. exact (IH _ _ _ _ _ Hwalk Hps).
    + destruct ((len ps >? 0) && Time_eqb (Post_CreatedAt post) (lastCreatedAt ps)) eqn:Hdup.
      * rewrite bind_eq, emit_eq in Hwalk. exact (IH _ _ _ _ _ Hwalk Hps).
      * destruct (postId - 1 =? DbChannel_LastId dbCachedChannel).
        -- injection Hwalk as <- _. exact Hps.
        -- apply (IH _ _ _ _ _ Hwalk). apply noAdjacentDup_snoc; [exact Hps|].
           apply andb_false_iff in Hdup as [Hempty|Hneq].
           ++ left. destruct ps; [reflexivity|].
              unfold len in Hempty. cbn [List.length] in Hempty.
              rewrite Z.gtb_ltb in Hempty. apply Z.ltb_ge in Hempty. lia.
           ++ right. intros E. apply (Time_eqb_neq _ _ Hneq). exact E.
Qed.

Lemma walk_keeps_no_adjacent_duplicates_witness :
  exists ps' w',
    walk "news" (telegramWebFetcher sampleClock)
      (mkChannel "news" "News" 5 (tgChannelFeedUrl "news") "")
      (storedChannel 1 "news" 1) 5 5 [] twinWorld
    = (Return ps', w') /\
    map Post_Link ps' = map (tgChannelPostUrl "news") [5; 4] /\
    noAdjacentDup ps'.
Proof.
  eexists. eexists. split; [vm_compute; reflexivity|]. split; [reflexivity|].
  eapply (walk_keeps_no_adjacent_duplicates "news" (telegramWebFetcher sampleClock)
            (mkChannel "news" "News" 5 (tgChannelFeedUrl "news") "")
            (storedChannel 1 "news" 1) 5 5 [] _ twinWorld).
  - vm_compute. reflexivity.
  - exact I.
Defined.

(** ** The tables across a sync *)

Section Tables.

Variable time_Parse : string -> string -> Time + error.

Lemma dbAppend_nil (channelId : Z) (d : Db) : dbAppend channelId [] d = d.
Proof.
  destruct d as [cs ps cseq pseq]. unfold dbAppend, len.
  cbn [channels posts channelSeq postSeq SqliteCache.insertAll List.length Z.of_nat].
  rewrite app_nil_r, Z.add_0_r. reflexivity.
Qed.

(** The tables a sync leaves: those it found, or those after the
    creation of the channel record (if it was missing), the cursor
    update (if it took place) and the append of the collected posts. *)
Lemma prepareFeed_tables (name : string) (w : World) :
  let d' := db (snd (prepareFeed name sqliteCache (telegramWebFetcher time_Parse) w)) in
  d' = db w \/
  exists channel c d0 d1 ps,
    fst (TelegramWebFetcher.FetchChannel name w) = Return (channel, None) /\
    Channel_Name channel = name /\
    findChannel name d0 = Some c /\
    (d0 = db w \/ (findChannel name (db w) = None /\ d0 = dbCreate channel (db w))) /\
    (d1 = d0 \/ d1 = dbUpdate (DbChannel_Id c) (Channel_LastId channel) d0) /\
    len ps <= MAX_RSS_POSTS_COUNT /\
    d' = dbAppend (DbChannel_Id c) ps d1.
Proof.
  cbv zeta.
  destruct (prepareFeed_paths time_Parse name w)
    as [(msg & _ & Hp)|[(ch0 & e & evs & _ & Hp & _)
                       |(channel & c & d0 & evs0 & Hfc & Hname & _ & _ & Hfind & Hd & Hp)]].
  - left. exact Hp.
  - left. rewrite Hp. reflexivity.
  - right. rewrite Hp. clear Hp. exists channel, c, d0.
    assert (Hd0 : d0 = db w \/ (findChannel name (db w) = None /\ d0 = dbCreate channel (db w)))
      by (destruct Hd as [(_ & _ & ->)|(_ & Hnone & -> & _)]; auto).
    destruct (Z.eq_dec (DbChannel_LastId c) (Channel_LastId channel)) as [Hfresh|Hstale].
    + exists d0, []. rewrite (serve_fresh name _ channel c _ Hfresh). cbn [faults db].
      repeat (split; [solve [auto | unfold len, MAX_RSS_POSTS_COUNT; cbn; lia]|]).
      rewrite dbAppend_nil. destruct (failGetPosts (faults w)); reflexivity.
    + destruct (serve_stale name _ channel c (telegram_quiet time_Parse)
                  (mkWorld (web w) (faults w) d0 (out w ++ evs0)) Hstale)
        as (ps & evs & _ & _ & Hlen & ->).
      cbv zeta. cbn [faults db].
      exists (afterUpdate (faults w) (DbChannel_Id c) (Channel_LastId channel) d0).
      destruct (failSavePosts (faults w)) as [[k e]|]; cbn [snd db];
        [exists []|exists ps];
        (split; [exact Hfc|]); (split; [exact Hname|]); (split; [exact Hfind|]);
        (split; [exact Hd0|]);
        (split; [unfold afterUpdate; destruct (failUpdateLastPostId (faults w)); auto|]);
        (split; [solve [exact Hlen | unfold len, MAX_RSS_POSTS_COUNT; cbn; lia]|]);
        [rewrite dbAppend_nil|]; reflexivity.
Qed.

End Tables.

(** X11.  A sync never removes or changes a stored post: the posts
    table after it is the table before it followed by the rows the
    sync added, at most [MAX_RSS_POSTS_COUNT] of them, all for one
    channel id, and the counter has advanced by their number. *)
Theorem sync_only_appends_posts (time_Parse : string -> string -> Time + error)
    (name : string) (w : World) :
  let d' := db (snd (prepareFeed name sqliteCache (telegramWebFetcher time_Parse) w)) in
  exists added channelId,
    posts d' = (posts (db w) ++ added)%list /\
    len added <= MAX_RSS_POSTS_COUNT /\
    Forall (fun r => DbPost_ChannelId r = channelId) added /\
    postSeq d' = postSeq (db w) + len added.
Proof.
  cbv zeta.
  destruct (prepareFeed_tables time_Parse name w)
    as [->|(channel & c & d0 & d1 & ps & _ & _ & _ & Hd0 & Hd1 & Hlen & ->)].
  - exists [], 0. rewrite app_nil_r. unfold len, MAX_RSS_POSTS_COUNT. cbn.
    repeat split; [lia|constructor|lia].
  - assert (H1 : posts d1 = posts (db w) /\ postSeq d1 = postSeq (db w)).
    { destruct Hd1 as [->| ->]; destruct Hd0 as [->|[_ ->]]; split; reflexivity. }
    destruct H1 as [Hposts Hseq].
    exists (SqliteCache.insertAll (DbChannel_Id c) (postSeq d1 + 1) ps), (DbChannel_Id c).
    cbn [dbAppend posts postSeq]. rewrite Hposts, Hseq.
    unfold len in *. rewrite insertAll_length.
    repeat split; [exact Hlen|apply insertAll_channel].
Qed.

Section Channels.

Lemma sameButCursor_setLastId (channelId lastPostId : Z) (l : list DbChannel) :
  Forall2 sameButCursor l (map (SqliteCache.setLastId channelId lastPostId) l).
Proof.
  induction l as [|c l IH]; cbn [map]; constructor; [|exact IH].
  unfold sameButCursor, SqliteCache.setLastId.
  destruct (DbChannel_Id c =? channelId); repeat split.
Qed.

Lemma sameButCursor_refl (l : list DbChannel) : Forall2 sameButCursor l l.
Proof. induction l; constructor; [repeat split|assumption]. Qed.

End Channels.

(** X12.  A sync changes nothing of a stored channel but its cursor:
    every channel row is still there afterwards, at its place, with its
    id, name, title, link and description.  At most one row is added,
    for the name synced and only when that name was not stored. *)
Theorem sync_keeps_channel_records (time_Parse : string -> string -> Time + error)
    (name : string) (w : World) :
  let d' := db (snd (prepareFeed name sqliteCache (telegramWebFetcher time_Parse) w)) in
  exists kept added,
    channels d' = (kept ++ added)%list /\
    Forall2 sameButCursor (channels (db w)) kept /\
    (added = [] \/
     (findChannel name (db w) = None /\
      exists c, added = [c] /\ DbChannel_Name c = name /\
                DbChannel_Id c = channelSeq (db w) + 1)).
Proof.
  cbv zeta.
  destruct (prepareFeed_tables time_Parse name w)
    as [->|(channel & c & d0 & d1 & ps & _ & Hname & _ & Hd0 & Hd1 & _ & ->)].
  - exists (channels (db w)), []. rewrite app_nil_r.
    split; [reflexivity|]. split; [apply sameButCursor_refl|left; reflexivity].
  - cbn [dbAppend channels].
    destruct Hd0 as [->|[Hnone ->]]; destruct Hd1 as [->| ->].
    + exists (channels (db w)), []. rewrite app_nil_r.
      split; [reflexivity|]. split; [apply sameButCursor_refl|left; reflexivity].
    + eexists. exists []. rewrite app_nil_r.
      split; [reflexivity|]. split; [apply sameButCursor_setLastId|left; reflexivity].
    + eexists. eexists. cbn [dbCreate channels].
      split; [reflexivity|]. split; [apply sameButCursor_refl|right].
      split; [exact Hnone|]. eexists. split; [reflexivity|]. split; [exact Hname|reflexivity].
    + cbn [dbUpdate dbCreate channels]. rewrite map_app. cbn [map].
      eexists. eexists. split; [reflexivity|].
      split; [apply sameButCursor_setLastId|right].
      split; [exact Hnone|]. eexists. split; [reflexivity|].
      unfold SqliteCache.setLastId.
      destruct (_ =? _); cbn [DbChannel_Name DbChannel_Id]; split; auto.
Qed.

Section Schema.

Lemma countUp_In (n : nat) :
  forall from x, In x (countUp from n) -> from <= x < from + Z.of_nat n.
Proof.
  induction n as [|n IH]; intros from x H; [destruct H|].
  cbn [countUp] in H. destruct H as [<-|H]; [lia|].
  apply IH in H. lia.
Qed.

Lemma countUp_NoDup (n : nat) : forall from, NoDup (countUp from n).
Proof.
  induction n as [|n IH]; intros from; cbn [countUp]; constructor; [|apply IH].
  intros H. apply countUp_In in H. lia.
Qed.

Lemma uniqueNames_dbCreate (channel : Channel) (d : Db) :
  findChannel (Channel_Name channel) d = None ->
  uniqueNames d -> uniqueNames (dbCreate channel d).
Proof.
  unfold uniqueNames, findChannel, dbCreate. cbn [channels]. intros Hnone Hnd.
  rewrite map_app. cbn [map DbChannel_Name]. apply NoDup_snoc; [exact Hnd|].
  intros Hin. apply in_map_iff in Hin as (c & Hc & Hin).
  pose proof (find_none _ _ Hnone c Hin) as Hf. cbv beta in Hf.
  rewrite Hc, String.eqb_refl in Hf. discriminate.
Qed.

Lemma uniqueNames_dbUpdate (channelId lastPostId : Z) (d : Db) :
  uniqueNames d -> uniqueNames (dbUpdate channelId lastPostId d).
Proof.
  unfold uniqueNames, dbUpdate. cbn [channels]. rewrite map_map.
  erewrite map_ext; [intros H; exact H|].
  intros c. unfold SqliteCache.setLastId. destruct (_ =? _); reflexivity.
Qed.

Lemma wfPosts_dbAppend (channelId : Z) (ps : list Post) (d : Db) :
  wfPosts d -> wfPosts (dbAppend channelId ps d).
Proof.
  intros [Hnd Hseq]. unfold wfPosts, dbAppend. cbn [posts postSeq].
  rewrite map_app, insertAll_ids. split.
  - apply NoDup_app; [exact Hnd|apply countUp_NoDup|].
    intros x Hx Hx'. apply countUp_In in Hx'. apply in_map_iff in Hx as (p & <- & Hp).
    rewrite Forall_forall in Hseq. specialize (Hseq p Hp). lia.
  - apply Forall_app. split.
    + eapply Forall_impl; [|exact Hseq]. cbv beta. unfold len. intros p Hp. lia.
    + apply Forall_forall. intros p Hp.
      assert (Hid : In (DbPost_Id p)
                      (map DbPost_Id (SqliteCache.insertAll channelId (postSeq d + 1) ps)))
        by (apply in_map; exact Hp).
      rewrite insertAll_ids in Hid. apply countUp_In in Hid. unfold len. lia.
Qed.

(** One sync, from tables that meet the schema. *)
Lemma prepareFeed_schema (time_Parse : string -> string -> Time + error)
    (name : string) (w : World) :
  wfDb (db w) /\ uniqueNames (db w) /\ wfPosts (db w) ->
  let d' := db (snd (prepareFeed name sqliteCache (telegramWebFetcher time_Parse) w)) in
  wfDb d' /\ uniqueNames d' /\ wfPosts d'.
Proof.
  intros (Hwf & Hnames & Hposts). cbv zeta.
  destruct (prepareFeed_tables time_Parse name w)
    as [->|(channel & c & d0 & d1 & ps & _ & Hname & _ & Hd0 & Hd1 & _ & ->)]; [auto|].
  assert (H0 : wfDb d0 /\ uniqueNames d0 /\ wfPosts d0).
  { destruct Hd0 as [->|[Hnone ->]]; [auto|].
    split; [apply wfDb_dbCreate; exact Hwf|].
    split; [apply uniqueNames_dbCreate; [rewrite Hname; exact Hnone|exact Hnames]|].
    exact Hposts. }
  destruct H0 as (Hwf0 & Hnames0 & Hposts0).
  assert (H1 : wfDb d1 /\ uniqueNames d1 /\ wfPosts d1).
  { destruct Hd1 as [->| ->]; [auto|].
    split; [apply wfDb_dbUpdate; exact Hwf0|].
    split; [apply uniqueNames_dbUpdate; exact Hnames0|exact Hposts0]. }
  destruct H1 as (Hwf1 & Hnames1 & Hposts1).
  split; [apply wfDb_dbAppend; exact Hwf1|].
  split; [exact Hnames1|apply wfPosts_dbAppend; exact Hposts1].
Qed.

End Schema.

(** X13.  A sync keeps what the schema promises of the tables: the ids
    of the channels and of the posts stay unique and within their
    counters, and no two channels share a name. *)
Theorem sync_keeps_schema (time_Parse : string -> string -> Time + error)
    (name : string) (w : World) :
  wfDb (db w) -> uniqueNames (db w) -> wfPosts (db w) ->
  let d' := db (snd (prepareFeed name sqliteCache (telegramWebFetcher time_Parse) w)) in
  wfDb d' /\ uniqueNames d' /\ wfPosts d'.
Proof.
  intros Hwf Hnames Hposts. apply prepareFeed_schema. auto.
Qed.

Lemma sync_keeps_schema_witness :
  let d' := db (snd (prepareFeed "news" sqliteCache (telegramWebFetcher sampleClock)
                       undatedWorld)) in
  List.length (channels d') = 1%nat /\ List.length (posts d') = 1%nat /\
  wfDb d' /\ uniqueNames d' /\ wfPosts d'.
Proof.
  split; [reflexivity|]. split; [reflexivity|].
  apply (sync_keeps_schema sampleClock "news" undatedWorld).
  - split; constructor.
  - constructor.
  - split; constructor.
Defined.

(** ** Links and fetched ids *)

Section Urls.

Lemma append_inv_head (p s t : string) : (p ++ s = p ++ t)%string -> s = t.
Proof.
  induction p as [|a p IH]; cbn [String.append]; intros H; [exact H|].
  injection H as H. exact (IH H).
Qed.

Lemma append_length (s t : string) :
  String.length (s ++ t) = (String.length s + String.length t)%nat.
Proof.
  induction s as [|a s IH]; cbn [String.append String.length]; [reflexivity|].
  rewrite IH. reflexivity.
Qed.

Lemma append_inv_tail (s t u : string) : (s ++ u = t ++ u)%string -> s = t.
Proof.
  revert t. induction s as [|a s IH]; intros t H.
  - destruct t as [|b t]; [reflexivity|].
    apply (f_equal String.length) in H. cbn [String.append String.length] in H.
    rewrite append_length in H. lia.
  - destruct t as [|b t].
    + apply (f_equal String.length) in H. cbn [String.append String.length] in H.
      rewrite append_length in H. lia.
    + cbn [String.append] in H. injection H as -> H. f_equal. exact (IH _ H).
Qed.

Lemma to_int_proper (a : Z) :
  Z.to_int a <> Decimal.Pos Decimal.Nil /\ Z.to_int a <> Decimal.Neg Decimal.Nil.
Proof.
  destruct a as [|p|p]; cbn [Z.to_int]; split; try discriminate;
    intros H; injection H as H; exact (to_uint_not_Nil p H).
Qed.

Lemma Itoa_inj (a b : Z) : strconv.Itoa a = strconv.Itoa b -> a = b.
Proof.
  unfold strconv.Itoa. intros H. apply DecimalZ.to_int_inj.
  destruct (to_int_proper a) as [Ha1 Ha2]. destruct (to_int_proper b) as [Hb1 Hb2].
  pose proof (NilZero.isi (Z.to_int a) Ha1 Ha2) as Ea.
  pose proof (NilZero.isi (Z.to_int b) Hb1 Hb2) as Eb.
  rewrite H in Ea. congruence.
Qed.

Lemma countdown_In (n : nat) :
  forall from x, In x (countdown from n) -> from - Z.of_nat n < x <= from.
Proof.
  induction n as [|n IH]; intros from x H; [destruct H|].
  cbn [countdown] in H. destruct H as [<-|H]; [lia|].
  apply IH in H. lia.
Qed.

Lemma countdown_sorted (n : nat) :
  forall from, StronglySorted Z.gt (countdown from n).
Proof.
  induction n as [|n IH]; intros from; cbn [countdown]; constructor; [apply IH|].
  apply Forall_forall. intros x Hx. apply countdown_In in Hx. lia.
Qed.

Lemma countdown_NoDup (n : nat) : forall from, NoDup (countdown from n).
Proof.
  induction n as [|n IH]; intros from; cbn [countdown]; constructor; [|apply IH].
  intros H. apply countdown_In in H. lia.
Qed.

End Urls.

(** X15.  The posts of a channel have links of their own: different
    ids give different post URLs. *)
Theorem tgChannelPostUrl_distinct (channelName : string) (a b : Z) :
  a <> b -> tgChannelPostUrl channelName a <> tgChannelPostUrl channelName b.
Proof.
  intros Hab H. apply Hab. unfold tgChannelPostUrl in H.
  apply append_inv_head in H. apply append_inv_head in H. apply append_inv_head in H.
  apply append_inv_tail in H. apply Itoa_inj. exact H.
Qed.

Lemma tgChannelPostUrl_distinct_witness :
  tgChannelPostUrl "lexfridman" 272 <> tgChannelPostUrl "lexfridman" 273.
Proof.
  apply (tgChannelPostUrl_distinct "lexfridman" 272 273). lia.
Defined.

(** X16.  Whatever happens during a sync, the ids it fetches lie
    between 1 and the head id of its head lookup and come in strictly
    decreasing order, so no id is fetched twice. *)
Theorem sync_fetches_descend_from_head (time_Parse : string -> string -> Time + error)
    (name : string) (w : World) :
  exists evs,
    out (snd (prepareFeed name sqliteCache (telegramWebFetcher time_Parse) w))
    = (out w ++ evs)%list /\
    StronglySorted Z.gt (downloads evs) /\
    NoDup (downloads evs) /\
    forall id, In id (downloads evs) ->
      exists channel,
        fst (TelegramWebFetcher.FetchChannel name w) = Return (channel, None) /\
        1 <= id <= Channel_LastId channel.
Proof.
  destruct (sync_downloads time_Parse name w)
    as (evs & Hout & [Hnone|(channel & n & Hhead & Hd & Hn)]); exists evs;
    (split; [exact Hout|]).
  - rewrite Hnone. split; [constructor|]. split; [constructor|]. intros id [].
  - rewrite Hd. split; [apply countdown_sorted|]. split; [apply countdown_NoDup|].
    intros id Hid. exists channel. split; [exact Hhead|].
    apply countdown_In in Hid. lia.
Qed.

(** ** First and repeated syncs *)

Section Reach.

Variable time_Parse : string -> string -> Time + error.

(** The channel a successful head lookup returns. *)
Lemma FetchChannel_fields (name : string) (w : World) (channel : Channel) :
  fst (TelegramWebFetcher.FetchChannel name w) = Return (channel, None) ->
  Channel_Name channel = name /\ Channel_Link channel = tgChannelFeedUrl name.
Proof.
  intros H.
  destruct (web w (tgChannelFeedUrl name)) as [err|err|doc] eqn:Hweb.
  - unfold TelegramWebFetcher.FetchChannel, bind, http_Get in H.
    rewrite Hweb in H. discriminate.
  - unfold TelegramWebFetcher.FetchChannel, bind, http_Get in H.
    rewrite Hweb in H. discriminate.
  - rewrite (FetchChannel_Page _ _ _ Hweb) in H. cbv zeta in H.
    destruct (Each _ TelegramWebFetcher.lastIdStep (-1)) as [lastId|msg];
      [|discriminate].
    destruct (lastId =? -1); [discriminate|].
    cbn [fst] in H. injection H as <-. split; reflexivity.
Qed.

(** The head lookup only reads the remote site. *)
Lemma FetchChannel_web (name : string) (w w' : World) :
  web w' = web w ->
  fst (TelegramWebFetcher.FetchChannel name w')
  = fst (TelegramWebFetcher.FetchChannel name w).
Proof.
  intros Hweb.
  destruct (web w (tgChannelFeedUrl name)) as [err|err|doc] eqn:Hw;
    assert (Hw' : web w' (tgChannelFeedUrl name) = web w (tgChannelFeedUrl name))
      by (rewrite Hweb; reflexivity);
    rewrite Hw in Hw'.
  - unfold TelegramWebFetcher.FetchChannel, bind, http_Get. rewrite Hw, Hw'. reflexivity.
  - unfold TelegramWebFetcher.FetchChannel, bind, http_Get. rewrite Hw, Hw'. reflexivity.
  - rewrite (FetchChannel_Page _ _ _ Hw), (FetchChannel_Page _ _ _ Hw'). cbv zeta.
    destruct (Each _ TelegramWebFetcher.lastIdStep (-1)) as [lastId|msg]; [|reflexivity].
    destruct (lastId =? -1); reflexivity.
Qed.

(** With the channel stored, or missing and successfully created, a
    sync comes to the freshness check. *)
Lemma prepareFeed_reaches_serve (name : string) (w : World) (channel : Channel) :
  fst (TelegramWebFetcher.FetchChannel name w) = Return (channel, None) ->
  failSaveChannel (faults w) = None ->
  failGetChannel (faults w) = None \/ findChannel name (db w) = None ->
  exists c d0 evs0,
    downloads evs0 = [] /\ requests evs0 = [tgChannelFeedUrl name] /\
    findChannel name d0 = Some c /\
    ((findChannel name (db w) = Some c /\ d0 = db w) \/
     (findChannel name (db w) = None /\ d0 = dbCreate channel (db w) /\
      c = createdChannel channel (db w))) /\
    prepareFeed name sqliteCache (telegramWebFetcher time_Parse) w
    = serve name sqliteCache (telegramWebFetcher time_Parse) channel c
        (mkWorld (web w) (faults w) d0 (out w ++ evs0)).
Proof.
  intros Hhead Hsave Hget.
  destruct (FetchChannel_ok time_Parse name w channel Hhead)
    as (Hname & evs0 & Hfc & Hd0 & Hr0).
  rewrite prepareFeed_unfold, Hfc, (resolveChannel_sqlite name channel _ Hname).
  unfold withOut, withDb. cbn [web faults db out]. rewrite Hsave.
  destruct (findChannel name (db w)) as [c|] eqn:Hfind.
  - destruct Hget as [Hget|Hget]; [|discriminate]. rewrite Hget.
    exists c, (db w), evs0. repeat (split; [solve [auto]|]). reflexivity.
  - exists (createdChannel channel (db w)), (dbCreate channel (db w)), evs0.
    split; [exact Hd0|]. split; [exact Hr0|].
    split; [apply findChannel_dbCreate; assumption|].
    split; [right; auto|]. destruct (failGetChannel (faults w)); reflexivity.
Qed.

Lemma findChannel_dbAppend (n : string) (channelId : Z) (ps : list Post) (d : Db) :
  findChannel n (dbAppend channelId ps d) = findChannel n d.
Proof. reflexivity. Qed.

Lemma findChannel_dbUpdate (name : string) (d : Db) (c : DbChannel) (lastPostId : Z) :
  findChannel name d = Some c ->
  findChannel name (dbUpdate (DbChannel_Id c) lastPostId d) = Some (withCursor c lastPostId).
Proof.
  unfold findChannel, dbUpdate. cbn [channels]. intros Hf.
  rewrite find_setLastId, Hf. cbn [option_map]. unfold SqliteCache.setLastId.
  rewrite Z.eqb_refl. reflexivity.
Qed.

End Reach.

(** X17.  The first sync of a channel that is not stored creates its
    record: the next channel id, the name synced, the title and the
    description the listing page shows, the URL of the listing page as
    link.  Its cursor is 0 or, once updated, the head id. *)
Theorem first_sync_creates_channel (time_Parse : string -> string -> Time + error)
    (name : string) (w : World) (channel : Channel) :
  fst (TelegramWebFetcher.FetchChannel name w) = Return (channel, None) ->
  failSaveChannel (faults w) = None ->
  findChannel name (db w) = None ->
  let d' := db (snd (prepareFeed name sqliteCache (telegramWebFetcher time_Parse) w)) in
  exists row,
    findChannel name d' = Some row /\
    DbChannel_Id row = channelSeq (db w) + 1 /\
    DbChannel_Name row = name /\
    DbChannel_Title row = Channel_Title channel /\
    DbChannel_Description row = Channel_Description channel /\
    DbChannel_Link row = tgChannelFeedUrl name /\
    (DbChannel_LastId row = 0 \/ DbChannel_LastId row = Channel_LastId channel) /\
    channelSeq d' = channelSeq (db w) + 1.
Proof.
  intros Hhead Hsave Hnone. cbv zeta.
  destruct (FetchChannel_fields name w channel Hhead) as [Hname Hlink].
  destruct (prepareFeed_reaches_serve time_Parse name w channel Hhead Hsave (or_intror Hnone))
    as (c & d0 & evs0 & _ & _ & Hfind & [[Hfound _]|(_ & -> & ->)] & ->); [congruence|].
  set (c := createdChannel channel (db w)) in *.
  set (d0 := dbCreate channel (db w)) in *.
  assert (Hgoal : forall d' row,
    findChannel name d' = Some row -> channelSeq d' = channelSeq d0 ->
    sameButCursor c row ->
    DbChannel_LastId row = 0 \/ DbChannel_LastId row = Channel_LastId channel ->
    exists row,
      findChannel name d' = Some row /\
      DbChannel_Id row = channelSeq (db w) + 1 /\
      DbChannel_Name row = name /\
      DbChannel_Title row = Channel_Title channel /\
      DbChannel_Description row = Channel_Description channel /\
      DbChannel_Link row = tgChannelFeedUrl name /\
      (DbChannel_LastId row = 0 \/ DbChannel_LastId row = Channel_LastId channel) /\
      channelSeq d' = channelSeq (db w) + 1).
  { intros d' row Hrow Hseq (Hi & Hn & Ht & Hl & Hds) Hcur. exists row.
    rewrite Hi, Hn, Ht, Hl, Hds, Hseq. subst c d0.
    cbn [createdChannel dbCreate DbChannel_Id DbChannel_Name DbChannel_Title
         DbChannel_Link DbChannel_Description channelSeq].
    rewrite Hname, Hlink. repeat split; auto. }
  destruct (Z.eq_dec (DbChannel_LastId c) (Channel_LastId channel)) as [Hfresh|Hstale].
  - rewrite (serve_fresh name _ channel c _ Hfresh). cbn [faults db].
    apply (Hgoal _ c).
    + destruct (failGetPosts (faults w)); exact Hfind.
    + destruct (failGetPosts (faults w)); reflexivity.
    + repeat split.
    + left. reflexivity.
  - destruct (serve_stale name _ channel c (telegram_quiet time_Parse)
                (mkWorld (web w) (faults w) d0 (out w ++ evs0)) Hstale)
      as (ps & evs & _ & _ & _ & ->).
    cbv zeta. cbn [faults db]. unfold afterUpdate.
    destruct (failUpdateLastPostId (faults w)).
    + apply (Hgoal _ c).
      * destruct (failSavePosts (faults w)) as [[k e']|]; exact Hfind.
      * destruct (failSavePosts (faults w)) as [[k e']|]; reflexivity.
      * repeat split.
      * left. reflexivity.
    + apply (Hgoal _ (withCursor c (Channel_LastId channel))).
      * destruct (failSavePosts (faults w)) as [[k e']|]; cbn [snd db];
          [|rewrite findChannel_dbAppend]; apply findChannel_dbUpdate; exact Hfind.
      * destruct (failSavePosts (faults w)) as [[k e']|]; reflexivity.
      * repeat split.
      * right. reflexivity.
Qed.

Lemma first_sync_creates_channel_witness :
  let d' := db (snd (prepareFeed "news" sqliteCache (telegramWebFetcher sampleClock)
                       undatedWorld)) in
  exists row,
    findChannel "news" d' = Some row /\
    DbChannel_Id row = 1 /\
    DbChannel_Name row = "news" /\
    DbChannel_Title row = "News" /\
    DbChannel_Description row = "" /\
    DbChannel_Link row = tgChannelFeedUrl "news" /\
    (DbChannel_LastId row = 0 \/ DbChannel_LastId row = 2) /\
    channelSeq d' = 1.
Proof.
  apply (first_sync_creates_channel sampleClock "news" undatedWorld
           (mkChannel "news" "News" 2 (tgChannelFeedUrl "news") ""));
    reflexivity.
Defined.

Section Repeated.

Variable time_Parse : string -> string -> Time + error.

(** After a sync that found or created the channel record and whose
    cursor update went through, the record's cursor is the head id,
    and the site and the driver are as before. *)
Lemma sync_leaves_cursor_at_head (name : string) (w : World) (channel : Channel) :
  fst (TelegramWebFetcher.FetchChannel name w) = Return (channel, None) ->
  failGetChannel (faults w) = None ->
  failSaveChannel (faults w) = None ->
  failUpdateLastPostId (faults w) = None ->
  let w1 := snd (prepareFeed name sqliteCache (telegramWebFetcher time_Parse) w) in
  web w1 = web w /\ faults w1 = faults w /\
  exists c1, findChannel name (db w1) = Some c1 /\
             DbChannel_LastId c1 = Channel_LastId channel.
Proof.
  intros Hhead Hget Hsave Hupd. cbv zeta.
  destruct (prepareFeed_reaches_serve time_Parse name w channel Hhead Hsave (or_introl Hget))
    as (c & d0 & evs0 & _ & _ & Hfind & _ & ->).
  destruct (Z.eq_dec (DbChannel_LastId c) (Channel_LastId channel)) as [Hfresh|Hstale].
  - rewrite (serve_fresh name _ channel c _ Hfresh). cbn [faults].
    destruct (failGetPosts (faults w)); cbn [snd withOut web faults db];
      (split; [reflexivity|]; split; [reflexivity|]; exists c; auto).
  - destruct (serve_stale name _ channel c (telegram_quiet time_Parse)
                (mkWorld (web w) (faults w) d0 (out w ++ evs0)) Hstale)
      as (ps & evs & _ & _ & _ & ->).
    cbv zeta. cbn [faults db web]. unfold afterUpdate. rewrite Hupd.
    destruct (failSavePosts (faults w)) as [[k e']|]; cbn [snd web faults db];
      (split; [reflexivity|]; split; [reflexivity|];
       exists (withCursor c (Channel_LastId channel));
       split; [try rewrite findChannel_dbAppend; apply findChannel_dbUpdate; exact Hfind
              |reflexivity]).
Qed.

End Repeated.

(** X18.  A sync that found or created the channel record and updated
    its cursor makes the next sync of the same channel, against the
    same listing, a fresh one: the second sync sends the one request
    for the listing, issues no single-item fetch and leaves both
    tables as they are. *)
Theorem repeated_sync_is_fresh (time_Parse : string -> string -> Time + error)
    (name : string) (w : World) (channel : Channel) :
  fst (TelegramWebFetcher.FetchChannel name w) = Return (channel, None) ->
  failGetChannel (faults w) = None ->
  failSaveChannel (faults w) = None ->
  failUpdateLastPostId (faults w) = None ->
  let w1 := snd (prepareFeed name sqliteCache (telegramWebFetcher time_Parse) w) in
  let w2 := snd (prepareFeed name sqliteCache (telegramWebFetcher time_Parse) w1) in
  db w2 = db w1 /\
  exists evs, out w2 = (out w1 ++ evs)%list /\
              downloads evs = [] /\ requests evs = [tgChannelFeedUrl name].
Proof.
  intros Hhead Hget Hsave Hupd.
  destruct (sync_leaves_cursor_at_head time_Parse name w channel Hhead Hget Hsave Hupd)
    as (Hweb & Hfaults & c1 & Hfind1 & Hcur).
  cbv zeta in *.
  set (w1 := snd (prepareFeed name sqliteCache (telegramWebFetcher time_Parse) w)) in *.
  assert (Hhead1 : fst (TelegramWebFetcher.FetchChannel name w1) = Return (channel, None))
    by (rewrite (FetchChannel_web name w w1 Hweb); exact Hhead).
  assert (Hget1 : failGetChannel (faults w1) = None) by (rewrite Hfaults; exact Hget).
  assert (Hsave1 : failSaveChannel (faults w1) = None) by (rewrite Hfaults; exact Hsave).
  destruct (prepareFeed_reaches_serve time_Parse name w1 channel Hhead1 Hsave1
              (or_introl Hget1))
    as (c & d0 & evs0 & Hd0 & Hr0 & _ & [[Hfound ->]|[Hnone _]] & ->); [|congruence].
  assert (c = c1) by congruence. subst c.
  rewrite (serve_fresh name _ channel c1 _ Hcur). cbn [faults].
  destruct (failGetPosts (faults w1)) as [e|]; cbn [snd withOut db out].
  - split; [reflexivity|]. exists (evs0 ++ [EvCachedProblem e])%list.
    split; [rewrite app_assoc; reflexivity|].
    rewrite downloads_app, requests_app, Hd0, Hr0. split; reflexivity.
  - split; [reflexivity|]. exists evs0. auto.
Qed.

Lemma repeated_sync_is_fresh_witness :
  let w1 := snd (prepareFeed "news" sqliteCache (telegramWebFetcher sampleClock) gapWorld) in
  let w2 := snd (prepareFeed "news" sqliteCache (telegramWebFetcher sampleClock) w1) in
  db w2 = db w1 /\
  exists evs, out w2 = (out w1 ++ evs)%list /\
              downloads evs = [] /\ requests evs = [tgChannelFeedUrl "news"].
Proof.
  apply (repeated_sync_is_fresh sampleClock "news" gapWorld
           (mkChannel "news" "News" 7 (tgChannelFeedUrl "news") ""));
    reflexivity.
Defined.

(** ** A sync that can read no post *)

Section Unreadable.

Variable time_Parse : string -> string -> Time + error.

Lemma FetchPost_unreadable (name : string) (id : Z) (w : World) :
  unreadable (web w (tgChannelPostUrl name id)) ->
  exists e evs,
    TelegramWebFetcher.FetchPost time_Parse name id w
    = (Return (zeroPost, Some e), withOut w (out w ++ evs)) /\
    downloads evs = [].
Proof.
  intros Hun.
  destruct (web w (tgChannelPostUrl name id)) as [err|err|doc] eqn:Hweb.
  - exists err, [EvHttpGet (tgChannelPostUrl name id); EvPrintln err].
    split; [|reflexivity].
    unfold TelegramWebFetcher.FetchPost, bind, http_Get, emit, ret, withOut.
    rewrite Hweb. cbn [out web faults db]. rewrite <- app_assoc. reflexivity.
  - exists err, [EvHttpGet (tgChannelPostUrl name id)].
    split; [|reflexivity].
    unfold TelegramWebFetcher.FetchPost, bind, http_Get, ret, withOut.
    rewrite Hweb. reflexivity.
  - exists (errorMessageOf doc), [EvHttpGet (tgChannelPostUrl name id)].
    split; [|reflexivity].
    destruct (FetchPost_Page time_Parse name id w doc Hweb) as (printed & _ & ->).
    cbn [unreadable] in Hun. apply String.eqb_neq in Hun. rewrite Hun. reflexivity.
Qed.

Variable channelName : string.
Variable channel : Channel.
Variable dbCachedChannel : DbChannel.

(** When no page from [postId] down can be read, the walk tries every
    id and collects nothing. *)
Lemma walk_unreadable (fuel : nat) :
  forall (postId : Z) (ps : list Post) (w : World),
    (forall id, 0 < id <= postId ->
                unreadable (web w (tgChannelPostUrl (Channel_Name channel) id))) ->
    len ps < MAX_RSS_POSTS_COUNT ->
    exists evs,
      walk channelName (telegramWebFetcher time_Parse) channel dbCachedChannel fuel postId ps w
      = (Return ps, withOut w (out w ++ evs)) /\
      downloads evs = countdown postId (Nat.min fuel (Z.to_nat postId)).
Proof.
  induction fuel as [|fuel IH]; intros postId ps w Hun Hlen.
  - exists []. split; [|reflexivity].
    cbn [walk]. unfold ret, withOut. rewrite app_nil_r. destruct w; reflexivity.
  - cbn [walk]. destruct (postId >? 0) eqn:Hpos.
    2:{ cbn [andb]. exists []. split.
        - unfold ret, withOut. rewrite app_nil_r. destruct w; reflexivity.
        - rewrite Z.gtb_ltb in Hpos. apply Z.ltb_ge in Hpos.
          replace (Z.to_nat postId) with O by lia. reflexivity. }
    rewrite Z.gtb_ltb in Hpos. apply Z.ltb_lt in Hpos.
    replace (len ps <? MAX_RSS_POSTS_COUNT) with true
      by (symmetry; apply Z.ltb_lt; exact Hlen).
    cbn [andb]. rewrite bind_eq, emit_eq.
    change (FetchPost (telegramWebFetcher time_Parse) (Channel_Name channel) postId)
      with (TelegramWebFetcher.FetchPost time_Parse (Channel_Name channel) postId).
    destruct (FetchPost_unreadable (Channel_Name channel) postId
                (withOut w (out w ++ [EvDownload channelName postId])))
      as (e & evs1 & Hfetch & Hq); [apply Hun; lia|].
    rewrite bind_eq, Hfetch. cbv beta iota zeta. rewrite bind_eq, emit_eq.
    cbn [out withOut].
    destruct (IH (postId - 1) ps
                (withOut w (((out w ++ [EvDownload channelName postId]) ++ evs1) ++ [EvError e])))
      as (evs & Hwalk & Hd); [intros id Hid; apply Hun; lia|exact Hlen|].
    exists ((([EvDownload channelName postId] ++ evs1) ++ [EvError e]) ++ evs)%list.
    unfold withOut in *. cbn [out web faults db] in *. split.
    + rewrite Hwalk. rewrite !app_assoc. reflexivity.
    + rewrite !downloads_app, Hq, Hd.
      replace (Z.to_nat postId) with (S (Z.to_nat (postId - 1))) by lia.
      reflexivity.
Qed.

End Unreadable.

(** X14.  A stale sync of a stored channel during which no post page
    from the head id down to 1 can be read (the request fails, the
    body cannot be parsed or the page shows an error message) issues a
    single-item fetch for every id from the head down to 1, whatever
    the stored cursor is, stores no post and returns a nil error with
    a feed without items; the cursor is moved to the head id all the
    same. *)
Theorem unreadable_posts_are_skipped_for_good
    (time_Parse : string -> string -> Time + error)
    (name : string) (w : World) (channel : Channel) (c : DbChannel) :
  fst (TelegramWebFetcher.FetchChannel name w) = Return (channel, None) ->
  failGetChannel (faults w) = None ->
  findChannel name (db w) = Some c ->
  DbChannel_LastId c <> Channel_LastId channel ->
  (forall id, 0 < id <= Channel_LastId channel ->
              unreadable (web w (tgChannelPostUrl name id))) ->
  let result := prepareFeed name sqliteCache (telegramWebFetcher time_Parse) w in
  (exists evs, out (snd result) = (out w ++ evs)%list /\
               downloads evs
               = countdown (Channel_LastId channel) (Z.to_nat (Channel_LastId channel))) /\
  posts (db (snd result)) = posts (db w) /\
  (exists feed, fst result = Return (feed, None) /\ feeds.Feed_Items feed = []) /\
  (failUpdateLastPostId (faults w) = None ->
   cursorOf name (db (snd result)) = Some (Channel_LastId channel)).
Proof.
  intros Hhead Hget Hfind Hstale Hun. cbv zeta.
  destruct (FetchChannel_ok time_Parse name w channel Hhead)
    as (Hname & evs0 & Hfc & Hd0 & Hr0).
  rewrite prepareFeed_unfold, Hfc.
  set (w0 := withOut w (out w ++ evs0)).
  rewrite (resolveChannel_sqlite name channel w0 Hname).
  change (faults w0) with (faults w). change (db w0) with (db w).
  rewrite Hget, Hfind.
  destruct (walk_unreadable time_Parse name channel c (Z.to_nat (Channel_LastId channel))
              (Channel_LastId channel) [] w0) as (evs1 & Hwalk1 & Hd1).
  { rewrite Hname. exact Hun. }
  { reflexivity. }
  rewrite Nat.min_id in Hd1.
  destruct (serve_stale name _ channel c (telegram_quiet time_Parse) w0 Hstale)
    as (ps & evs & Hwalk & _ & _ & ->).
  rewrite Hwalk1 in Hwalk. injection Hwalk as Hps Hout.
  apply app_inv_head in Hout. subst ps evs.
  cbv zeta. subst w0. cbn [withOut faults db out web]. unfold afterUpdate.
  assert (Hcur : failUpdateLastPostId (faults w) = None ->
    cursorOf name
      (match failUpdateLastPostId (faults w) with
       | Some _ => db w
       | None => dbUpdate (DbChannel_Id c) (Channel_LastId channel) (db w)
       end) = Some (Channel_LastId channel)).
  { intros Hu. rewrite Hu. apply cursorOf_dbUpdate. exact Hfind. }
  assert (Hposts : posts
      (match failUpdateLastPostId (faults w) with
       | Some _ => db w
       | None => dbUpdate (DbChannel_Id c) (Channel_LastId channel) (db w)
       end) = posts (db w))
    by (destruct (failUpdateLastPostId (faults w)); reflexivity).
  destruct (failSavePosts (faults w)) as [[k e']|]; cbn [fst snd db out].
  - split; [exists ((evs0 ++ evs1) ++ [EvCantSave e'])%list; split;
            [rewrite !app_assoc; reflexivity
            |rewrite !downloads_app, Hd0, Hd1; cbn [downloads flat_map app];
             rewrite app_nil_r; reflexivity]|].
    split; [exact Hposts|].
    split; [exists emptyFeed; split; reflexivity|].
    exact Hcur.
  - rewrite dbAppend_nil.
    split; [exists (evs0 ++ evs1)%list; split;
            [rewrite !app_assoc; reflexivity
            |rewrite !downloads_app, Hd0, Hd1; reflexivity]|].
    split; [exact Hposts|].
    split; [eexists; split; reflexivity|].
    exact Hcur.
Qed.

Lemma unreadable_posts_are_skipped_for_good_witness :
  let result := prepareFeed "news" sqliteCache (telegramWebFetcher sampleClock) deafWorld in
  (exists evs, out (snd result) = (out deafWorld ++ evs)%list /\
               downloads evs = countdown 3 (Z.to_nat 3)) /\
  posts (db (snd result)) = posts (db deafWorld) /\
  (exists feed, fst result = Return (feed, None) /\ feeds.Feed_Items feed = []) /\
  (failUpdateLastPostId (faults deafWorld) = None ->
   cursorOf "news" (db (snd result)) = Some 3).
Proof.
  apply (unreadable_posts_are_skipped_for_good sampleClock "news" deafWorld
           (mkChannel "news" "News" 3 (tgChannelFeedUrl "news") "")
           (storedChannel 1 "news" 0)).
  - reflexivity.
  - reflexivity.
  - reflexivity.
  - discriminate.
  - intros id Hid.
    assert (Hcases : id = 1 \/ id = 2 \/ id = 3) by (cbn in Hid; lia).
    destruct Hcases as [->|[->| ->]]; vm_compute; try exact I; discriminate.
Defined.

(** ** The server *)

(** X19.  The tables of the server meet the schema at all times:
    starting from the empty tables that [initDB] creates, and whatever
    the requests, the remote site and the driver's failures are, after
    any number of requests handled one after the other the ids of the
    channels and of the posts are unique and within their counters and
    no two channels share a name. *)
Theorem server_keeps_schema (time_Parse : string -> string -> Time + error)
    (calls : list Call) :
  let d := handleAll time_Parse emptyDb calls in
  wfDb d /\ uniqueNames d /\ wfPosts d.
Proof.
  cbv zeta. unfold handleAll.
  assert (Hinit : wfDb emptyDb /\ uniqueNames emptyDb /\ wfPosts emptyDb).
  { split; [split; constructor|]. split; [constructor|split; constructor]. }
  revert Hinit. generalize emptyDb.
  induction calls as [|c calls IH]; intros d Hd; [exact Hd|].
  cbn [fold_left]. apply IH. unfold handle.
  apply (prepareFeed_schema time_Parse (callName c) (worldOf d c)). exact Hd.
Qed.

(** ** The outcomes of the head lookup *)

(** X20.  What a head lookup that returns can return.  On success the
    channel carries the name asked for, the URL of the listing page as
    link and a head id other than -1, and the listing page showed at
    least one message element.  On failure the channel is the zero
    value, and the error is that of the request or, the page having
    been read, [Can't parse channel page]. *)
Theorem FetchChannel_outcomes (name : string) (w : World) (channel : Channel)
    (err : option error) :
  fst (TelegramWebFetcher.FetchChannel name w) = Return (channel, err) ->
  match err with
  | None =>
      Channel_Name channel = name /\
      Channel_Link channel = tgChannelFeedUrl name /\
      Channel_LastId channel <> -1 /\
      exists doc, web w (tgChannelFeedUrl name) = Page doc /\
                  goquery.Find [doc] ".tgme_widget_message" <> []
  | Some e =>
      channel = zeroChannel /\
      (web w (tgChannelFeedUrl name) = GetFailed e \/
       exists doc, web w (tgChannelFeedUrl name) = Page doc /\
                   e = "Can't parse channel page")
  end.
Proof.
  intros H.
  destruct (web w (tgChannelFeedUrl name)) as [e0|e0|doc] eqn:Hweb.
  - unfold TelegramWebFetcher.FetchChannel, bind, http_Get, emit, ret in H.
    rewrite Hweb in H. cbn [fst] in H. inversion H; subst channel err. split; [reflexivity|].
    left. reflexivity.
  - unfold TelegramWebFetcher.FetchChannel, bind, http_Get in H.
    rewrite Hweb in H. discriminate.
  - rewrite (FetchChannel_Page _ _ _ Hweb) in H. cbv zeta in H.
    destruct (goquery.Find [doc] ".tgme_widget_message") as [|n sel] eqn:Hsel.
    + cbn in H. inversion H; subst channel err. split; [reflexivity|].
      right. exists doc. split; reflexivity.
    + destruct (Each (n :: sel) TelegramWebFetcher.lastIdStep (-1)) as [lastId|msg];
        [|discriminate].
      destruct (lastId =? -1) eqn:Hlast; cbn [fst] in H; inversion H; subst channel err.
      * split; [reflexivity|]. right. exists doc. split; reflexivity.
      * apply Z.eqb_neq in Hlast. cbn [Channel_Name Channel_Link Channel_LastId].
        split; [reflexivity|]. split; [reflexivity|]. split; [exact Hlast|].
        exists doc. split; [reflexivity|rewrite Hsel; discriminate].
Qed.

Lemma FetchChannel_outcomes_witness :
  (Channel_Name (mkChannel "news" "News" 2 (tgChannelFeedUrl "news") "") = "news" /\
   Channel_Link (mkChannel "news" "News" 2 (tgChannelFeedUrl "news") "")
   = tgChannelFeedUrl "news" /\
   Channel_LastId (mkChannel "news" "News" 2 (tgChannelFeedUrl "news") "") <> -1 /\
   exists doc, web undatedWorld (tgChannelFeedUrl "news") = Page doc /\
               goquery.Find [doc] ".tgme_widget_message" <> []) /\
  (zeroChannel = zeroChannel /\
   (web offlineWorld (tgChannelFeedUrl "news") = GetFailed "no such host" \/
    exists doc, web offlineWorld (tgChannelFeedUrl "news") = Page doc /\
                "no such host" = "Can't parse channel page")).
Proof.
  split.
  - apply (FetchChannel_outcomes "news" undatedWorld
             (mkChannel "news" "News" 2 (tgChannelFeedUrl "news") "") None).
    reflexivity.
  - apply (FetchChannel_outcomes "news" offlineWorld zeroChannel (Some "no such host")).
    reflexivity.
Defined.
